(** * MoonTVPlus: the OpenList client and the TMDB correction endpoint

    A shallow embedding of [src/lib/openlist.client.ts] (class
    [OpenListClient]) and of the route handler [POST /api/openlist/correct],
    followed by the properties of the retry wrapper, of the metadata
    read-modify-write cycle and of the request validation.

    Conventions.
    - Asynchronous code is sequential here: every [await] is a monadic bind.
    - The outside world (HTTP servers, the system clock, the configuration
      store, the JSON codec of the runtime) is a record of oracles [Env];
      every theorem quantifies over it.
    - Mutable objects live in a store; a variable of object type holds a
      location, so two variables may alias one object. *)

From Stdlib Require Import ZArith String Ascii List Lia Bool.
From stdpp Require Import base option list gmap strings pretty.

Local Open Scope string_scope.
Local Open Scope list_scope.

(** ** JavaScript values and strings *)

(** The values a parsed JSON body field can take, as far as the handler
    observes them.  [JNum] covers the integer-valued numbers; [JObject]
    stands for an array or an object, of which the handler only observes
    that it is truthy and the string it converts to when used as a property
    key, which the constructor carries. *)
Inductive JsVal : Type :=
  | JUndefined
  | JNull
  | JBool (b : bool)
  | JNum (n : Z)
  | JStr (s : string)
  | JObject (key : string).

(** Truthiness of a string: every string but the empty one. *)
Definition truthy_str (s : string) : bool := negb (String.eqb s "").

(** ToBoolean. *)
Definition truthy (v : JsVal) : bool :=
  match v with
  | JUndefined | JNull => false
  | JBool b => b
  | JNum n => negb (n =? 0)%Z
  | JStr s => truthy_str s
  | JObject _ => true
  end.

(** Truthiness of an optional string property ([undefined] when absent). *)
Definition truthy_opt (o : option string) : bool :=
  match o with
  | Some s => truthy_str s
  | None => false
  end.

(** [a || b] on values and on strings. *)
Definition js_or (a b : JsVal) : JsVal := if truthy a then a else b.
Definition str_or (a b : string) : string := if truthy_str a then a else b.
Definition opt_or (a : option string) (b : string) : string :=
  match a with
  | Some s => str_or s b
  | None => b
  end.

(** [s.endsWith(t)]: [t] is a suffix of [s]. *)
Fixpoint endsWith (s t : string) : bool :=
  String.eqb s t ||
  match s with
  | EmptyString => false
  | String _ s' => endsWith s' t
  end.

(** [s.lastIndexOf(t)], counting from [i] at the head of [s]; [-1] when
    [t] does not occur. *)
Fixpoint lastIndexOf_from (i : Z) (s t : string) : Z :=
  match s with
  | EmptyString => if String.eqb t "" then i else (-1)%Z
  | String _ s' =>
      let r := lastIndexOf_from (i + 1) s' t in
      if (0 <=? r)%Z then r
      else if String.prefix t s then i else (-1)%Z
  end.

Definition lastIndexOf (s t : string) : Z := lastIndexOf_from 0 s t.

(** [s.substring(a, b)]: both indices are clamped to [0, length] and
    swapped when out of order. *)
Definition js_substring (s : string) (a b : Z) : string :=
  let len := Z.of_nat (String.length s) in
  let clamp x := Z.max 0 (Z.min x len) in
  let lo := Z.min (clamp a) (clamp b) in
  let hi := Z.max (clamp a) (clamp b) in
  String.substring (Z.to_nat lo) (Z.to_nat (hi - lo)) s.

(** [s.substring(a)]. *)
Definition js_substring_from (s : string) (a : Z) : string :=
  js_substring s a (Z.of_nat (String.length s)).

(** ** Wire types of [openlist.client.ts] *)

Record OpenListFile : Type := mkOpenListFile {
  name : string;
  size : Z;
  is_dir : bool;
  modified : string;
  sign : option string;
  raw_url : option string;
  thumb : option string;
  type : Z;
  path : option string
}.

Record OpenListListData : Type := mkOpenListListData {
  content : list OpenListFile;
  total : Z;
  readme : string;
  write : bool
}.

Record OpenListListResponse : Type := mkOpenListListResponse {
  list_code : Z;
  list_message : string;
  list_data : OpenListListData
}.

Record OpenListGetResponse : Type := mkOpenListGetResponse {
  code : Z;
  message : string;
  data : OpenListFile
}.

(** The answer of [/api/auth/login] as [login] reads it: [data.code] and
    [data.data?.token] ([None] when [data.data] is nullish or carries no
    token). *)
Record LoginResponse : Type := mkLoginResponse {
  login_code : Z;
  login_token : option string
}.

(** ** Errors, requests, responses *)

(** A thrown [Error]; only its message is observed. *)
Inductive Exn : Type := Error (msg : string).

Definition exn_message (e : Exn) : string := let 'Error m := e in m.

(** The result of an awaited computation: a value, or a rejection. *)
Inductive outcome (A : Type) : Type :=
  | Ok (a : A)
  | Throw (e : Exn).
Arguments Ok {A} a.
Arguments Throw {A} e.

(** The object handed to [JSON.stringify] (or the raw text) that becomes the
    body of an outgoing request, one constructor per call site. *)
Inductive ReqBody : Type :=
  | LoginBody (username password : string)
  | ListBody (path password : string) (refresh : bool) (page per_page : Z)
  | GetBody (path password : string)
  | RemoveBody (names : list string) (dir : string)
  | TextBody (text : string).

(** [RequestInit]: the options of one [fetch] call. *)
Record RequestInit : Type := mkRequestInit {
  method : option string;
  headers : gmap string string;
  body : option ReqBody
}.

(** An HTTP response: its status and its body text. *)
Record Response : Type := mkResponse {
  status : Z;
  text : string
}.

(** [response.ok]. *)
Definition ok (r : Response) : bool :=
  (200 <=? status r)%Z && (status r <=? 299)%Z.

Inductive ConsoleLevel : Type := LogLevel | WarnLevel | ErrorLevel.

(** What the process does to the outside world, in chronological order. *)
Inductive Event : Type :=
  | EvFetch (url : string) (options : RequestInit)
  | EvNow
  | EvGetConfig
  | EvConsole (level : ConsoleLevel) (line : string) (err : option Exn).

(** ** The metadata document *)

Record FolderEntry : Type := mkFolderEntry {
  tmdb_id : JsVal;
  title : JsVal;
  poster_path : JsVal;
  release_date : JsVal;
  overview : JsVal;
  vote_average : JsVal;
  media_type : JsVal;
  last_updated : Z;
  failed : bool
}.

(** [metainfo.json]: the [folders] object, keyed by folder name. *)
Record MetaInfo : Type := mkMetaInfo {
  folders : gmap string FolderEntry
}.

(** ** Configuration and the inbound request *)

(** [config.OpenListConfig]; every property may be absent. *)
Record OpenListConfigT : Type := mkOpenListConfig {
  URL : option string;
  Token : option string;
  Username : option string;
  Password : option string;
  RootPath : option string
}.

Record AdminConfig : Type := mkAdminConfig {
  OpenListConfig : option OpenListConfigT
}.

(** What [getAuthInfoFromCookie] resolves. *)
Record AuthInfo : Type := mkAuthInfo {
  auth_username : option string
}.

(** The inbound request: the identity its cookie resolves to ([None] for
    [null]) and the outcome of [request.json()], an object given by its
    fields; [Throw] when the body is not JSON or cannot be destructured. *)
Record NextRequest : Type := mkNextRequest {
  req_auth : option AuthInfo;
  req_json : outcome (gmap string JsVal)
}.

(** [NextResponse.json(obj, { status })]. *)
Record NextResponse : Type := mkNextResponse {
  res_status : Z;
  res_json : list (string * JsVal)
}.

(** ** The process state and its environment *)

(** [trace]: everything done so far.  [store]: the [MetaInfo] objects
    allocated so far, a location being an index.  [cache]: the process-wide
    metadata cache, from storage root path to the location of the cached
    document. *)
Record World : Type := mkWorld {
  trace : list Event;
  store : list MetaInfo;
  cache : gmap string nat
}.

(** The oracles.
    - [net]: what a [fetch] of the given URL and options yields (a response,
      or a rejection), given everything that happened before.
    - [clock]: the value of [Date.now()] at that point of the history.
    - [config_store]: what [getConfig()] resolves to at that point.
    - [json_login], [json_get], [json_list]: [response.json()] on a body
      text, at the type the call site declares; [Throw] when the text is
      not JSON.
    - [JSON_parse]: [JSON.parse] at type [MetaInfo | null] ([None] for
      [null]); [JSON_stringify]: [JSON.stringify(_, null, 2)] on a
      document.
    - [encodeURIComponent] and [NumberToString] (the conversion a template
      literal applies to a number): the functions of the runtime. *)
Record Env : Type := mkEnv {
  net : list Event -> string -> RequestInit -> outcome Response;
  clock : list Event -> Z;
  config_store : list Event -> outcome AdminConfig;
  json_login : string -> outcome LoginResponse;
  json_get : string -> outcome OpenListGetResponse;
  json_list : string -> outcome OpenListListResponse;
  JSON_parse : string -> outcome (option MetaInfo);
  JSON_stringify : MetaInfo -> string;
  encodeURIComponent : string -> string;
  NumberToString : Z -> string
}.

(** ** A state-and-exception monad *)

Definition M (S A : Type) : Type := S -> outcome A * S.

Definition ret {S A : Type} (a : A) : M S A := fun s => (Ok a, s).

Definition throw {S A : Type} (e : Exn) : M S A := fun s => (Throw e, s).

Definition bind {S A B : Type} (m : M S A) (k : A -> M S B) : M S B :=
  fun s =>
    match m s with
    | (Ok a, s') => k a s'
    | (Throw e, s') => (Throw e, s')
    end.

(** [try { m } catch (e) { h e }]. *)
Definition try_catch {S A : Type} (m : M S A) (h : Exn -> M S A) : M S A :=
  fun s =>
    match m s with
    | (Ok a, s') => (Ok a, s')
    | (Throw e, s') => h e s'
    end.

(** Awaiting an already settled promise. *)
Definition await {S A : Type} (o : outcome A) : M S A := fun s => (o, s).

Notation "'let*' x ':=' m 'in' k" := (bind m (fun x => k))
  (at level 10, x name, m at level 100, k at level 200, only parsing).
Notation "m ';;' k" := (bind m (fun _ => k))
  (at level 100, k at level 200, right associativity, only parsing).

(** ** Primitive operations on the world *)

(** [d.folders[key] = entry] on the value of a document.  [folders d] holds
    the own properties of the object [d.folders], which is what
    [JSON.stringify] writes.  The object comes from [JSON.parse], so it
    inherits from [Object.prototype], and the assignment is an ordinary
    [[Set]]: for every key it creates or overwrites the own property, except
    for the key ["__proto__"] when the object has no own property of that
    name.  There the accessor that [Object.prototype] defines for
    ["__proto__"] is found first: its setter makes [entry] the prototype of
    [d.folders] and creates no own property.  (An own ["__proto__"] property,
    which [JSON.parse] creates for that member name, is overwritten like any
    other.)  The prototype is not part of [MetaInfo]: neither the handler nor
    [JSON.stringify] reads through it. *)
Definition set_folder (key : string) (entry : FolderEntry) (d : MetaInfo)
  : MetaInfo :=
  match String.eqb key "__proto__", folders d !! "__proto__" with
  | true, None => d
  | _, _ => mkMetaInfo (<[key := entry]> (folders d))
  end.

Definition log_event (e : Event) (w : World) : World :=
  mkWorld (trace w ++ [e]) (store w) (cache w).

Section Primitives.
Context (env : Env).

(** [fetch(url, options)]: the request is recorded, the network answers. *)
Definition fetch (url : string) (options : RequestInit) : M World Response :=
  fun w => (net env (trace w) url options, log_event (EvFetch url options) w).

(** [Date.now()]. *)
Definition Date_now : M World Z :=
  fun w => (Ok (clock env (trace w)), log_event EvNow w).

(** [getConfig()]. *)
Definition getConfig : M World AdminConfig :=
  fun w => (config_store env (trace w), log_event EvGetConfig w).

Definition console (level : ConsoleLevel) (line : string) (err : option Exn)
  : M World unit :=
  fun w => (Ok tt, log_event (EvConsole level line err) w).

(** [JSON.parse(content)] at type [MetaInfo | null]: a parsed document is a
    new object. *)
Definition parse_document (text : string) : M World (option nat) :=
  fun w =>
    match JSON_parse env text with
    | Throw e => (Throw e, w)
    | Ok None => (Ok None, w)
    | Ok (Some d) =>
        (Ok (Some (length (store w))),
         mkWorld (trace w) (store w ++ [d]) (cache w))
    end.

(** [metaInfo.folders[key] = entry], through the reference [l]: the object
    at [l] is updated in place, the way [set_folder] says (so nothing is
    stored for the key ["__proto__"] on a document without such an entry). *)
Definition assign_folder (l : nat) (key : string) (entry : FolderEntry)
  : M World unit :=
  fun w =>
    match store w !! l with
    | Some d =>
        (Ok tt,
         mkWorld (trace w) (<[l := set_folder key entry d]> (store w)) (cache w))
    | None => (Throw (Error "TypeError"), w)
    end.

(** [JSON.stringify(metaInfo, null, 2)], through the reference [l]. *)
Definition stringify_document (l : nat) : M World string :=
  fun w =>
    match store w !! l with
    | Some d => (Ok (JSON_stringify env d), w)
    | None => (Throw (Error "TypeError"), w)
    end.
End Primitives.

(** ** The metadata cache ([@/lib/openlist-cache]) *)

(** Modelled from the spec: the module [openlist-cache] ([getCachedMetaInfo],
    [setCachedMetaInfo], [invalidateMetaInfoCache]) is not among the sources.
    Section 4.2 gives its contract: [get] returns the last cached document
    for the root or an absent indicator, [set] stores or overwrites it,
    [invalidate] clears it; there is no expiry.  Section 3 says the cache
    holds one in-memory copy per root path, which a correction mutates in
    place: [get] hands out the cached object itself, not a clone. *)
Definition getCachedMetaInfo (rootPath : string) : M World (option nat) :=
  fun w => (Ok (cache w !! rootPath), w).

(** Modelled from the spec: see [getCachedMetaInfo]. *)
Definition setCachedMetaInfo (rootPath : string) (l : nat) : M World unit :=
  fun w => (Ok tt, mkWorld (trace w) (store w) (<[rootPath := l]> (cache w))).

(** Modelled from the spec: see [getCachedMetaInfo]. *)
Definition invalidateMetaInfoCache (rootPath : string) : M World unit :=
  fun w => (Ok tt, mkWorld (trace w) (store w) (delete rootPath (cache w))).

(** ** [class OpenListClient] *)

(** The fields of a client object.  [token] is the only mutable one. *)
Record Client : Type := mkClient {
  baseURL : string;
  token : string;
  username : option string;
  password : option string
}.

(** Client methods run on the pair of [this] and the world. *)
Definition liftW {A : Type} (m : M World A) : M (Client * World) A :=
  fun s => let (r, w') := m (snd s) in (r, (fst s, w')).

Definition this : M (Client * World) Client := fun s => (Ok (fst s), s).

(** [this.token = t]. *)
Definition set_token (t : string) : M (Client * World) unit :=
  fun s =>
    let c := fst s in
    (Ok tt, (mkClient (baseURL c) t (username c) (password c), snd s)).

Module OpenListClient.
Section Methods.
Context (env : Env).

(** [static async login(baseURL, username, password)]. *)
Definition login (baseURL username password : string) : M World string :=
  let* response :=
    fetch env (baseURL +:+ "/api/auth/login")
      (mkRequestInit (Some "POST")
         (<["Content-Type" := "application/json"]> ∅)
         (Some (LoginBody username password))) in
  if negb (ok response) then
    throw (Error ("OpenList 登录失败: " +:+ NumberToString env (status response)))
  else
    let* data := await (json_login env (text response)) in
    if negb (login_code data =? 200)%Z || negb (truthy_opt (login_token data))
    then throw (Error "OpenList 登录失败: 未获取到Token")
    else ret (default "" (login_token data)).

(** [private async refreshToken()]. *)
Definition refreshToken : M (Client * World) bool :=
  let* c := this in
  if negb (truthy_opt (username c)) || negb (truthy_opt (password c)) then
    ret false
  else
    try_catch
      (liftW (console LogLevel
                "[OpenListClient] Token可能失效，尝试使用账号密码重新登录" None);;
       let* t := liftW (login (baseURL c) (default "" (username c))
                          (default "" (password c))) in
       set_token t;;
       liftW (console LogLevel "[OpenListClient] Token刷新成功" None);;
       ret true)
      (fun error =>
         liftW (console ErrorLevel "[OpenListClient] Token刷新失败:"
                  (Some error));;
         ret false).

(** [{ ...options, headers: { ...options.headers, Authorization: t } }]. *)
Definition with_authorization (options : RequestInit) (t : string)
  : RequestInit :=
  mkRequestInit (method options)
                (<["Authorization" := t]> (headers options))
                (body options).

(** [private async fetchWithRetry(url, options, retried = false)], by
    recursion on the number of retries still allowed: one when [retried]
    is false, none when it is true.  [fetchWithRetry_unfold] below gives
    the recursive equation in the shape of the source. *)
Fixpoint fetchWithRetry_left (retries : nat) (url : string)
    (options : RequestInit) : M (Client * World) Response :=
  let* response := liftW (fetch env url options) in
  let* c := this in
  match retries with
  | S n =>
      if (status response =? 401)%Z && truthy_opt (username c)
         && truthy_opt (password c)
      then
        let* refreshed := refreshToken in
        if refreshed : bool then
          let* c' := this in
          fetchWithRetry_left n url (with_authorization options (token c'))
        else ret response
      else ret response
  | O => ret response
  end.

Definition fetchWithRetry (url : string) (options : RequestInit)
    (retried : bool) : M (Client * World) Response :=
  fetchWithRetry_left (if retried then 0 else 1)%nat url options.

(** [private getHeaders()]. *)
Definition getHeaders (c : Client) : gmap string string :=
  <["Content-Type" := "application/json"]> (<["Authorization" := token c]> ∅).

(** [async listDirectory(path, page = 1, perPage = 100)]. *)
Definition listDirectory (path : string) (page perPage : Z)
  : M (Client * World) OpenListListResponse :=
  let* c := this in
  let* response :=
    fetchWithRetry (baseURL c +:+ "/api/fs/list")
      (mkRequestInit (Some "POST") (getHeaders c)
         (Some (ListBody path "" false page perPage))) false in
  if negb (ok response) then
    throw (Error ("OpenList API 错误: " +:+ NumberToString env (status response)))
  else await (json_list env (text response)).

(** [async getFile(path)]. *)
Definition getFile (path : string) : M (Client * World) OpenListGetResponse :=
  let* c := this in
  let* response :=
    fetchWithRetry (baseURL c +:+ "/api/fs/get")
      (mkRequestInit (Some "POST") (getHeaders c)
         (Some (GetBody path ""))) false in
  if negb (ok response) then
    throw (Error ("OpenList API 错误: " +:+ NumberToString env (status response)))
  else await (json_get env (text response)).

(** [async refreshDirectory(path)]. *)
Definition refreshDirectory (path : string) : M (Client * World) unit :=
  try_catch
    (let* c := this in
     let* response :=
       fetchWithRetry (baseURL c +:+ "/api/fs/list")
         (mkRequestInit (Some "POST") (getHeaders c)
            (Some (ListBody path "" true 1 1))) false in
     if negb (ok response) then
       liftW (console WarnLevel
                ("刷新目录缓存失败: " +:+ NumberToString env (status response))
                None)
     else ret tt)
    (fun error => liftW (console WarnLevel "刷新目录缓存失败:" (Some error))).

(** The headers of the upload request. *)
Definition uploadHeaders (c : Client) (path : string) : gmap string string :=
  <["As-Task" := "false"]>
    (<["File-Path" := encodeURIComponent env path]>
       (<["Content-Type" := "text/plain; charset=utf-8"]>
          (<["Authorization" := token c]> ∅))).

(** [path.substring(0, path.lastIndexOf('/')) || '/']. *)
Definition dirname (path : string) : string :=
  str_or (js_substring path 0 (lastIndexOf path "/")) "/".

(** [async uploadFile(path, content)]. *)
Definition uploadFile (path content : string) : M (Client * World) unit :=
  let* c := this in
  let* response :=
    fetchWithRetry (baseURL c +:+ "/api/fs/put")
      (mkRequestInit (Some "PUT") (uploadHeaders c path)
         (Some (TextBody content))) false in
  if negb (ok response) then
    let errorText := text response in
    throw (Error ("OpenList 上传失败: " +:+ NumberToString env (status response)
                  +:+ " - " +:+ errorText))
  else
    let dir := dirname path in
    refreshDirectory dir.

(** [async deleteFile(path)]. *)
Definition deleteFile (path : string) : M (Client * World) unit :=
  let* c := this in
  let dir := dirname path in
  let fileName := js_substring_from path (lastIndexOf path "/" + 1) in
  let* response :=
    fetchWithRetry (baseURL c +:+ "/api/fs/remove")
      (mkRequestInit (Some "POST") (getHeaders c)
         (Some (RemoveBody [fileName] dir))) false in
  if negb (ok response) then
    throw (Error ("OpenList 删除失败: " +:+ NumberToString env (status response)))
  else ret tt.
End Methods.
End OpenListClient.

(** ** The route handler [POST /api/openlist/correct] *)

(** A destructured body property: [undefined] when the body lacks it. *)
Definition field (body : gmap string JsVal) (k : string) : JsVal :=
  default JUndefined (body !! k).

(** The template of lines 61 and 111:
    [`${rootPath}${rootPath.endsWith('/') ? '' : '/'}metainfo.json`]. *)
Definition metainfoPath (rootPath : string) : string :=
  rootPath +:+ (if endsWith rootPath "/" then "" else "/") +:+ "metainfo.json".

(** The object literal of lines 98-108, [now] being the value of
    [Date.now()]. *)
Definition newEntry (body : gmap string JsVal) (now : Z) : FolderEntry :=
  {| tmdb_id := field body "tmdbId";
     title := field body "title";
     poster_path := field body "posterPath";
     release_date := js_or (field body "releaseDate") (JStr "");
     overview := js_or (field body "overview") (JStr "");
     vote_average := js_or (field body "voteAverage") (JNum 0);
     media_type := field body "mediaType";
     last_updated := now;
     failed := false |}.

Definition download_headers : gmap string string :=
  <["Accept-Language" := "zh-CN,zh;q=0.9,en;q=0.8"]>
    (<["Accept" := "*/*"]>
       (<["User-Agent" :=
            "Mozilla/5.0 (Windows NT 10.0; Win64; x64) AppleWebKit/537.36 (KHTML, like Gecko) Chrome/120.0.0.0 Safari/537.36"]>
          ∅)).

Definition unauthorized : NextResponse :=
  mkNextResponse 401 [("error", JStr "未授权")].
Definition missing_parameters : NextResponse :=
  mkNextResponse 400 [("error", JStr "缺少必要参数")].
Definition not_configured : NextResponse :=
  mkNextResponse 400 [("error", JStr "OpenList 未配置")].
Definition read_failure : NextResponse :=
  mkNextResponse 500 [("error", JStr "metainfo.json 读取失败")].
Definition not_found : NextResponse :=
  mkNextResponse 404 [("error", JStr "metainfo.json 不存在")].
Definition success : NextResponse :=
  mkNextResponse 200 [("success", JBool true); ("message", JStr "纠错成功")].
Definition correction_failure (error : Exn) : NextResponse :=
  mkNextResponse 500
    [("error", JStr "纠错失败"); ("details", JStr (exn_message error))].

Section Handler.
Context (env : Env).

(** The property key that [folders[folder]] uses. *)
Definition ToPropertyKey (v : JsVal) : string :=
  match v with
  | JUndefined => "undefined"
  | JNull => "null"
  | JBool true => "true"
  | JBool false => "false"
  | JNum n => NumberToString env n
  | JStr s => s
  | JObject key => key
  end.

(** Lines 61-80, the body of the inner [try]: the value it leaves in
    [metaInfo] ([None] for [null]). *)
Definition POST_read (rootPath : string) : M (Client * World) (option nat) :=
  let metainfoPath := metainfoPath rootPath in
  let* fileResponse := OpenListClient.getFile env metainfoPath in
  if (code fileResponse =? 200)%Z && truthy_opt (raw_url (data fileResponse))
  then
    let downloadUrl := default "" (raw_url (data fileResponse)) in
    let* contentResponse :=
      liftW (fetch env downloadUrl (mkRequestInit None download_headers None)) in
    if negb (ok contentResponse) then
      throw (Error ("下载失败: " +:+ NumberToString env (status contentResponse)))
    else
      let content := text contentResponse in
      liftW (parse_document env content)
  else ret None.

(** Lines 97-123: the update of the document [l], its upload and the
    cache update. *)
Definition POST_update (rootPath : string) (body : gmap string JsVal)
    (l : nat) : M (Client * World) NextResponse :=
  let* now := liftW (Date_now env) in
  liftW (assign_folder l (ToPropertyKey (field body "folder"))
           (newEntry body now));;
  let metainfoPath := metainfoPath rootPath in
  let* metainfoContent := liftW (stringify_document env l) in
  OpenListClient.uploadFile env metainfoPath metainfoContent;;
  liftW (invalidateMetaInfoCache rootPath);;
  liftW (setCachedMetaInfo rootPath l);;
  ret success.

(** Lines 56-123, with the client constructed at lines 49-54 as [this]. *)
Definition POST_correct (rootPath : string) (body : gmap string JsVal)
  : M (Client * World) NextResponse :=
  let* metaInfo := liftW (getCachedMetaInfo rootPath) in
  let* read :=
    match metaInfo with
    | Some l => ret (inr (Some l))
    | None =>
        try_catch
          (let* m := POST_read rootPath in ret (inr m))
          (fun error =>
             liftW (console ErrorLevel
                      "[OpenList Correct] 读取 metainfo.json 失败:"
                      (Some error));;
             ret (inl read_failure))
    end in
  match read with
  | inl response => ret response
  | inr None => ret not_found
  | inr (Some l) => POST_update rootPath body l
  end.

(** [new OpenListClient(...)] and the rest of the request with it. *)
Definition with_client {A : Type} (c : Client) (m : M (Client * World) A)
  : M World A :=
  fun w => let (r, s) := m (c, w) in (r, snd s).

(** Lines 23-123, the body of the outer [try]. *)
Definition POST_try (request : NextRequest) : M World NextResponse :=
  let authInfo := req_auth request in
  if match authInfo with
     | None => true
     | Some a => negb (truthy_opt (auth_username a))
     end
  then ret unauthorized
  else
    let* body := await (req_json request) in
    if negb (truthy (field body "folder")) || negb (truthy (field body "tmdbId"))
    then ret missing_parameters
    else
      let* config := getConfig env in
      match OpenListConfig config with
      | None => ret not_configured
      | Some openListConfig =>
          if negb (truthy_opt (URL openListConfig))
             || negb (truthy_opt (Token openListConfig))
          then ret not_configured
          else
            let rootPath := opt_or (RootPath openListConfig) "/" in
            let client :=
              mkClient (default "" (URL openListConfig))
                       (default "" (Token openListConfig))
                       (Username openListConfig)
                       (Password openListConfig) in
            with_client client (POST_correct rootPath body)
      end.

(** [export async function POST(request)]. *)
Definition POST (request : NextRequest) : M World NextResponse :=
  try_catch (POST_try request)
    (fun error =>
       console ErrorLevel "视频纠错失败:" (Some error);;
       ret (correction_failure error)).
End Handler.

(** * The vocabulary of the statements *)

(** ** Requests, paths and phases *)

(** The path names the file [metainfo.json] directly inside a directory
    whose name does not itself end with a separator. *)
Definition one_separator (p : string) : Prop :=
  exists d, p = d +:+ "/metainfo.json" /\ endsWith d "/" = false.

(** The request that [login] sends for the credentials [u], [p]. *)
Definition loginRequest (c : Client) (u p : string) : Event :=
  EvFetch (baseURL c +:+ "/api/auth/login")
    (mkRequestInit (Some "POST")
       (<["Content-Type" := "application/json"]> ∅)
       (Some (LoginBody u p))).

(** The first log line of [refreshToken]. *)
Definition announce_refresh : Event :=
  EvConsole LogLevel
    "[OpenListClient] Token可能失效，尝试使用账号密码重新登录" None.

(** [this.username && this.password]. *)
Definition configured (c : Client) : bool :=
  truthy_opt (username c) && truthy_opt (password c).

(** The request that [getFile] starts with. *)
Definition getRequest (c : Client) (path : string) : Event :=
  EvFetch (baseURL c +:+ "/api/fs/get")
    (mkRequestInit (Some "POST") (OpenListClient.getHeaders c)
       (Some (GetBody path ""))).

(** The request that [uploadFile] starts with. *)
Definition putRequest (env : Env) (c : Client) (path content : string) : Event :=
  EvFetch (baseURL c +:+ "/api/fs/put")
    (mkRequestInit (Some "PUT") (OpenListClient.uploadHeaders env c path)
       (Some (TextBody content))).

(** The request of [refreshDirectory]. *)
Definition refreshOptions (c : Client) (path : string) : RequestInit :=
  mkRequestInit (Some "POST") (OpenListClient.getHeaders c)
    (Some (ListBody path "" true 1 1)).

(** What [refreshDirectory] makes of the outcome of its request: a warning
    when the status is not 2xx or when the request threw, nothing else. *)
Definition after_refresh (env : Env) (x : outcome Response * (Client * World))
  : Client * World :=
  match x with
  | (Ok r, s) =>
      if ok r then s
      else (fst s,
            log_event
              (EvConsole WarnLevel
                 ("刷新目录缓存失败: " +:+ NumberToString env (status r)) None)
              (snd s))
  | (Throw e, s) =>
      (fst s, log_event (EvConsole WarnLevel "刷新目录缓存失败:" (Some e)) (snd s))
  end.

(** The download request of line 66. *)
Definition downloadOptions : RequestInit :=
  mkRequestInit None download_headers None.

(** [openListConfig.RootPath || '/']. *)
Definition rootPathOf (cfg : OpenListConfigT) : string :=
  opt_or (RootPath cfg) "/".

(** The client of lines 49-54. *)
Definition clientOf (cfg : OpenListConfigT) : Client :=
  mkClient (default "" (URL cfg)) (default "" (Token cfg))
           (Username cfg) (Password cfg).

(** The folder a body targets: the key that [folders[folder]] uses. *)
Definition folderOf (env : Env) (body : gmap string JsVal) : string :=
  ToPropertyKey env (field body "folder").

(** A request passes the checks of lines 23-46 in world [w]: it is
    authenticated, its body carries a truthy [folder] and [tmdbId], and the
    configuration read at that moment has a storage section with a URL and
    a token.  The result is the body and that section. *)
Definition accepted (env : Env) (request : NextRequest) (w : World)
  : option (gmap string JsVal * OpenListConfigT) :=
  match req_auth request, req_json request, config_store env (trace w) with
  | Some a, Ok body, Ok config =>
      match OpenListConfig config with
      | Some cfg =>
          if truthy_opt (auth_username a)
             && truthy (field body "folder") && truthy (field body "tmdbId")
             && truthy_opt (URL cfg) && truthy_opt (Token cfg)
          then Some (body, cfg)
          else None
      | None => None
      end
  | _, _, _ => None
  end.

(** The state in which the correction proper starts. *)
Definition entered (cfg : OpenListConfigT) (w : World) : Client * World :=
  (clientOf cfg, log_event EvGetConfig w).

(** The log lines of the two [catch] blocks of the handler. *)
Definition log_failure (e : Exn) : Event :=
  EvConsole ErrorLevel "视频纠错失败:" (Some e).

Definition log_read_failure (e : Exn) : Event :=
  EvConsole ErrorLevel "[OpenList Correct] 读取 metainfo.json 失败:" (Some e).

(** The cache after [invalidateMetaInfoCache] and [setCachedMetaInfo]. *)
Definition recache (rootPath : string) (l : nat) (w : World) : World :=
  mkWorld (trace w) (store w) (<[rootPath := l]> (delete rootPath (cache w))).

(** The read phase of an accepted request ends in state [s] with the
    reference [l] in [metaInfo]: taken from the cache, or produced by
    lines 61-80 on a cache miss. *)
Definition reads (env : Env) (cfg : OpenListConfigT) (w : World) (l : nat)
    (s : Client * World) : Prop :=
  cache w !! rootPathOf cfg = Some l /\ s = entered cfg w
  \/ cache w !! rootPathOf cfg = None
     /\ POST_read env (rootPathOf cfg) (entered cfg w) = (Ok (Some l), s).

(** [d0] is what lines 61-79 obtain from the storage service in state [s0]:
    [getFile] resolves the document path to a file with code 200 and a
    download address, the download of that address is answered 2xx, and
    [JSON.parse] makes the document [d0] of the text of that answer. *)
Definition downloaded (env : Env) (rootPath : string) (s0 : Client * World)
    (d0 : MetaInfo) : Prop :=
  exists (f : OpenListGetResponse) (s1 : Client * World) (u : string)
         (r : Response),
    OpenListClient.getFile env (metainfoPath rootPath) s0 = (Ok f, s1)
    /\ code f = 200%Z
    /\ raw_url (data f) = Some u
    /\ net env (trace (snd s1)) u downloadOptions = Ok r
    /\ ok r = true
    /\ JSON_parse env (text r) = Ok (Some d0).

(** The document [d0] after line 98, in the state [s] reached by the read
    phase, and the state in which the upload starts. *)
Definition corrected (env : Env) (body : gmap string JsVal) (s : Client * World)
    (d0 : MetaInfo) : MetaInfo :=
  set_folder (folderOf env body) (newEntry body (clock env (trace (snd s)))) d0.

Definition upload_state (env : Env) (body : gmap string JsVal) (l : nat)
    (s : Client * World) (d0 : MetaInfo) : Client * World :=
  (fst s,
   mkWorld (trace (snd s) ++ [EvNow])
           (<[l := corrected env body s d0]> (store (snd s)))
           (cache (snd s))).

(** The entry for folder [F] in the document cached for [rootPath]. *)
Definition cached_entry (w : World) (rootPath F : string) : option FolderEntry :=
  match cache w !! rootPath with
  | Some l =>
      match store w !! l with
      | Some d => folders d !! F
      | None => None
      end
  | None => None
  end.

(** The clock does not run backwards. *)
Definition clock_monotone (env : Env) : Prop :=
  forall h ext, (clock env h <= clock env (h ++ ext))%Z.

(** ** Relations between worlds *)

(** [io w w']: from [w] to [w'] the process only talked to the outside;
    the object store and the cache are as they were. *)
Definition io (w w' : World) : Prop :=
  store w' = store w /\ cache w' = cache w
  /\ exists ext, trace w' = trace w ++ ext.

(** [grows w w']: as [io], but new objects may have been allocated. *)
Definition grows (w w' : World) : Prop :=
  (exists new, store w' = store w ++ new) /\ cache w' = cache w
  /\ exists ext, trace w' = trace w ++ ext.

(** Every run of [m] takes the world to an [R]-related one, whether it
    returns or throws. *)
Definition respects {S : Type} (wof : S -> World)
    (R : World -> World -> Prop) {A : Type} (m : M S A) : Prop :=
  forall s, R (wof s) (wof (snd (m s))).

(** From [w] to [w'], every document that existed still exists and has, for
    every folder but [F], the entry it had (or still none). *)
Definition others_kept (F : string) (w w' : World) : Prop :=
  forall (l : nat) (d : MetaInfo),
    store w !! l = Some d ->
    exists d', store w' !! l = Some d'
               /\ forall G, G <> F -> folders d' !! G = folders d !! G.

(** The number of requests sent to [url]. *)
Definition requests_to (url : string) (t : list Event) : nat :=
  length (List.filter (fun ev => match ev with
                                 | EvFetch u _ => String.eqb u url
                                 | _ => false
                                 end) t).

(** The texts sent as request bodies to [url], in the order sent. *)
Definition uploaded_texts (url : string) (t : list Event) : list string :=
  flat_map (fun ev => match ev with
                      | EvFetch u options =>
                          if String.eqb u url then
                            match body options with
                            | Some (TextBody content) => [content]
                            | _ => []
                            end
                          else []
                      | _ => []
                      end) t.

(** ** Concrete environments *)

Module Fixture.

Definition cfg : OpenListConfigT :=
  mkOpenListConfig (Some "http://ol") (Some "stale") (Some "admin")
                   (Some "secret") (Some "/media").

(** The same storage section without credentials. *)
Definition cfg_token_only : OpenListConfigT :=
  mkOpenListConfig (Some "http://ol") (Some "stale") None None (Some "/media").

Definition file : OpenListFile :=
  mkOpenListFile "metainfo.json" 120 false "2024-01-01T00:00:00Z" None
                 (Some "http://dl/metainfo.json") None 0 None.

Definition old_entry : FolderEntry :=
  {| tmdb_id := JNum 11; title := JStr "Wrong match";
     poster_path := JStr "/old.jpg"; release_date := JStr "1977-05-25";
     overview := JStr "old"; vote_average := JNum 8; media_type := JStr "movie";
     last_updated := 5; failed := true |}.

Definition other_entry : FolderEntry :=
  {| tmdb_id := JNum 550; title := JStr "Fight Club";
     poster_path := JUndefined; release_date := JStr "1999-10-15";
     overview := JStr ""; vote_average := JNum 8; media_type := JStr "movie";
     last_updated := 7; failed := false |}.

Definition doc : MetaInfo :=
  mkMetaInfo (<["Movie" := old_entry]> (<["Other" := other_entry]> ∅)).

(** A storage service that accepts the token ["fresh"] only, hands it out
    at login, answers uploads with [put_status] and directory listings with
    [listing]. *)
Definition served (put_status : Z) (listing : outcome Response)
    (history : list Event) (url : string) (options : RequestInit)
  : outcome Response :=
  if String.eqb url "http://ol/api/auth/login" then Ok (mkResponse 200 "LOGIN")
  else if String.eqb url "http://dl/metainfo.json" then Ok (mkResponse 200 "DOC")
  else
    match headers options !! "Authorization" with
    | Some t =>
        if String.eqb t "fresh" then
          if String.eqb url "http://ol/api/fs/put" then Ok (mkResponse put_status "")
          else if String.eqb url "http://ol/api/fs/get" then Ok (mkResponse 200 "FILE")
          else listing
        else Ok (mkResponse 401 "")
    | None => Ok (mkResponse 401 "")
    end.

(** A service that answers 401 to everything, the login included. *)
Definition denied (history : list Event) (url : string) (options : RequestInit)
  : outcome Response :=
  Ok (mkResponse 401 "").

(** An environment around a network, a clock and a storage section.  The
    codec knows three texts: the login answer, the file descriptor and the
    document. *)
Definition mock (network : list Event -> string -> RequestInit -> outcome Response)
    (time : list Event -> Z) (section : OpenListConfigT) : Env :=
  {| net := network;
     clock := time;
     config_store := fun _ => Ok (mkAdminConfig (Some section));
     json_login := fun t =>
       if String.eqb t "LOGIN" then Ok (mkLoginResponse 200 (Some "fresh"))
       else Throw (Error "SyntaxError");
     json_get := fun t =>
       if String.eqb t "FILE" then Ok (mkOpenListGetResponse 200 "success" file)
       else Throw (Error "SyntaxError");
     json_list := fun _ => Throw (Error "SyntaxError");
     JSON_parse := fun t =>
       if String.eqb t "DOC" then Ok (Some doc)
       else if String.eqb t "null" then Ok None
       else Throw (Error "SyntaxError");
     JSON_stringify := fun d =>
       match folders d !! "Movie" with
       | Some e => if failed e then "DOC" else "DOC, Movie corrected"
       | None => "DOC without Movie"
       end;
     encodeURIComponent := fun s => s;
     NumberToString := fun z => pretty z |}.

(** A clock that advances with every event, and one that stands still. *)
Definition ticking (history : list Event) : Z := Z.of_nat (length history).
Definition frozen (history : list Event) : Z := 1700000000000.

Definition env_ok : Env := mock (served 200 (Ok (mkResponse 200 "LIST"))) ticking cfg.
Definition env_frozen : Env := mock (served 200 (Ok (mkResponse 200 "LIST"))) frozen cfg.
Definition env_upload_fails : Env :=
  mock (served 500 (Ok (mkResponse 200 "LIST"))) ticking cfg.
Definition env_refresh_fails : Env :=
  mock (served 200 (Throw (Error "fetch failed"))) ticking cfg.
Definition env_denied : Env := mock denied ticking cfg.
Definition env_token_only : Env := mock denied ticking cfg_token_only.

(** [{ folder: "Movie", tmdbId: 603, title: "The Matrix" }], sent by a
    signed-in user. *)
Definition body : gmap string JsVal :=
  <["folder" := JStr "Movie"]>
    (<["tmdbId" := JNum 603]> (<["title" := JStr "The Matrix"]> ∅)).

Definition request : NextRequest :=
  mkNextRequest (Some (mkAuthInfo (Some "alice"))) (Ok body).

(** A fresh process, and one whose cache already holds the document. *)
Definition cold : World := mkWorld [] [] ∅.
Definition warm : World := mkWorld [] [doc] (<["/media" := 0%nat]> ∅).

End Fixture.

(** ** The vocabulary of the further properties *)

(** [s] contains no separator. *)
Fixpoint slashless (s : string) : bool :=
  match s with
  | EmptyString => true
  | String c s' => negb (Ascii.eqb c "/") && slashless s'
  end.

(** The world after the events [es], in that order. *)
Definition log_events (es : list Event) (w : World) : World :=
  mkWorld (trace w ++ es) (store w) (cache w).

(** The two log lines that end [refreshToken]. *)
Definition refresh_failed (e : Exn) : Event :=
  EvConsole ErrorLevel "[OpenListClient] Token刷新失败:" (Some e).

Definition refresh_done : Event :=
  EvConsole LogLevel "[OpenListClient] Token刷新成功" None.

(** The options of the request that [login] sends. *)
Definition loginOptions (u p : string) : RequestInit :=
  mkRequestInit (Some "POST")
    (<["Content-Type" := "application/json"]> ∅)
    (Some (LoginBody u p)).

(** [c'] is [c] up to its token: the fields the constructor sets once. *)
Definition same_identity (c c' : Client) : Prop :=
  baseURL c' = baseURL c /\ username c' = username c
  /\ password c' = password c.

(** [this.token = t] on a client value. *)
Definition with_token (c : Client) (t : string) : Client :=
  mkClient (baseURL c) t (username c) (password c).

(** Every request among the events [new] goes to one of the URLs
    [allowed]. *)
Definition only_urls (allowed : list string) (new : list Event) : Prop :=
  Forall (fun ev => match ev with
                    | EvFetch u _ => In u allowed
                    | _ => True
                    end) new.

(** From state [s] to [s'] the client kept its identity and the process
    only sent requests to the URLs that [allowed] lists for the client's
    base URL; store and cache are as they were. *)
Definition contacts (allowed : string -> list string)
    (s s' : Client * World) : Prop :=
  same_identity (fst s) (fst s')
  /\ store (snd s') = store (snd s) /\ cache (snd s') = cache (snd s)
  /\ exists new, trace (snd s') = trace (snd s) ++ new
                 /\ only_urls (allowed (baseURL (fst s))) new.

(** Every run of [m] takes the state to an [R]-related one. *)
Definition keeps {S A : Type} (R : S -> S -> Prop) (m : M S A) : Prop :=
  forall s, R s (snd (m s)).

(** The endpoints of the storage service, for a base URL. *)
Definition loginURL (b : string) : string := b +:+ "/api/auth/login".
Definition listURL (b : string) : string := b +:+ "/api/fs/list".
Definition getURL (b : string) : string := b +:+ "/api/fs/get".
Definition putURL (b : string) : string := b +:+ "/api/fs/put".
Definition removeURL (b : string) : string := b +:+ "/api/fs/remove".

(** The request that [deleteFile] starts with. *)
Definition removeRequest (c : Client) (names : list string) (dir : string)
  : Event :=
  EvFetch (removeURL (baseURL c))
    (mkRequestInit (Some "POST") (OpenListClient.getHeaders c)
       (Some (RemoveBody names dir))).

(** More requests for the concrete environments. *)
Module Sample.

(** [{ folder: "Other", tmdbId: 550 }]. *)
Definition body_other : gmap string JsVal :=
  <["folder" := JStr "Other"]> (<["tmdbId" := JNum 550]> ∅).

Definition request_other : NextRequest :=
  mkNextRequest (Some (mkAuthInfo (Some "alice"))) (Ok body_other).

(** [{ folder: "Movie" }]: no catalog identifier. *)
Definition request_without_id : NextRequest :=
  mkNextRequest (Some (mkAuthInfo (Some "alice")))
    (Ok (<["folder" := JStr "Movie"]> ∅)).

(** A request whose body is not JSON, with and without a session. *)
Definition broken : Exn := Error "Unexpected end of JSON input".

Definition request_broken : NextRequest :=
  mkNextRequest (Some (mkAuthInfo (Some "alice"))) (Throw broken).

Definition request_anonymous : NextRequest :=
  mkNextRequest None (Throw broken).

(** A client whose token the service of [Fixture.served] accepts. *)
Definition client_fresh : Client := with_token (clientOf Fixture.cfg) "fresh".

(** [{ folder: "__proto__", tmdbId: 603, title: "The Matrix" }]: a
    correction for the directory named [__proto__]. *)
Definition body_proto : gmap string JsVal :=
  <["folder" := JStr "__proto__"]>
    (<["tmdbId" := JNum 603]> (<["title" := JStr "The Matrix"]> ∅)).

Definition request_proto : NextRequest :=
  mkNextRequest (Some (mkAuthInfo (Some "alice"))) (Ok body_proto).

(** [Fixture.env_ok] with a serializer that tells whether the document has
    an entry named [__proto__]. *)
Definition env_proto : Env :=
  {| net := net Fixture.env_ok;
     clock := clock Fixture.env_ok;
     config_store := config_store Fixture.env_ok;
     json_login := json_login Fixture.env_ok;
     json_get := json_get Fixture.env_ok;
     json_list := json_list Fixture.env_ok;
     JSON_parse := JSON_parse Fixture.env_ok;
     JSON_stringify := fun d =>
       match folders d !! "__proto__" with
       | Some _ => "DOC, __proto__ corrected"
       | None => "DOC"
       end;
     encodeURIComponent := encodeURIComponent Fixture.env_ok;
     NumberToString := NumberToString Fixture.env_ok |}.

End Sample.

(** * Properties *)

(** ** The helpers on small inputs *)

Example truthy_values :
  truthy (JStr "") = false /\ truthy (JNum 0) = false
  /\ truthy JUndefined = false /\ truthy JNull = false
  /\ truthy (JStr "0") = true /\ truthy (JNum 603) = true
  /\ truthy (JObject "") = true.
Proof. repeat split. Qed.

Example endsWith_values :
  endsWith "/media/" "/" = true /\ endsWith "/media" "/" = false
  /\ endsWith "" "/" = false /\ endsWith "/" "/" = true.
Proof. repeat split. Qed.

Example metainfoPath_values :
  metainfoPath "/" = "/metainfo.json"
  /\ metainfoPath "/media" = "/media/metainfo.json"
  /\ metainfoPath "/media/" = "/media/metainfo.json"
  /\ metainfoPath "/a/b" = "/a/b/metainfo.json".
Proof. repeat split. Qed.

Example lastIndexOf_values :
  lastIndexOf "/media/metainfo.json" "/" = 6%Z
  /\ lastIndexOf "metainfo.json" "/" = (-1)%Z
  /\ lastIndexOf "/metainfo.json" "/" = 0%Z.
Proof. repeat split. Qed.

Example dirname_values :
  OpenListClient.dirname "/media/metainfo.json" = "/media"
  /\ OpenListClient.dirname "/metainfo.json" = "/"
  /\ OpenListClient.dirname "metainfo.json" = "/"
  /\ js_substring_from "/media/metainfo.json" 7 = "metainfo.json".
Proof. repeat split. Qed.

(** A client without credentials hands the 401 back after one request. *)
Example token_only_returns_401 :
  let c := clientOf Fixture.cfg_token_only in
  let options :=
    mkRequestInit (Some "POST") (OpenListClient.getHeaders c)
                  (Some (GetBody "/media/metainfo.json" "")) in
  OpenListClient.fetchWithRetry Fixture.env_token_only "http://ol/api/fs/get"
    options false (c, Fixture.cold)
  = (Ok (mkResponse 401 ""),
     (c, mkWorld [EvFetch "http://ol/api/fs/get" options] [] ∅)).
Proof. reflexivity. Qed.

(** The handler on a fresh process and a working service: 200, and the
    requests in the order of the source. *)
Example correction_on_cold_cache :
  let run := POST Fixture.env_ok Fixture.request Fixture.cold in
  fst run = Ok success
  /\ requests_to "http://ol/api/fs/get" (trace (snd run)) = 2%nat
  /\ requests_to "http://ol/api/auth/login" (trace (snd run)) = 1%nat
  /\ requests_to "http://dl/metainfo.json" (trace (snd run)) = 1%nat
  /\ requests_to "http://ol/api/fs/put" (trace (snd run)) = 1%nat
  /\ requests_to "http://ol/api/fs/list" (trace (snd run)) = 1%nat
  /\ cached_entry (snd run) "/media" "Other" = Some Fixture.other_entry.
Proof. vm_compute. repeat split. Qed.

(** ** Strings *)

Local Arguments String.append : simpl nomatch.

Lemma append_assoc' (a b c : string) : (a +:+ b) +:+ c = a +:+ (b +:+ c).
Proof. induction a as [|x a IH]; simpl; [reflexivity | now rewrite IH]. Qed.

Lemma length_append' (a b : string) :
  String.length (a +:+ b) = (String.length a + String.length b)%nat.
Proof. induction a as [|x a IH]; simpl; [reflexivity | now rewrite IH]. Qed.

Lemma append_cancel_r (p q t : string) : p +:+ t = q +:+ t -> p = q.
Proof.
  revert q. induction p as [|x p IH]; intros [|y q] H; simpl in H.
  - reflexivity.
  - apply (f_equal String.length) in H. simpl in H.
    rewrite length_append' in H. lia.
  - apply (f_equal String.length) in H. simpl in H.
    rewrite length_append' in H. lia.
  - injection H as -> H. f_equal. now apply IH.
Qed.

Lemma endsWith_unfold (s t : string) :
  endsWith s t =
  String.eqb s t ||
  match s with
  | EmptyString => false
  | String _ s' => endsWith s' t
  end.
Proof. destruct s; reflexivity. Qed.

Lemma endsWith_refl (t : string) : endsWith t t = true.
Proof. rewrite endsWith_unfold, String.eqb_refl. reflexivity. Qed.

Lemma endsWith_append (p t : string) : endsWith (p +:+ t) t = true.
Proof.
  induction p as [|x p IH].
  - apply endsWith_refl.
  - change (String x p +:+ t) with (String x (p +:+ t)).
    rewrite endsWith_unfold, IH. apply orb_true_r.
Qed.

Lemma endsWith_inv (s t : string) :
  endsWith s t = true -> exists p, s = p +:+ t.
Proof.
  induction s as [|x s IH]; rewrite endsWith_unfold; intros H;
    apply orb_true_iff in H as [H|H];
    try (apply String.eqb_eq in H; subst t; now exists "").
  - discriminate.
  - destruct (IH H) as [p ->]. now exists (String x p).
Qed.

(** ** Validation (lines 23-36) *)

Lemma POST_falsy (env : Env) (request : NextRequest) (a : AuthInfo)
    (body : gmap string JsVal) (w : World) :
  req_auth request = Some a ->
  truthy_opt (auth_username a) = true ->
  req_json request = Ok body ->
  truthy (field body "folder") = false \/ truthy (field body "tmdbId") = false ->
  POST env request w = (Ok missing_parameters, w).
Proof.
  intros Ha Hu Hb Hf.
  unfold POST, try_catch, POST_try, bind, await, ret.
  rewrite Ha, Hu, Hb. simpl.
  destruct Hf as [-> | ->]; simpl; [reflexivity|].
  now rewrite orb_true_r.
Qed.

(** C8.  An authenticated request whose JSON body lacks [folder] or lacks
    [tmdbId] is answered with the 400 response "缺少必要参数", and the world
    is left exactly as it was: no configuration lookup, no request to the
    storage service, no download, no upload, not even a log line. *)
Theorem C8_missing_field_rejected_before_any_call (env : Env)
    (request : NextRequest) (a : AuthInfo) (body : gmap string JsVal)
    (w : World) :
  req_auth request = Some a ->
  truthy_opt (auth_username a) = true ->
  req_json request = Ok body ->
  body !! "folder" = None \/ body !! "tmdbId" = None ->
  POST env request w = (Ok missing_parameters, w)
  /\ res_status missing_parameters = 400%Z.
Proof.
  intros Ha Hu Hb Hm. split; [|reflexivity].
  apply (POST_falsy env request a body w Ha Hu Hb).
  unfold field. destruct Hm as [-> | ->]; [left | right]; reflexivity.
Qed.

(** C10.  A [folder] or [tmdbId] that is present but falsy (the empty
    string, the number 0, [null], [false]) is rejected with the very
    response a missing field gets; so the catalog identifier 0 is never
    accepted. *)
Theorem C10_falsy_field_rejected (env : Env) (request : NextRequest)
    (a : AuthInfo) (body : gmap string JsVal) (v : JsVal) (w : World) :
  req_auth request = Some a ->
  truthy_opt (auth_username a) = true ->
  req_json request = Ok body ->
  body !! "folder" = Some v \/ body !! "tmdbId" = Some v ->
  truthy v = false ->
  POST env request w = (Ok missing_parameters, w)
  /\ truthy (JStr "") = false /\ truthy (JNum 0) = false.
Proof.
  intros Ha Hu Hb Hv Hf. split; [|split; reflexivity].
  apply (POST_falsy env request a body w Ha Hu Hb).
  unfold field. destruct Hv as [-> | ->]; [left | right]; exact Hf.
Qed.

(** ** The document path (lines 61 and 111) *)

Lemma metainfoPath_slash (rootPath : string) :
  endsWith rootPath "/" = true ->
  metainfoPath rootPath = rootPath +:+ "metainfo.json".
Proof. unfold metainfoPath. now intros ->. Qed.

Lemma metainfoPath_no_slash (rootPath : string) :
  endsWith rootPath "/" = false ->
  metainfoPath rootPath = rootPath +:+ "/metainfo.json".
Proof. unfold metainfoPath. now intros ->. Qed.

(** ** The retry wrapper (lines 74-121) *)

Section Retry.
Context (env : Env).

(** [login] issues exactly one request, whatever comes back. *)
Lemma login_world (b u p : string) (w : World) :
  snd (OpenListClient.login env b u p w)
  = log_event (EvFetch (b +:+ "/api/auth/login")
                 (mkRequestInit (Some "POST")
                    (<["Content-Type" := "application/json"]> ∅)
                    (Some (LoginBody u p)))) w.
Proof.
  unfold OpenListClient.login, bind, fetch, throw, await, ret. simpl.
  destruct (net env _ _ _) as [r|e]; [|reflexivity].
  destruct (negb (ok r)); [reflexivity|].
  destruct (json_login env _) as [d|e]; [|reflexivity].
  destruct (_ || _); reflexivity.
Qed.

(** The recursive equation of [fetchWithRetry], as the source writes it:
    condition [status === 401 && !retried && username && password], and a
    recursive call with [retried = true]. *)
Lemma fetchWithRetry_unfold (url : string) (options : RequestInit)
    (retried : bool) (s : Client * World) :
  OpenListClient.fetchWithRetry env url options retried s
  = (let* response := liftW (fetch env url options) in
     let* c := this in
     if (status response =? 401)%Z && negb retried
        && truthy_opt (username c) && truthy_opt (password c)
     then
       let* refreshed := OpenListClient.refreshToken env in
       if refreshed : bool then
         let* c' := this in
         OpenListClient.fetchWithRetry env url
           (OpenListClient.with_authorization options (token c')) true
       else ret response
     else ret response) s.
Proof.
  unfold OpenListClient.fetchWithRetry.
  destruct retried; simpl; unfold bind.
  - destruct (liftW _ s) as [[r|e] s1]; [|reflexivity].
    simpl. now rewrite andb_false_r.
  - destruct (liftW _ s) as [[r|e] s1]; [|reflexivity].
    simpl. now rewrite andb_true_r.
Qed.

(** A call that is already a retry issues its request and returns
    whatever comes back. *)
Lemma fetchWithRetry_retried (url : string) (options : RequestInit)
    (c : Client) (w : World) :
  OpenListClient.fetchWithRetry env url options true (c, w)
  = (net env (trace w) url options, (c, log_event (EvFetch url options) w)).
Proof.
  unfold OpenListClient.fetchWithRetry. simpl.
  unfold bind, liftW, fetch, this, ret. simpl.
  destruct (net env _ _ _); reflexivity.
Qed.
End Retry.

Section RetryTheorem.
Context (env : Env).

(** C1, amended.  Take a call through the retry wrapper whose first response
    has status 401.
    - With a username and a password configured, [login] is attempted
      exactly once.  If it fails, no request is reissued and the first 401
      response is returned.  If it succeeds with token [t], the token is
      stored, the request is reissued exactly once with [Authorization: t],
      and the outcome of that second request is the outcome of the call,
      a second 401 included: there is no third request.
    - Without a username or without a password, the response is returned
      at once: the only thing that happened is the one request. *)
Theorem C1_retry_once (url : string) (options : RequestInit) (c : Client)
    (w : World) (r1 : Response) :
  net env (trace w) url options = Ok r1 ->
  status r1 = 401%Z ->
  let w0 := log_event (EvFetch url options) w in
  (forall u p,
      username c = Some u -> password c = Some p ->
      truthy_str u = true -> truthy_str p = true ->
      let w1 := log_event announce_refresh w0 in
      let w2 := log_event (loginRequest c u p) w1 in
      (forall e,
          fst (OpenListClient.login env (baseURL c) u p w1) = Throw e ->
          OpenListClient.fetchWithRetry env url options false (c, w)
          = (Ok r1,
             (c, log_event
                   (EvConsole ErrorLevel "[OpenListClient] Token刷新失败:" (Some e))
                   w2)))
      /\
      (forall t,
          fst (OpenListClient.login env (baseURL c) u p w1) = Ok t ->
          let c' := mkClient (baseURL c) t (username c) (password c) in
          let w3 := log_event
                      (EvConsole LogLevel "[OpenListClient] Token刷新成功" None)
                      w2 in
          let options' := OpenListClient.with_authorization options t in
          OpenListClient.fetchWithRetry env url options false (c, w)
          = (net env (trace w3) url options',
             (c', log_event (EvFetch url options') w3))))
  /\
  (configured c = false ->
   OpenListClient.fetchWithRetry env url options false (c, w) = (Ok r1, (c, w0))).
Proof.
  intros Hnet H401 w0. split.
  - intros u p Hu Hp Tu Tp w1 w2.
    assert (Hw : snd (OpenListClient.login env (baseURL c) u p w1) = w2)
      by apply login_world.
    split.
    + intros e He.
      rewrite fetchWithRetry_unfold.
      unfold bind, liftW, fetch, this, ret. simpl. rewrite Hnet. simpl.
      rewrite H401, Hu, Hp. simpl. rewrite Tu, Tp. simpl.
      unfold OpenListClient.refreshToken, bind, this, try_catch, liftW, console, ret.
      simpl. rewrite Hu, Hp. simpl. rewrite Tu, Tp. simpl.
      fold w0. fold announce_refresh. fold w1.
      destruct (OpenListClient.login env (baseURL c) u p w1) as [o w'].
      simpl in He, Hw. subst o w'. reflexivity.
    + intros t Ht c' w3 options'.
      rewrite fetchWithRetry_unfold.
      unfold bind, liftW, fetch, this, ret. simpl. rewrite Hnet. simpl.
      rewrite H401, Hu, Hp. simpl. rewrite Tu, Tp. simpl.
      unfold OpenListClient.refreshToken, bind, this, try_catch, liftW, console,
        set_token, ret.
      simpl. rewrite Hu, Hp. simpl. rewrite Tu, Tp. simpl.
      fold w0. fold announce_refresh. fold w1.
      destruct (OpenListClient.login env (baseURL c) u p w1) as [o w'].
      simpl in Ht, Hw. subst o w'. simpl.
      rewrite fetchWithRetry_retried. reflexivity.
  - intros Hc.
    rewrite fetchWithRetry_unfold.
    unfold bind, liftW, fetch, this, ret. simpl. rewrite Hnet. simpl.
    unfold configured in Hc.
    rewrite <- andb_assoc, Hc, andb_false_r. reflexivity.
Qed.
End RetryTheorem.

(** ** What a computation may do to the world *)

#[local] Instance io_preorder : PreOrder io.
Proof.
  split.
  - intros w. split; [|split]; [reflexivity | reflexivity |].
    exists []. now rewrite app_nil_r.
  - intros a b c (S1 & C1 & e1 & T1) (S2 & C2 & e2 & T2).
    split; [|split]; [congruence | congruence |].
    exists (e1 ++ e2). rewrite T2, T1. now rewrite app_assoc.
Qed.

#[local] Instance grows_preorder : PreOrder grows.
Proof.
  split.
  - intros w. split; [|split]; [exists [] | reflexivity | exists []];
      now rewrite app_nil_r.
  - intros a b c ((n1 & S1) & C1 & e1 & T1) ((n2 & S2) & C2 & e2 & T2).
    split; [|split]; [exists (n1 ++ n2) | congruence | exists (e1 ++ e2)].
    + rewrite S2, S1. now rewrite app_assoc.
    + rewrite T2, T1. now rewrite app_assoc.
Qed.

Lemma io_grows (w w' : World) : io w w' -> grows w w'.
Proof.
  intros (S1 & C1 & E1). split; [|split]; [exists [] | exact C1 | exact E1].
  now rewrite app_nil_r.
Qed.

Lemma io_log_event (e : Event) (w : World) : io w (log_event e w).
Proof. split; [|split]; [reflexivity | reflexivity | now exists [e]]. Qed.

Section Respects.
Context {S : Type} (wof : S -> World) (R : World -> World -> Prop).
Context `{!PreOrder R}.

Lemma respects_ret {A : Type} (a : A) : respects wof R (ret a).
Proof. intros s. simpl. reflexivity. Qed.

Lemma respects_throw {A : Type} (e : Exn) : respects wof R (@throw S A e).
Proof. intros s. simpl. reflexivity. Qed.

Lemma respects_await {A : Type} (o : outcome A) : respects wof R (await o).
Proof. intros s. simpl. reflexivity. Qed.

Lemma respects_bind {A B : Type} (m : M S A) (k : A -> M S B) :
  respects wof R m -> (forall a, respects wof R (k a)) ->
  respects wof R (bind m k).
Proof.
  intros Hm Hk s. unfold bind. specialize (Hm s).
  destruct (m s) as [[a|e] s1]; simpl in *; [|exact Hm].
  etransitivity; [exact Hm | apply Hk].
Qed.

Lemma respects_try_catch {A : Type} (m : M S A) (h : Exn -> M S A) :
  respects wof R m -> (forall e, respects wof R (h e)) ->
  respects wof R (try_catch m h).
Proof.
  intros Hm Hh s. unfold try_catch. specialize (Hm s).
  destruct (m s) as [[a|e] s1]; simpl in *; [exact Hm|].
  etransitivity; [exact Hm | apply Hh].
Qed.
End Respects.

Lemma respects_liftW (R : World -> World -> Prop) {A : Type} (m : M World A) :
  respects id R m -> respects snd R (liftW m).
Proof.
  intros Hm [c w]. unfold liftW. simpl. specialize (Hm w). unfold id in Hm.
  now destruct (m w).
Qed.

Lemma respects_this (R : World -> World -> Prop) `{!PreOrder R} :
  respects snd R this.
Proof. intros s. simpl. reflexivity. Qed.

Lemma respects_set_token (R : World -> World -> Prop) `{!PreOrder R}
    (t : string) : respects snd R (set_token t).
Proof. intros s. simpl. reflexivity. Qed.

Lemma respects_io_grows {S A : Type} (wof : S -> World) (m : M S A) :
  respects wof io m -> respects wof grows m.
Proof. intros H s. apply io_grows, H. Qed.

(** One step of a proof that a computation built from [bind], [try_catch],
    conditionals and primitives respects a relation. *)
Ltac respects_intro :=
  try typeclasses eauto;
  try match goal with |- forall _, _ => intros ? end.

Ltac respects_step :=
  first
    [ apply respects_bind; respects_intro
    | apply respects_try_catch; respects_intro
    | apply respects_ret; respects_intro
    | apply respects_throw; respects_intro
    | apply respects_await; respects_intro
    | apply respects_this; respects_intro
    | apply respects_set_token; respects_intro
    | apply respects_liftW
    | match goal with
      | |- respects _ _ (if ?b then _ else _) => destruct b
      | |- respects _ _ (match ?x with _ => _ end) => destruct x
      end ].

Section IoOnly.
Context (env : Env).

Lemma io_fetch (url : string) (options : RequestInit) :
  respects id io (fetch env url options).
Proof. intros w. apply io_log_event. Qed.

Lemma io_console (level : ConsoleLevel) (line : string) (err : option Exn) :
  respects id io (console level line err).
Proof. intros w. apply io_log_event. Qed.

Lemma io_Date_now : respects id io (Date_now env).
Proof. intros w. apply io_log_event. Qed.

Lemma io_getConfig : respects id io (getConfig env).
Proof. intros w. apply io_log_event. Qed.

Lemma io_login (b u p : string) :
  respects id io (OpenListClient.login env b u p).
Proof.
  intros w. unfold id. rewrite login_world. apply io_log_event.
Qed.

Lemma io_refreshToken : respects snd io (OpenListClient.refreshToken env).
Proof.
  unfold OpenListClient.refreshToken.
  repeat first [ apply io_console | apply io_login | respects_step ].
Qed.

Lemma io_fetchWithRetry_left (n : nat) (url : string) (options : RequestInit) :
  respects snd io (OpenListClient.fetchWithRetry_left env n url options).
Proof.
  revert options. induction n as [|n IH]; intros options; simpl;
    repeat first [ apply io_fetch | apply io_refreshToken | apply IH
                 | respects_step ].
Qed.

Lemma io_fetchWithRetry (url : string) (options : RequestInit) (retried : bool) :
  respects snd io (OpenListClient.fetchWithRetry env url options retried).
Proof. apply io_fetchWithRetry_left. Qed.

Lemma io_getFile (path : string) :
  respects snd io (OpenListClient.getFile env path).
Proof.
  unfold OpenListClient.getFile.
  repeat first [ apply io_fetchWithRetry | respects_step ].
Qed.

Lemma io_refreshDirectory (path : string) :
  respects snd io (OpenListClient.refreshDirectory env path).
Proof.
  unfold OpenListClient.refreshDirectory.
  repeat first [ apply io_fetchWithRetry | apply io_console | respects_step ].
Qed.

Lemma io_uploadFile (path content : string) :
  respects snd io (OpenListClient.uploadFile env path content).
Proof.
  unfold OpenListClient.uploadFile.
  repeat first [ apply io_fetchWithRetry | apply io_refreshDirectory
               | respects_step ].
Qed.

Lemma io_listDirectory (path : string) (page perPage : Z) :
  respects snd io (OpenListClient.listDirectory env path page perPage).
Proof.
  unfold OpenListClient.listDirectory.
  repeat first [ apply io_fetchWithRetry | respects_step ].
Qed.

Lemma io_deleteFile (path : string) :
  respects snd io (OpenListClient.deleteFile env path).
Proof.
  unfold OpenListClient.deleteFile.
  repeat first [ apply io_fetchWithRetry | respects_step ].
Qed.

Lemma grows_parse_document (text : string) :
  respects id grows (parse_document env text).
Proof.
  intros w. unfold parse_document, id.
  destruct (JSON_parse env text) as [[d|]|e]; simpl; try reflexivity.
  split; [|split]; [now exists [d] | reflexivity | exists []].
  simpl. now rewrite app_nil_r.
Qed.

Lemma grows_POST_read (rootPath : string) :
  respects snd grows (POST_read env rootPath).
Proof.
  unfold POST_read.
  repeat first [ apply respects_io_grows, io_getFile
               | apply respects_io_grows, io_fetch
               | apply grows_parse_document
               | respects_step ].
Qed.
End IoOnly.

(** ** The handler, phase by phase *)

Section Phases.
Context (env : Env).

Lemma POST_accepted (request : NextRequest) (w : World)
    (body : gmap string JsVal) (cfg : OpenListConfigT) :
  accepted env request w = Some (body, cfg) ->
  POST env request w
  = match POST_correct env (rootPathOf cfg) body (entered cfg w) with
    | (Ok r, s) => (Ok r, snd s)
    | (Throw e, s) => (Ok (correction_failure e), log_event (log_failure e) (snd s))
    end.
Proof.
  unfold accepted. intros H.
  destruct (req_auth request) as [a|] eqn:Ha; [|discriminate].
  destruct (req_json request) as [b|] eqn:Hb; [|discriminate].
  destruct (config_store env (trace w)) as [config|] eqn:Hc; [|discriminate].
  destruct (OpenListConfig config) as [cfg'|] eqn:Ho; [|discriminate].
  destruct (truthy_opt (auth_username a)) eqn:Tu; [|discriminate].
  destruct (truthy (field b "folder")) eqn:Tf; [|discriminate].
  destruct (truthy (field b "tmdbId")) eqn:Tt; [|discriminate].
  destruct (truthy_opt (URL cfg')) eqn:TU; [|discriminate].
  destruct (truthy_opt (Token cfg')) eqn:TT; [|discriminate].
  simpl in H. injection H as -> ->.
  unfold POST, try_catch, POST_try, bind, await, getConfig, with_client, ret,
    console, entered.
  rewrite Ha, Tu, Hb. simpl. rewrite Tf, Tt. simpl. rewrite Hc, Ho, TU, TT. simpl.
  fold (rootPathOf cfg) (clientOf cfg).
  destruct (POST_correct env _ _ _) as [[r|e] s]; reflexivity.
Qed.

(** The update phase on a live reference. *)
Lemma POST_update_run (rootPath : string) (body : gmap string JsVal) (l : nat)
    (c : Client) (w : World) (d0 : MetaInfo) :
  store w !! l = Some d0 ->
  let d1 := set_folder (folderOf env body) (newEntry body (clock env (trace w))) d0 in
  let w2 := mkWorld (trace w ++ [EvNow]) (<[l := d1]> (store w)) (cache w) in
  POST_update env rootPath body l (c, w)
  = match OpenListClient.uploadFile env (metainfoPath rootPath)
            (JSON_stringify env d1) (c, w2) with
    | (Ok _, s3) => (Ok success, (fst s3, recache rootPath l (snd s3)))
    | (Throw e, s3) => (Throw e, s3)
    end.
Proof.
  intros Hl d1 w2.
  assert (Hl2 : <[l := d1]> (store w) !! l = Some d1).
  { apply list_lookup_insert_eq. eapply lookup_lt_Some, Hl. }
  unfold POST_update, bind, liftW, Date_now, assign_folder, stringify_document,
    invalidateMetaInfoCache, setCachedMetaInfo, ret.
  simpl. rewrite Hl. simpl. fold (folderOf env body). fold d1. rewrite Hl2.
  fold w2.
  destruct (OpenListClient.uploadFile env _ _ _) as [[[]|e] s3]; reflexivity.
Qed.

(** A dangling reference makes the update phase throw. *)
Lemma POST_update_dangling (rootPath : string) (body : gmap string JsVal)
    (l : nat) (c : Client) (w : World) :
  store w !! l = None ->
  exists e s, POST_update env rootPath body l (c, w) = (Throw e, s).
Proof.
  intros Hl.
  unfold POST_update, bind, liftW, Date_now, assign_folder. simpl.
  rewrite Hl. simpl. eauto.
Qed.
End Phases.

Section ReadPhase.
Context (env : Env).

Lemma POST_correct_hit (rootPath : string) (body : gmap string JsVal)
    (c : Client) (w : World) (l : nat) :
  cache w !! rootPath = Some l ->
  POST_correct env rootPath body (c, w) = POST_update env rootPath body l (c, w).
Proof.
  intros H. unfold POST_correct, bind, liftW, getCachedMetaInfo, ret. simpl.
  rewrite H. reflexivity.
Qed.

Lemma POST_correct_miss (rootPath : string) (body : gmap string JsVal)
    (c : Client) (w : World) :
  cache w !! rootPath = None ->
  POST_correct env rootPath body (c, w)
  = match POST_read env rootPath (c, w) with
    | (Ok (Some l), s) => POST_update env rootPath body l s
    | (Ok None, s) => (Ok not_found, s)
    | (Throw e, s) =>
        (Ok read_failure, (fst s, log_event (log_read_failure e) (snd s)))
    end.
Proof.
  intros H.
  unfold POST_correct, bind, liftW, getCachedMetaInfo, try_catch, console, ret.
  simpl. rewrite H.
  destruct (POST_read env rootPath (c, w)) as [[[l|]|e] s]; reflexivity.
Qed.

(** What a 200 answer tells about the run: the document [d0] behind the
    reference [l] came from the cache or from the storage service, it was
    updated in place at the clock reading [t], its serialization was
    uploaded, and the cache now holds [l]. *)
Lemma POST_success (request : NextRequest) (w w' : World)
    (body : gmap string JsVal) (cfg : OpenListConfigT) (resp : NextResponse) :
  accepted env request w = Some (body, cfg) ->
  POST env request w = (Ok resp, w') ->
  res_status resp = 200%Z ->
  let root := rootPathOf cfg in
  exists (l : nat) (c1 : Client) (w1 : World) (d0 : MetaInfo),
    (cache w !! root = Some l /\ (c1, w1) = entered cfg w
     \/ cache w !! root = None
        /\ POST_read env root (entered cfg w) = (Ok (Some l), (c1, w1)))
    /\ store w1 !! l = Some d0
    /\ let d1 := set_folder (folderOf env body)
                   (newEntry body (clock env (trace w1))) d0 in
       let w2 := mkWorld (trace w1 ++ [EvNow]) (<[l := d1]> (store w1)) (cache w1) in
       exists s3,
         OpenListClient.uploadFile env (metainfoPath root)
           (JSON_stringify env d1) (c1, w2) = (Ok tt, s3)
         /\ w' = recache root l (snd s3)
         /\ resp = success.
Proof.
  intros Hacc Hrun Hst root.
  rewrite (POST_accepted env request w body cfg Hacc) in Hrun. fold root in Hrun.
  assert (Hupd : forall l c1 w1,
    match POST_update env root body l (c1, w1) with
    | (Ok r, s) => (Ok r, snd s)
    | (Throw e, s) => (Ok (correction_failure e), log_event (log_failure e) (snd s))
    end = (Ok resp, w') ->
    exists d0, store w1 !! l = Some d0 /\
      exists s3,
        OpenListClient.uploadFile env (metainfoPath root)
          (JSON_stringify env
             (set_folder (folderOf env body)
                (newEntry body (clock env (trace w1))) d0))
          (c1, mkWorld (trace w1 ++ [EvNow])
                 (<[l := set_folder (folderOf env body)
                           (newEntry body (clock env (trace w1))) d0]> (store w1))
                 (cache w1)) = (Ok tt, s3)
        /\ w' = recache root l (snd s3) /\ resp = success).
  { intros l c1 w1 H.
    destruct (store w1 !! l) as [d0|] eqn:Hl.
    - exists d0. split; [reflexivity|].
      rewrite (POST_update_run env root body l c1 w1 d0 Hl) in H.
      destruct (OpenListClient.uploadFile env _ _ _) as [[[]|e] s3].
      + exists s3. injection H as <- <-. auto.
      + injection H as <- _. discriminate Hst.
    - destruct (POST_update_dangling env root body l c1 w1 Hl) as (e & s & He).
      rewrite He in H. injection H as <- _. discriminate Hst. }
  destruct (cache w !! root) as [l|] eqn:Hc.
  - unfold entered in Hrun. rewrite (POST_correct_hit root body _ _ l) in Hrun
      by exact Hc.
    destruct (Hupd _ _ _ Hrun) as (d0 & Hl & s3 & Hup & Hw & Hr).
    exists l, (clientOf cfg), (log_event EvGetConfig w), d0.
    split; [left; split; reflexivity|]. split; [exact Hl|].
    exists s3. auto.
  - unfold entered in Hrun. rewrite (POST_correct_miss root body) in Hrun
      by exact Hc.
    destruct (POST_read env root _) as [[[l|]|e] [c1 w1]] eqn:Hread.
    + destruct (Hupd _ _ _ Hrun) as (d0 & Hl & s3 & Hup & Hw & Hr).
      exists l, c1, w1, d0.
      split; [right; split; reflexivity|]. split; [exact Hl|].
      exists s3. auto.
    + injection Hrun as <- _. discriminate Hst.
    + injection Hrun as <- _. discriminate Hst.
Qed.
End ReadPhase.

(** ** The first request of a client call *)

Section FirstRequest.
Context (env : Env).

Lemma fetchWithRetry_first (url : string) (options : RequestInit)
    (retried : bool) (c : Client) (w : World) :
  exists rest,
    trace (snd (snd (OpenListClient.fetchWithRetry env url options retried (c, w))))
    = trace w ++ EvFetch url options :: rest.
Proof.
  rewrite fetchWithRetry_unfold.
  unfold bind at 1. unfold liftW at 1. unfold fetch at 1. simpl.
  destruct (net env (trace w) url options) as [r|e]; simpl.
  - match goal with
    | |- context [ bind this ?k ?s ] =>
        assert (H : respects snd io (bind this k))
    end.
    { repeat first [ apply io_refreshToken | apply io_fetchWithRetry
                   | respects_step ]. }
    specialize (H (c, log_event (EvFetch url options) w)).
    destruct H as (_ & _ & ext & ->). simpl.
    exists ext. now rewrite <- app_assoc.
  - now exists [].
Qed.

Lemma uploadFile_first (path content : string) (c : Client) (w : World) :
  exists rest,
    trace (snd (snd (OpenListClient.uploadFile env path content (c, w))))
    = trace w ++ putRequest env c path content :: rest.
Proof.
  unfold OpenListClient.uploadFile, putRequest.
  unfold bind at 1. unfold this at 1. simpl.
  unfold bind at 1.
  destruct (fetchWithRetry_first (baseURL c +:+ "/api/fs/put")
              (mkRequestInit (Some "PUT") (OpenListClient.uploadHeaders env c path)
                 (Some (TextBody content))) false c w) as [rest Hrest].
  destruct (OpenListClient.fetchWithRetry env _ _ false (c, w)) as [[r|e] s1];
    simpl in Hrest; [|now exists rest].
  destruct (negb (ok r)); simpl; [now exists rest|].
  destruct (io_refreshDirectory env (OpenListClient.dirname path) s1)
    as (_ & _ & ext & ->).
  rewrite Hrest. exists (rest ++ ext). now rewrite <- app_assoc.
Qed.

Lemma getFile_first (path : string) (c : Client) (w : World) :
  exists rest,
    trace (snd (snd (OpenListClient.getFile env path (c, w))))
    = trace w ++ getRequest c path :: rest.
Proof.
  unfold OpenListClient.getFile, getRequest.
  unfold bind at 1. unfold this at 1. simpl.
  unfold bind at 1.
  destruct (fetchWithRetry_first (baseURL c +:+ "/api/fs/get")
              (mkRequestInit (Some "POST") (OpenListClient.getHeaders c)
                 (Some (GetBody path ""))) false c w) as [rest Hrest].
  destruct (OpenListClient.fetchWithRetry env _ _ false (c, w)) as [[r|e] s1];
    simpl in Hrest; [|now exists rest].
  destruct (negb (ok r)); simpl; [now exists rest|].
  unfold await. simpl. now exists rest.
Qed.
End FirstRequest.

Section CallSites.
Context (env : Env).

(** The read phase starts by asking for the file at [metainfoPath]. *)
Lemma POST_read_first (rootPath : string) (c : Client) (w : World) :
  exists rest,
    trace (snd (snd (POST_read env rootPath (c, w))))
    = trace w ++ getRequest c (metainfoPath rootPath) :: rest.
Proof.
  unfold POST_read.
  match goal with
  | |- context [ bind ?m ?k (c, w) ] =>
      assert (Hk : forall f, respects snd grows (k f))
  end.
  { intros f. cbv beta.
    repeat first [ apply respects_io_grows, io_fetch
                 | apply grows_parse_document
                 | respects_step ]. }
  unfold bind at 1.
  destruct (getFile_first env (metainfoPath rootPath) c w) as [rest Hrest].
  destruct (OpenListClient.getFile env _ (c, w)) as [[f|e] s1];
    simpl in Hrest; [|now exists rest].
  destruct (Hk f s1) as (_ & _ & ext & ->).
  rewrite Hrest. exists (rest ++ ext). now rewrite <- app_assoc.
Qed.

(** The update phase reads the clock and then uploads to [metainfoPath]. *)
Lemma POST_update_first (rootPath : string) (body : gmap string JsVal)
    (l : nat) (c : Client) (w : World) (d0 : MetaInfo) :
  store w !! l = Some d0 ->
  exists content rest,
    trace (snd (snd (POST_update env rootPath body l (c, w))))
    = trace w ++ EvNow :: putRequest env c (metainfoPath rootPath) content :: rest.
Proof.
  intros Hl. rewrite (POST_update_run env rootPath body l c w d0 Hl).
  match goal with
  | |- context [ OpenListClient.uploadFile env ?p ?t (c, ?w2) ] =>
      destruct (uploadFile_first env p t c w2) as [rest Hrest];
      exists t, rest;
      destruct (OpenListClient.uploadFile env p t (c, w2)) as [[u|e] s3]
  end; simpl in *; rewrite Hrest, <- app_assoc; reflexivity.
Qed.
End CallSites.

(** C7, as stated, fails: a root that already ends with two separators
    keeps both of them in front of the file name. *)
Lemma C7_counterexample :
  metainfoPath "/media//" = "/media//metainfo.json"
  /\ ~ one_separator (metainfoPath "/media//").
Proof.
  split; [reflexivity|].
  intros [d [Hd Hs]].
  change (metainfoPath "/media//") with ("/media/" +:+ "/metainfo.json") in Hd.
  apply append_cancel_r in Hd. subst d. discriminate Hs.
Qed.

(** C7, amended.  The document path is the root followed by
    [metainfo.json], with one separator inserted exactly when the root does
    not already end with one; the root is never trimmed.  So [/media] and
    [/media/] both give [/media/metainfo.json], every path ends with
    [/metainfo.json], and the separator before the file name is a single
    one whenever the root does not end with two.  The read phase asks the
    storage service for the file at that path first of all, and the update
    phase uploads to that same path. *)
Theorem C7_metainfoPath_join (rootPath : string) :
  metainfoPath "/media" = "/media/metainfo.json"
  /\ metainfoPath "/media/" = "/media/metainfo.json"
  /\ (endsWith rootPath "/" = false ->
      metainfoPath rootPath = rootPath +:+ "/metainfo.json")
  /\ (endsWith rootPath "/" = true ->
      metainfoPath rootPath = rootPath +:+ "metainfo.json")
  /\ (exists d, metainfoPath rootPath = d +:+ "/metainfo.json")
  /\ (endsWith rootPath "//" = false -> one_separator (metainfoPath rootPath))
  /\ (forall env c w,
        exists rest,
          trace (snd (snd (POST_read env rootPath (c, w))))
          = trace w ++ getRequest c (metainfoPath rootPath) :: rest)
  /\ (forall env body l c w d0,
        store w !! l = Some d0 ->
        exists content rest,
          trace (snd (snd (POST_update env rootPath body l (c, w))))
          = trace w ++ EvNow
              :: putRequest env c (metainfoPath rootPath) content :: rest).
Proof.
  split; [reflexivity|]. split; [reflexivity|].
  split; [apply metainfoPath_no_slash|].
  split; [apply metainfoPath_slash|].
  cut ((exists d, metainfoPath rootPath = d +:+ "/metainfo.json")
       /\ (endsWith rootPath "//" = false -> one_separator (metainfoPath rootPath))).
  { intros [H1 H2]. split; [exact H1|]. split; [exact H2|].
    split.
    - intros env c w. apply POST_read_first.
    - intros env body l c w d0 Hl.
      exact (POST_update_first env rootPath body l c w d0 Hl). }
  destruct (endsWith rootPath "/") eqn:E.
  - destruct (endsWith_inv _ _ E) as [d Hd].
    assert (Hp : metainfoPath rootPath = d +:+ "/metainfo.json").
    { rewrite (metainfoPath_slash _ E), Hd, append_assoc'. reflexivity. }
    split; [now exists d|].
    intros H2. exists d. split; [exact Hp|].
    destruct (endsWith d "/") eqn:E'; [|reflexivity].
    destruct (endsWith_inv _ _ E') as [d' Hd'].
    rewrite Hd, Hd', append_assoc' in H2.
    change ("/" +:+ "/") with "//" in H2.
    now rewrite endsWith_append in H2.
  - rewrite (metainfoPath_no_slash _ E).
    split; [now exists rootPath|].
    intros _. now exists rootPath.
Qed.

(** ** The assignment of line 98 *)

(** Whatever the key, the assignment leaves the other keys alone. *)
Lemma set_folder_other (key G : string) (entry : FolderEntry) (d : MetaInfo) :
  G <> key -> folders (set_folder key entry d) !! G = folders d !! G.
Proof.
  intros HG. unfold set_folder.
  destruct (String.eqb key "__proto__"), (folders d !! "__proto__");
    try reflexivity; simpl; apply lookup_insert_ne; congruence.
Qed.

(** Under every key but ["__proto__"] the entry can be read back. *)
Lemma set_folder_own (key : string) (entry : FolderEntry) (d : MetaInfo) :
  key <> "__proto__" -> folders (set_folder key entry d) !! key = Some entry.
Proof.
  intros Hk. unfold set_folder.
  apply String.eqb_neq in Hk. rewrite Hk. simpl. apply lookup_insert_eq.
Qed.

(** Under ["__proto__"] the document keeps the entries it had and gains
    none, unless it already had one of that name. *)
Lemma set_folder_proto (entry : FolderEntry) (d : MetaInfo) :
  folders d !! "__proto__" = None -> set_folder "__proto__" entry d = d.
Proof. intros H. unfold set_folder. rewrite String.eqb_refl, H. reflexivity. Qed.

Lemma set_folder_proto_own (entry e0 : FolderEntry) (d : MetaInfo) :
  folders d !! "__proto__" = Some e0 ->
  folders (set_folder "__proto__" entry d) !! "__proto__" = Some entry.
Proof.
  intros H. unfold set_folder. rewrite String.eqb_refl, H. simpl.
  apply lookup_insert_eq.
Qed.

(** ** A successful correction, summarised *)

Section Digest.
Context (env : Env).

(** When the read phase yields a document, it is a freshly allocated object
    holding what [JSON.parse] made of the downloaded text. *)
Lemma POST_read_some (rootPath : string) (c c1 : Client) (w w1 : World)
    (l : nat) :
  POST_read env rootPath (c, w) = (Ok (Some l), (c1, w1)) ->
  exists text d0,
    JSON_parse env text = Ok (Some d0)
    /\ l = length (store w) /\ store w1 = store w ++ [d0] /\ cache w1 = cache w.
Proof.
  unfold POST_read, bind.
  pose proof (io_getFile env (metainfoPath rootPath) (c, w)) as Hio.
  destruct (OpenListClient.getFile env _ (c, w)) as [[f|e] [c' w'']];
    [|discriminate].
  simpl in Hio. destruct Hio as (Hs & Hc & _).
  destruct (_ && _); [|discriminate].
  unfold liftW at 1. unfold fetch. simpl.
  destruct (net env _ _ _) as [r|e]; [|discriminate]. simpl.
  destruct (negb (ok r)); [discriminate|].
  unfold liftW, parse_document. simpl.
  destruct (JSON_parse env (text r)) as [[d0|]|e] eqn:Hp; [|discriminate..].
  intros H. injection H as <- <- <-.
  exists (text r), d0. simpl. rewrite Hs, Hc. auto.
Qed.

(** The same, with the whole of the run: the object holds the parse of the
    text that the download of the resolved address returned. *)
Lemma POST_read_inv (rootPath : string) (s0 s : Client * World) (l : nat) :
  POST_read env rootPath s0 = (Ok (Some l), s) ->
  exists d0,
    downloaded env rootPath s0 d0
    /\ l = length (store (snd s0))
    /\ store (snd s) = store (snd s0) ++ [d0]
    /\ cache (snd s) = cache (snd s0)
    /\ store (snd s) !! l = Some d0
    /\ store (snd s0) !! l = None.
Proof.
  destruct s0 as [c w]. unfold POST_read, bind, downloaded.
  pose proof (io_getFile env (metainfoPath rootPath) (c, w)) as Hio.
  destruct (OpenListClient.getFile env _ (c, w)) as [[f|e] [c' w'']] eqn:Hget;
    [|discriminate].
  simpl in Hio. destruct Hio as (Hs & Hc & _).
  destruct (code f =? 200)%Z eqn:Hcode; [|discriminate].
  destruct (raw_url (data f)) as [u|] eqn:Hraw; [|discriminate].
  simpl. destruct (truthy_str u); [|discriminate]. simpl.
  unfold liftW at 1. unfold fetch. simpl.
  destruct (net env _ _ _) as [r|e] eqn:Hnet; [|discriminate]. simpl.
  destruct (ok r) eqn:Hok; [|discriminate]. simpl.
  unfold liftW, parse_document. simpl.
  destruct (JSON_parse env (text r)) as [[d0|]|e] eqn:Hp; [|discriminate..].
  intros H. injection H as <- <-. simpl.
  exists d0. rewrite Hs, Hc.
  split.
  { exists f, (c', w''), u, r. apply Z.eqb_eq in Hcode. simpl. auto 10. }
  split; [reflexivity|]. split; [reflexivity|]. split; [reflexivity|].
  split.
  - rewrite lookup_app_r, Nat.sub_diag by lia. reflexivity.
  - apply lookup_ge_None. lia.
Qed.

Lemma POST_success_digest (request : NextRequest) (w w' : World)
    (body : gmap string JsVal) (cfg : OpenListConfigT) (resp : NextResponse) :
  accepted env request w = Some (body, cfg) ->
  POST env request w = (Ok resp, w') ->
  res_status resp = 200%Z ->
  let root := rootPathOf cfg in
  exists (l : nat) (d0 : MetaInfo) (base : list MetaInfo) (h : list Event)
         (c : Client) (rest : list Event),
    (cache w !! root = Some l /\ base = store w
     \/ cache w !! root = None /\ l = length (store w) /\ base = store w ++ [d0]
        /\ exists text, JSON_parse env text = Ok (Some d0))
    /\ base !! l = Some d0
    /\ (exists pre, h = trace w ++ pre)
    /\ let d1 := set_folder (folderOf env body) (newEntry body (clock env h)) d0 in
       store w' = <[l := d1]> base
       /\ cache w' = <[root := l]> (delete root (cache w))
       /\ trace w' = h ++ EvNow
                       :: putRequest env c (metainfoPath root) (JSON_stringify env d1)
                       :: rest.
Proof.
  intros Hacc Hrun Hst root.
  destruct (POST_success env request w w' body cfg resp Hacc Hrun Hst)
    as (l & c1 & w1 & d0 & Hsrc & Hl & s3 & Hup & -> & _).
  fold root in Hsrc, Hup.
  set (d1 := set_folder (folderOf env body)
               (newEntry body (clock env (trace w1))) d0) in *.
  set (w2 := mkWorld (trace w1 ++ [EvNow]) (<[l := d1]> (store w1)) (cache w1)) in *.
  pose proof (io_uploadFile env (metainfoPath root) (JSON_stringify env d1) (c1, w2))
    as Hio.
  destruct (uploadFile_first env (metainfoPath root) (JSON_stringify env d1) c1 w2)
    as [rest Hrest].
  rewrite Hup in Hio, Hrest. simpl in Hio, Hrest.
  destruct Hio as (Hs3 & Hc3 & _).
  assert (Hbase : exists pre, trace w1 = trace w ++ pre
            /\ cache w1 = cache w
            /\ (cache w !! root = Some l /\ store w1 = store w
                \/ cache w !! root = None /\ l = length (store w)
                   /\ store w1 = store w ++ [d0]
                   /\ exists text, JSON_parse env text = Ok (Some d0))).
  { destruct Hsrc as [[Hc He] | [Hc Hread]].
    - injection He as -> ->. exists [EvGetConfig]. auto.
    - pose proof (grows_POST_read env root (entered cfg w)) as Hg.
      rewrite Hread in Hg. simpl in Hg. destruct Hg as (_ & _ & ext & Ht).
      destruct (POST_read_some root _ _ _ _ _ Hread) as (text & d & Hp & Hlen & Hs & Hc').
      simpl in Hlen, Hs, Hc'.
      exists ([EvGetConfig] ++ ext). split; [|split; [exact Hc'|]].
      + rewrite Ht. simpl. now rewrite <- app_assoc.
      + right. rewrite Hs in Hl. subst l.
        rewrite lookup_app_r, Nat.sub_diag in Hl by lia.
        injection Hl as ->. eauto 6. }
  destruct Hbase as (pre & Ht1 & Hc1 & Hcase).
  exists l, d0, (store w1), (trace w1), c1, rest.
  split.
  { destruct Hcase as [[Hc ->] | (Hc & Hlen & -> & Hp)]; auto. }
  split; [exact Hl|]. split; [now exists pre|].
  simpl. fold d1. rewrite Hs3, Hc3, Hrest. subst w2. simpl.
  rewrite Hc1, <- app_assoc. auto.
Qed.
End Digest.

(** ** The entry a correction writes *)

Section Entry.
Context (env : Env).

Lemma POST_success_entry (request : NextRequest) (w w' : World)
    (body : gmap string JsVal) (cfg : OpenListConfigT) (resp : NextResponse) :
  accepted env request w = Some (body, cfg) ->
  folderOf env body <> "__proto__" ->
  POST env request w = (Ok resp, w') ->
  res_status resp = 200%Z ->
  exists (l : nat) (d1 : MetaInfo) (c : Client) (h pre rest : list Event),
    h = trace w ++ pre
    /\ trace w' = h ++ EvNow
                    :: putRequest env c (metainfoPath (rootPathOf cfg))
                         (JSON_stringify env d1)
                    :: rest
    /\ cache w' !! rootPathOf cfg = Some l
    /\ store w' !! l = Some d1
    /\ folders d1 !! folderOf env body = Some (newEntry body (clock env h)).
Proof.
  intros Hacc Hkey Hrun Hst.
  destruct (POST_success_digest env request w w' body cfg resp Hacc Hrun Hst)
    as (l & d0 & base & h & c & rest & _ & Hl & (pre & Hh) & Hs & Hc & Ht).
  exists l, (set_folder (folderOf env body) (newEntry body (clock env h)) d0),
         c, h, pre, rest.
  split; [exact Hh|]. split; [exact Ht|].
  split; [rewrite Hc; apply lookup_insert_eq|].
  split.
  - rewrite Hs. apply list_lookup_insert_eq. eapply lookup_lt_Some, Hl.
  - apply set_folder_own, Hkey.
Qed.

Lemma cached_entry_lookup (w : World) (rootPath F : string) (l : nat)
    (d : MetaInfo) :
  cache w !! rootPath = Some l -> store w !! l = Some d ->
  cached_entry w rootPath F = folders d !! F.
Proof. intros Hc Hl. unfold cached_entry. now rewrite Hc, Hl. Qed.
End Entry.

(** X19.  After a successful correction of a folder whose name is not
    [__proto__], the document cached for the storage root, whose
    serialization is the text that was uploaded, holds under the target
    folder the entry of lines 98-108: every field comes from the submitted
    body alone (absent [releaseDate] and [overview] become the empty string,
    an absent [voteAverage] becomes 0), whatever entry the folder had
    before; [failed] is false; and [last_updated] is the reading of the
    clock taken during this request, just before the upload. *)
Theorem success_replaces_entry (env : Env) (request : NextRequest)
    (w w' : World) (body : gmap string JsVal) (cfg : OpenListConfigT)
    (resp : NextResponse) :
  accepted env request w = Some (body, cfg) ->
  folderOf env body <> "__proto__" ->
  POST env request w = (Ok resp, w') ->
  res_status resp = 200%Z ->
  exists (e : FolderEntry) (l : nat) (d1 : MetaInfo) (c : Client)
         (h pre rest : list Event),
    cache w' !! rootPathOf cfg = Some l
    /\ store w' !! l = Some d1
    /\ folders d1 !! folderOf env body = Some e
    /\ cached_entry w' (rootPathOf cfg) (folderOf env body) = Some e
    /\ tmdb_id e = field body "tmdbId"
    /\ title e = field body "title"
    /\ poster_path e = field body "posterPath"
    /\ release_date e = js_or (field body "releaseDate") (JStr "")
    /\ overview e = js_or (field body "overview") (JStr "")
    /\ vote_average e = js_or (field body "voteAverage") (JNum 0)
    /\ media_type e = field body "mediaType"
    /\ failed e = false
    /\ last_updated e = clock env h
    /\ h = trace w ++ pre
    /\ trace w' = h ++ EvNow
                    :: putRequest env c (metainfoPath (rootPathOf cfg))
                         (JSON_stringify env d1)
                    :: rest.
Proof.
  intros Hacc Hkey Hrun Hst.
  destruct (POST_success_entry env request w w' body cfg resp Hacc Hkey Hrun Hst)
    as (l & d1 & c & h & pre & rest & Hh & Ht & Hc & Hl & He).
  exists (newEntry body (clock env h)), l, d1, c, h, pre, rest.
  rewrite (cached_entry_lookup w' _ _ l d1 Hc Hl).
  repeat split; try reflexivity; assumption.
Qed.

(** C3 does not hold of the code.  A signed-in user submits a correction
    for the directory named [__proto__].  The request is accepted and
    answered 200 "纠错成功", yet the assignment of line 98 stored no entry:
    the cached document has none under [__proto__] and is, entry for entry,
    the document that was read; and every text that was uploaded is the
    serialization of that unchanged document, not of one with the new
    entry.  So it is on a cache hit, and so it is when the document is
    first downloaded. *)
Theorem C3_proto_folder_gets_no_entry :
  let env := Sample.env_proto in
  let request := Sample.request_proto in
  let hit := POST env request Fixture.warm in
  let miss := POST env request Fixture.cold in
  let e := newEntry Sample.body_proto 1 in
  accepted env request Fixture.warm = Some (Sample.body_proto, Fixture.cfg)
  /\ accepted env request Fixture.cold = Some (Sample.body_proto, Fixture.cfg)
  /\ folderOf env Sample.body_proto = "__proto__"
  /\ fst hit = Ok success /\ fst miss = Ok success
  /\ res_status success = 200%Z
  /\ cached_entry (snd hit) "/media" "__proto__" = None
  /\ cached_entry (snd miss) "/media" "__proto__" = None
  /\ cache (snd hit) !! "/media" = Some 0%nat
  /\ cache (snd miss) !! "/media" = Some 0%nat
  /\ store (snd hit) = [Fixture.doc]
  /\ store (snd miss) = [Fixture.doc]
  /\ uploaded_texts "http://ol/api/fs/put" (trace (snd hit))
     = [JSON_stringify env Fixture.doc; JSON_stringify env Fixture.doc]
  /\ uploaded_texts "http://ol/api/fs/put" (trace (snd miss))
     = [JSON_stringify env Fixture.doc]
  /\ JSON_stringify env (mkMetaInfo (<["__proto__" := e]> (folders Fixture.doc)))
     <> JSON_stringify env Fixture.doc.
Proof.
  vm_compute. repeat split. discriminate.
Qed.

(** C9, amended.  Of two successive successful corrections of folders other
    than [__proto__], each stamps [last_updated] with the reading of the
    clock taken during its own request, the second reading being taken
    later than the first.  So the later value is not smaller than the
    earlier one whenever the clock does not run backwards; it is equal when
    the clock has not advanced. *)
Theorem C9_last_updated_follows_clock (env : Env) (request1 request2 : NextRequest)
    (w w1 w2 : World) (body1 body2 : gmap string JsVal)
    (cfg1 cfg2 : OpenListConfigT) (resp1 resp2 : NextResponse) :
  accepted env request1 w = Some (body1, cfg1) ->
  folderOf env body1 <> "__proto__" ->
  POST env request1 w = (Ok resp1, w1) ->
  res_status resp1 = 200%Z ->
  accepted env request2 w1 = Some (body2, cfg2) ->
  folderOf env body2 <> "__proto__" ->
  POST env request2 w1 = (Ok resp2, w2) ->
  res_status resp2 = 200%Z ->
  exists (e1 e2 : FolderEntry) (h1 between : list Event),
    cached_entry w1 (rootPathOf cfg1) (folderOf env body1) = Some e1
    /\ cached_entry w2 (rootPathOf cfg2) (folderOf env body2) = Some e2
    /\ last_updated e1 = clock env h1
    /\ last_updated e2 = clock env (h1 ++ EvNow :: between)
    /\ (clock_monotone env -> (last_updated e1 <= last_updated e2)%Z).
Proof.
  intros Ha1 Hk1 Hr1 Hs1 Ha2 Hk2 Hr2 Hs2.
  destruct (POST_success_entry env request1 w w1 body1 cfg1 resp1 Ha1 Hk1 Hr1 Hs1)
    as (l1 & d1 & c1 & h1 & pre1 & rest1 & Hh1 & Ht1 & Hc1 & Hl1 & He1).
  destruct (POST_success_entry env request2 w1 w2 body2 cfg2 resp2 Ha2 Hk2 Hr2 Hs2)
    as (l2 & d2 & c2 & h2 & pre2 & rest2 & Hh2 & Ht2 & Hc2 & Hl2 & He2).
  rewrite <- (cached_entry_lookup w1 _ _ l1 d1 Hc1 Hl1) in He1.
  rewrite <- (cached_entry_lookup w2 _ _ l2 d2 Hc2 Hl2) in He2.
  match type of Ht1 with
  | _ = _ ++ EvNow :: ?x => set (sent := x) in Ht1
  end.
  exists (newEntry body1 (clock env h1)), (newEntry body2 (clock env h2)),
         h1, (sent ++ pre2).
  assert (Hh : h2 = h1 ++ EvNow :: sent ++ pre2).
  { rewrite Hh2, Ht1, <- app_assoc. reflexivity. }
  split; [exact He1|]. split; [exact He2|]. split; [reflexivity|].
  split; [simpl; now rewrite Hh|].
  intros Hmono. simpl. rewrite Hh. apply Hmono.
Qed.

(** ** The other folders *)

#[local] Instance others_kept_preorder (F : string) : PreOrder (others_kept F).
Proof.
  split.
  - intros w l d H. eauto.
  - intros a b c Hab Hbc l d H.
    destruct (Hab l d H) as (d1 & H1 & E1).
    destruct (Hbc l d1 H1) as (d2 & H2 & E2).
    exists d2. split; [exact H2|]. intros G HG. now rewrite E2, E1.
Qed.

Lemma grows_others_kept (F : string) (w w' : World) :
  grows w w' -> others_kept F w w'.
Proof.
  intros ((new & Hs) & _ & _) l d H. exists d. split; [|auto].
  rewrite Hs. apply lookup_app_l_Some, H.
Qed.

Lemma same_store_others_kept (F : string) (w w' : World) :
  store w' = store w -> others_kept F w w'.
Proof. intros Hs l d H. exists d. rewrite Hs. auto. Qed.

Lemma respects_grows_kept {S A : Type} (wof : S -> World) (F : string)
    (m : M S A) :
  respects wof grows m -> respects wof (others_kept F) m.
Proof. intros H s. apply grows_others_kept, H. Qed.

Lemma respects_io_kept {S A : Type} (wof : S -> World) (F : string)
    (m : M S A) :
  respects wof io m -> respects wof (others_kept F) m.
Proof. intros H. apply respects_grows_kept, respects_io_grows, H. Qed.

Lemma respects_with_client (R : World -> World -> Prop) {A : Type}
    (c : Client) (m : M (Client * World) A) :
  respects snd R m -> respects id R (with_client c m).
Proof.
  intros H w. unfold with_client, id. specialize (H (c, w)).
  now destruct (m (c, w)).
Qed.

Lemma respects_bind_await {S A B : Type} (wof : S -> World)
    (R : World -> World -> Prop) `{!PreOrder R} (o : outcome A)
    (k : A -> M S B) :
  (forall a, o = Ok a -> respects wof R (k a)) ->
  respects wof R (bind (await o) k).
Proof.
  intros H s. unfold bind, await. destruct o as [a|e]; simpl.
  - now apply H.
  - reflexivity.
Qed.

Section Kept.
Context (env : Env).

Lemma kept_assign_folder (F : string) (l : nat) (entry : FolderEntry) :
  respects id (others_kept F) (assign_folder l F entry).
Proof.
  intros w. unfold assign_folder, id.
  destruct (store w !! l) as [d0|] eqn:Hl; simpl; [|reflexivity].
  intros l' d H. simpl.
  destruct (decide (l' = l)) as [->|Hne].
  - rewrite list_lookup_insert_eq by (eapply lookup_lt_Some, Hl).
    exists (set_folder F entry d0). split; [reflexivity|].
    intros G HG. rewrite (set_folder_other F G entry d0 HG). congruence.
  - rewrite list_lookup_insert_ne by congruence. eauto.
Qed.

Lemma kept_stringify (F : string) (l : nat) :
  respects id (others_kept F) (stringify_document env l).
Proof.
  intros w. unfold stringify_document, id.
  destruct (store w !! l); reflexivity.
Qed.

Lemma kept_getCached (F rootPath : string) :
  respects id (others_kept F) (getCachedMetaInfo rootPath).
Proof. intros w. reflexivity. Qed.

Lemma kept_invalidate (F rootPath : string) :
  respects id (others_kept F) (invalidateMetaInfoCache rootPath).
Proof. intros w. now apply same_store_others_kept. Qed.

Lemma kept_setCached (F rootPath : string) (l : nat) :
  respects id (others_kept F) (setCachedMetaInfo rootPath l).
Proof. intros w. now apply same_store_others_kept. Qed.

Lemma kept_POST_update (rootPath : string) (body : gmap string JsVal) (l : nat) :
  respects snd (others_kept (folderOf env body))
    (POST_update env rootPath body l).
Proof.
  unfold POST_update.
  repeat first
    [ apply respects_io_kept, io_Date_now
    | apply kept_assign_folder
    | apply kept_stringify
    | apply respects_io_kept, io_uploadFile
    | apply kept_invalidate
    | apply kept_setCached
    | respects_step ].
Qed.

Lemma kept_POST_correct (rootPath : string) (body : gmap string JsVal) :
  respects snd (others_kept (folderOf env body))
    (POST_correct env rootPath body).
Proof.
  unfold POST_correct.
  repeat first
    [ apply kept_getCached
    | apply respects_grows_kept, grows_POST_read
    | apply respects_io_kept, io_console
    | apply kept_POST_update
    | respects_step ].
Qed.

Lemma kept_POST (request : NextRequest) (body : gmap string JsVal) :
  req_json request = Ok body ->
  respects id (others_kept (folderOf env body)) (POST env request).
Proof.
  intros Hb. unfold POST, POST_try.
  apply respects_try_catch; [typeclasses eauto | |].
  - destruct (match req_auth request with None => true | Some a => _ end).
    + apply respects_ret. typeclasses eauto.
    + apply respects_bind_await; [typeclasses eauto|].
      intros b Hb'. rewrite Hb in Hb'. injection Hb' as <-.
      repeat first
        [ apply respects_io_kept, io_getConfig
        | apply respects_with_client, kept_POST_correct
        | respects_step ].
  - intros e.
    repeat first [ apply respects_io_kept, io_console | respects_step ].
Qed.
End Kept.

(** An accepted request, from the end of its read phase on. *)
Lemma POST_reads_run (env : Env) (request : NextRequest) (w : World)
    (body : gmap string JsVal) (cfg : OpenListConfigT) (l : nat)
    (s : Client * World) :
  accepted env request w = Some (body, cfg) ->
  reads env cfg w l s ->
  POST env request w
  = match POST_update env (rootPathOf cfg) body l s with
    | (Ok r, s') => (Ok r, snd s')
    | (Throw e, s') =>
        (Ok (correction_failure e), log_event (log_failure e) (snd s'))
    end.
Proof.
  intros Hacc Hreads. rewrite (POST_accepted env request w body cfg Hacc).
  destruct Hreads as [[Hc ->] | [Hc Hread]]; unfold entered in *.
  - now rewrite (POST_correct_hit env _ body (clientOf cfg)
                   (log_event EvGetConfig w) l Hc).
  - rewrite (POST_correct_miss env _ body (clientOf cfg)
               (log_event EvGetConfig w) Hc).
    now rewrite Hread.
Qed.

(** The document behind the reference that the read phase leaves in
    [metaInfo]: the cached object on a hit, a new object holding the parse
    of the downloaded text on a miss. *)
Lemma reads_document (env : Env) (cfg : OpenListConfigT) (w : World) (l : nat)
    (s : Client * World) :
  reads env cfg w l s ->
  (cache w !! rootPathOf cfg = Some l -> store (snd s) = store w)
  /\ (cache w !! rootPathOf cfg = None ->
      exists d0, downloaded env (rootPathOf cfg) (entered cfg w) d0
                 /\ store (snd s) !! l = Some d0
                 /\ store w !! l = None).
Proof.
  intros [[Hc ->] | [Hc Hread]].
  - split; [reflexivity|]. intros H. rewrite H in Hc. discriminate.
  - split; [intros H; rewrite H in Hc; discriminate|]. intros _.
    destruct (POST_read_inv env _ _ _ _ Hread)
      as (d0 & Hd & _ & _ & _ & Hl & Hnew).
    exists d0. auto.
Qed.

(** C4.  A correction of folder [F] leaves the entries of all other folders
    as they were.  In memory: every document object that existed before the
    request, the cached one included, still exists afterwards and agrees
    with its former self on every folder but [F], whatever the outcome of
    the request.  The document the handler works on is the one the read
    phase left in [metaInfo]: the cached object on a hit; on a miss a new
    object, which did not exist before the request and holds what
    [JSON.parse] made of the text downloaded from the address that
    [getFile] resolved.  From the end of the read phase on that object too
    agrees with itself on every folder but [F], whatever the outcome.  On
    the wire: after a successful correction the text that was uploaded is
    the serialization of the document now cached, which is that object,
    and it agrees on every folder but [F] with the document that was
    read. *)
Theorem C4_other_folders_unchanged (env : Env) (request : NextRequest)
    (w w' : World) (r : outcome NextResponse) (body : gmap string JsVal) :
  req_json request = Ok body ->
  POST env request w = (r, w') ->
  let F := folderOf env body in
  others_kept F w w'
  /\ forall cfg,
       accepted env request w = Some (body, cfg) ->
       let root := rootPathOf cfg in
       (forall l s,
           reads env cfg w l s ->
           others_kept F (snd s) w'
           /\ (cache w !! root = Some l -> store (snd s) = store w)
           /\ (cache w !! root = None ->
               exists d0, downloaded env root (entered cfg w) d0
                          /\ store (snd s) !! l = Some d0
                          /\ store w !! l = None))
       /\ (forall resp,
           r = Ok resp ->
           res_status resp = 200%Z ->
           exists (l : nat) (s : Client * World) (d0 d1 : MetaInfo)
                  (pre rest : list Event),
             reads env cfg w l s
             /\ store (snd s) !! l = Some d0
             /\ (cache w !! root = Some l /\ store w !! l = Some d0
                 \/ cache w !! root = None
                    /\ downloaded env root (entered cfg w) d0)
             /\ cache w' !! root = Some l
             /\ store w' !! l = Some d1
             /\ trace w' = pre ++ putRequest env (fst s) (metainfoPath root)
                                    (JSON_stringify env d1) :: rest
             /\ forall G, G <> F -> folders d1 !! G = folders d0 !! G).
Proof.
  intros Hb Hrun F. split.
  { pose proof (kept_POST env request body Hb w) as H.
    unfold id in H. now rewrite Hrun in H. }
  intros cfg Hacc root. split.
  - intros l s Hreads. split; [|exact (reads_document env cfg w l s Hreads)].
    rewrite (POST_reads_run env request w body cfg l s Hacc Hreads) in Hrun.
    pose proof (kept_POST_update env root body l s) as Hk. fold F in Hk.
    fold root in Hrun.
    destruct (POST_update env root body l s) as [[r'|e] s'];
      injection Hrun as _ <-; simpl in Hk.
    + exact Hk.
    + etransitivity; [exact Hk|]. now apply same_store_others_kept.
  - intros resp -> Hst.
    destruct (POST_success env request w w' body cfg resp Hacc Hrun Hst)
      as (l & c1 & w1 & d0 & Hsrc & Hl & s3 & Hup & -> & _).
    fold root in Hsrc, Hup. fold F in Hup.
    set (d1 := set_folder F (newEntry body (clock env (trace w1))) d0) in *.
    set (w2 := mkWorld (trace w1 ++ [EvNow]) (<[l := d1]> (store w1)) (cache w1))
      in *.
    pose proof (io_uploadFile env (metainfoPath root) (JSON_stringify env d1)
                  (c1, w2)) as Hio.
    destruct (uploadFile_first env (metainfoPath root) (JSON_stringify env d1)
                c1 w2) as [rest Hrest].
    rewrite Hup in Hio, Hrest. simpl in Hio, Hrest.
    destruct Hio as (Hs3 & _ & _).
    assert (Hreads : reads env cfg w l (c1, w1)) by exact Hsrc.
    exists l, (c1, w1), d0, d1, (trace w1 ++ [EvNow]), rest.
    split; [exact Hreads|]. split; [exact Hl|].
    split.
    { destruct (reads_document env cfg w l (c1, w1) Hreads) as [Hhit Hmiss].
      destruct Hsrc as [[Hc _] | [Hc _]].
      - left. split; [exact Hc|]. rewrite <- (Hhit Hc). exact Hl.
      - right. split; [exact Hc|].
        destruct (Hmiss Hc) as (d0' & Hd & Hl' & _).
        simpl in Hl'. rewrite Hl in Hl'. injection Hl' as <-. exact Hd. }
    split; [simpl; apply lookup_insert_eq|].
    split.
    { simpl. rewrite Hs3. subst w2. simpl.
      apply list_lookup_insert_eq. eapply lookup_lt_Some, Hl. }
    split; [simpl; rewrite Hrest; reflexivity|].
    intros G HG. subst d1. apply set_folder_other, HG.
Qed.

(** ** Upload and advisory refresh (lines 174-217) *)

Section Upload.
Context (env : Env).

Lemma refreshDirectory_run (path : string) (s : Client * World) :
  OpenListClient.refreshDirectory env path s
  = (Ok tt,
     after_refresh env
       (OpenListClient.fetchWithRetry env (baseURL (fst s) +:+ "/api/fs/list")
          (refreshOptions (fst s) path) false s)).
Proof.
  unfold OpenListClient.refreshDirectory, try_catch, bind, this, refreshOptions,
    after_refresh.
  simpl.
  destruct (OpenListClient.fetchWithRetry env _ _ false s) as [[r|e] s1]; simpl.
  - destruct (ok r); reflexivity.
  - reflexivity.
Qed.

Lemma uploadFile_run (path content : string) (c : Client) (w : World)
    (r : Response) (s1 : Client * World) :
  OpenListClient.fetchWithRetry env (baseURL c +:+ "/api/fs/put")
    (mkRequestInit (Some "PUT") (OpenListClient.uploadHeaders env c path)
       (Some (TextBody content))) false (c, w) = (Ok r, s1) ->
  ok r = true ->
  OpenListClient.uploadFile env path content (c, w)
  = (Ok tt,
     after_refresh env
       (OpenListClient.fetchWithRetry env (baseURL (fst s1) +:+ "/api/fs/list")
          (refreshOptions (fst s1) (OpenListClient.dirname path)) false s1)).
Proof.
  intros Hput Hok.
  unfold OpenListClient.uploadFile, bind, this. simpl.
  rewrite Hput, Hok. simpl. apply refreshDirectory_run.
Qed.
End Upload.

Lemma POST_after_upload (env : Env) (request : NextRequest) (w : World)
    (body : gmap string JsVal) (cfg : OpenListConfigT) (l : nat)
    (s s3 : Client * World) (d0 : MetaInfo) (u : unit) :
  accepted env request w = Some (body, cfg) ->
  reads env cfg w l s ->
  store (snd s) !! l = Some d0 ->
  OpenListClient.uploadFile env (metainfoPath (rootPathOf cfg))
    (JSON_stringify env (corrected env body s d0))
    (upload_state env body l s d0) = (Ok u, s3) ->
  POST env request w = (Ok success, recache (rootPathOf cfg) l (snd s3)).
Proof.
  intros Hacc Hreads Hl Hup.
  rewrite (POST_accepted env request w body cfg Hacc).
  assert (Hupd : POST_update env (rootPathOf cfg) body l s
                 = (Ok success, (fst s3, recache (rootPathOf cfg) l (snd s3)))).
  { destruct s as [c1 w1]. simpl in Hl.
    rewrite (POST_update_run env (rootPathOf cfg) body l c1 w1 d0 Hl).
    unfold upload_state, corrected in Hup. simpl in Hup. rewrite Hup.
    reflexivity. }
  destruct Hreads as [[Hc ->] | [Hc Hread]].
  - unfold entered in *.
    rewrite (POST_correct_hit env _ body (clientOf cfg)
               (log_event EvGetConfig w) l Hc).
    rewrite Hupd. reflexivity.
  - unfold entered in *.
    rewrite (POST_correct_miss env _ body (clientOf cfg)
               (log_event EvGetConfig w) Hc).
    rewrite Hread, Hupd. reflexivity.
Qed.

(** C5.  Once the PUT request of [uploadFile] has come back with a 2xx
    status, [uploadFile] returns normally whatever the advisory refresh
    does: a refresh answered with an error status, or one that throws,
    only adds a warning to the log.  And a correction whose upload went
    through this way answers 200 "纠错成功". *)
Theorem C5_refresh_outcome_is_swallowed (env : Env) :
  (forall (path content : string) (c : Client) (w : World) (r : Response)
          (s1 : Client * World),
      OpenListClient.fetchWithRetry env (baseURL c +:+ "/api/fs/put")
        (mkRequestInit (Some "PUT") (OpenListClient.uploadHeaders env c path)
           (Some (TextBody content))) false (c, w) = (Ok r, s1) ->
      ok r = true ->
      OpenListClient.uploadFile env path content (c, w)
      = (Ok tt,
         after_refresh env
           (OpenListClient.fetchWithRetry env
              (baseURL (fst s1) +:+ "/api/fs/list")
              (refreshOptions (fst s1) (OpenListClient.dirname path)) false s1)))
  /\
  (forall (request : NextRequest) (w : World) (body : gmap string JsVal)
          (cfg : OpenListConfigT) (l : nat) (s s1 : Client * World)
          (d0 : MetaInfo) (r : Response),
      accepted env request w = Some (body, cfg) ->
      reads env cfg w l s ->
      store (snd s) !! l = Some d0 ->
      let path := metainfoPath (rootPathOf cfg) in
      let content := JSON_stringify env (corrected env body s d0) in
      let s2 := upload_state env body l s d0 in
      OpenListClient.fetchWithRetry env (baseURL (fst s2) +:+ "/api/fs/put")
        (mkRequestInit (Some "PUT")
           (OpenListClient.uploadHeaders env (fst s2) path)
           (Some (TextBody content))) false s2 = (Ok r, s1) ->
      ok r = true ->
      fst (POST env request w) = Ok success).
Proof.
  split.
  - intros path content c w r s1 Hput Hok.
    exact (uploadFile_run env path content c w r s1 Hput Hok).
  - intros request w body cfg l s s1 d0 r Hacc Hreads Hl path content s2 Hput Hok.
    destruct s2 as [c2 w2] eqn:Es2. simpl in Hput.
    pose proof (uploadFile_run env path content c2 w2 r s1 Hput Hok) as Hup.
    rewrite <- Es2 in Hup.
    rewrite (POST_after_upload env request w body cfg l s _ d0 tt Hacc Hreads Hl Hup).
    reflexivity.
Qed.

(** ** Reading the document on a cache miss (lines 59-95) *)

Lemma POST_miss (env : Env) (request : NextRequest) (w : World)
    (body : gmap string JsVal) (cfg : OpenListConfigT) :
  accepted env request w = Some (body, cfg) ->
  cache w !! rootPathOf cfg = None ->
  (forall e s,
      POST_read env (rootPathOf cfg) (entered cfg w) = (Throw e, s) ->
      POST env request w
      = (Ok read_failure, log_event (log_read_failure e) (snd s)))
  /\ (forall s,
      POST_read env (rootPathOf cfg) (entered cfg w) = (Ok None, s) ->
      POST env request w = (Ok not_found, snd s)).
Proof.
  intros Hacc Hc.
  split; intros; rewrite (POST_accepted env request w body cfg Hacc);
    unfold entered in *;
    rewrite (POST_correct_miss env _ body (clientOf cfg)
               (log_event EvGetConfig w) Hc);
    rewrite H; reflexivity.
Qed.

(** C6.  On a cache miss the two ways of not getting the document are told
    apart.  A thrown error while reading (a failing [getFile], a download
    that throws or is not 2xx, a text that [JSON.parse] rejects) gives the
    500 response "metainfo.json 读取失败".  A [getFile] that returns normally
    without a file (code other than 200, or no [raw_url]) gives the 404
    response "metainfo.json 不存在".  The two responses differ, and a run
    gives one response. *)
Theorem C6_read_failure_and_not_found (env : Env) (request : NextRequest)
    (w : World) (body : gmap string JsVal) (cfg : OpenListConfigT) :
  accepted env request w = Some (body, cfg) ->
  cache w !! rootPathOf cfg = None ->
  let s0 := entered cfg w in
  let path := metainfoPath (rootPathOf cfg) in
  (forall e s1,
      OpenListClient.getFile env path s0 = (Throw e, s1) ->
      POST env request w
      = (Ok read_failure, log_event (log_read_failure e) (snd s1)))
  /\ (forall f s1 u,
      OpenListClient.getFile env path s0 = (Ok f, s1) ->
      code f = 200%Z -> raw_url (data f) = Some u -> truthy_str u = true ->
      let download := net env (trace (snd s1)) u downloadOptions in
      (forall e, download = Throw e ->
                 fst (POST env request w) = Ok read_failure)
      /\ (forall r, download = Ok r -> ok r = false ->
                    fst (POST env request w) = Ok read_failure)
      /\ (forall r e, download = Ok r -> ok r = true ->
                      JSON_parse env (text r) = Throw e ->
                      fst (POST env request w) = Ok read_failure))
  /\ (forall f s1,
      OpenListClient.getFile env path s0 = (Ok f, s1) ->
      code f <> 200%Z \/ truthy_opt (raw_url (data f)) = false ->
      POST env request w = (Ok not_found, snd s1))
  /\ res_status read_failure = 500%Z
  /\ res_status not_found = 404%Z
  /\ read_failure <> not_found.
Proof.
  intros Hacc Hc s0 path.
  destruct (POST_miss env request w body cfg Hacc Hc) as [Hthrow Hnone].
  fold s0 in Hthrow, Hnone.
  split; [|split; [|split]].
  - intros e s1 Hget. apply Hthrow.
    unfold POST_read, bind. fold path. now rewrite Hget.
  - intros f s1 u Hget Hcode Hraw Hu download.
    assert (Hread : POST_read env (rootPathOf cfg) s0
              = (let* contentResponse := liftW (fetch env u downloadOptions) in
                 if negb (ok contentResponse) then
                   throw (Error ("下载失败: "
                                 +:+ NumberToString env (status contentResponse)))
                 else liftW (parse_document env (text contentResponse))) s1).
    { unfold POST_read. fold path. unfold bind at 1. rewrite Hget.
      rewrite Hcode, Hraw. simpl. rewrite Hu. reflexivity. }
    unfold bind, liftW, fetch in Hread. simpl in Hread. fold download in Hread.
    split; [|split].
    + intros e Hd. rewrite Hd in Hread.
      now rewrite (Hthrow _ _ Hread).
    + intros r Hd Hok. rewrite Hd in Hread. simpl in Hread.
      rewrite Hok in Hread. simpl in Hread.
      now rewrite (Hthrow _ _ Hread).
    + intros r e Hd Hok Hp. rewrite Hd in Hread. simpl in Hread.
      rewrite Hok in Hread. simpl in Hread.
      unfold parse_document in Hread. rewrite Hp in Hread.
      now rewrite (Hthrow _ _ Hread).
  - intros f s1 Hget Hno. apply Hnone.
    unfold POST_read, bind. fold path. rewrite Hget.
    destruct Hno as [Hcode | Hraw].
    + apply Z.eqb_neq in Hcode. now rewrite Hcode.
    + rewrite Hraw. now rewrite andb_false_r.
  - repeat split. discriminate.
Qed.

(** ** A failed upload (lines 97-118) *)

(** On a cache hit the handler works on the cached object itself, so the
    assignment of line 98 is visible through the cache before the upload is
    attempted; a failing upload does not take it back. *)
Lemma failed_upload_keeps_mutation (env : Env) (request : NextRequest)
    (w : World) (body : gmap string JsVal) (cfg : OpenListConfigT) (l : nat)
    (d0 : MetaInfo) (e : Exn) (s3 : Client * World) :
  accepted env request w = Some (body, cfg) ->
  folderOf env body <> "__proto__" ->
  cache w !! rootPathOf cfg = Some l ->
  store w !! l = Some d0 ->
  OpenListClient.uploadFile env (metainfoPath (rootPathOf cfg))
    (JSON_stringify env (corrected env body (entered cfg w) d0))
    (upload_state env body l (entered cfg w) d0) = (Throw e, s3) ->
  let w' := log_event (log_failure e) (snd s3) in
  POST env request w = (Ok (correction_failure e), w')
  /\ cache w' = cache w
  /\ cached_entry w' (rootPathOf cfg) (folderOf env body)
     = Some (newEntry body (clock env (trace w ++ [EvGetConfig]))).
Proof.
  intros Hacc Hkey Hc Hl Hup w'.
  pose proof (io_uploadFile env (metainfoPath (rootPathOf cfg))
                (JSON_stringify env (corrected env body (entered cfg w) d0))
                (upload_state env body l (entered cfg w) d0)) as Hio.
  rewrite Hup in Hio. simpl in Hio. destruct Hio as (Hs & Hca & _).
  split; [|split].
  - rewrite (POST_accepted env request w body cfg Hacc). unfold entered.
    rewrite (POST_correct_hit env _ body (clientOf cfg)
               (log_event EvGetConfig w) l Hc).
    rewrite (POST_update_run env _ body l (clientOf cfg)
               (log_event EvGetConfig w) d0 Hl).
    unfold upload_state, corrected, entered in Hup. simpl in Hup.
    simpl. rewrite Hup. reflexivity.
  - subst w'. simpl. exact Hca.
  - unfold cached_entry. subst w'. simpl. rewrite Hca, Hs. simpl. rewrite Hc.
    rewrite list_lookup_insert_eq by (eapply lookup_lt_Some, Hl).
    unfold corrected. apply set_folder_own, Hkey.
Qed.

(** On a cache miss the handler works on a freshly parsed object: whatever
    goes wrong, the cache and the documents that existed are as before. *)
Lemma failed_correction_on_miss (env : Env) (request : NextRequest)
    (w w' : World) (body : gmap string JsVal) (cfg : OpenListConfigT)
    (resp : NextResponse) :
  accepted env request w = Some (body, cfg) ->
  cache w !! rootPathOf cfg = None ->
  POST env request w = (Ok resp, w') ->
  res_status resp <> 200%Z ->
  cache w' = cache w
  /\ forall l d, store w !! l = Some d -> store w' !! l = Some d.
Proof.
  intros Hacc Hc Hrun Hst.
  rewrite (POST_accepted env request w body cfg Hacc) in Hrun. unfold entered in Hrun.
  rewrite (POST_correct_miss env _ body (clientOf cfg)
             (log_event EvGetConfig w) Hc) in Hrun.
  pose proof (grows_POST_read env (rootPathOf cfg)
                (clientOf cfg, log_event EvGetConfig w)) as Hg.
  destruct (POST_read env _ _) as [[[l|]|e] [c1 w1]] eqn:Hread; simpl in Hg.
  - destruct (POST_read_some env _ _ _ _ _ _ Hread) as (text & d0 & _ & Hlen & Hs & Hca).
    simpl in Hlen, Hs, Hca.
    assert (Hl : store w1 !! l = Some d0).
    { rewrite Hs, Hlen, lookup_app_r, Nat.sub_diag by lia. reflexivity. }
    rewrite (POST_update_run env _ body l c1 w1 d0 Hl) in Hrun.
    match type of Hrun with
    | context [ OpenListClient.uploadFile env ?p ?t ?s ] =>
        pose proof (io_uploadFile env p t s) as Hio;
        destruct (OpenListClient.uploadFile env p t s) as [[u|e] s3]
    end.
    + injection Hrun as <- _. now contradiction Hst.
    + injection Hrun as _ <-. simpl in Hio. destruct Hio as (Hs3 & Hc3 & _).
      simpl in Hs3, Hc3. simpl. split; [now rewrite Hc3, Hca|].
      intros l' d H. rewrite Hs3.
      rewrite list_lookup_insert_ne
        by (apply lookup_lt_Some in H; lia).
      rewrite Hs. now apply lookup_app_l_Some.
  - injection Hrun as _ <-. simpl. destruct Hg as ((new & Hs) & Hca & _).
    split; [exact Hca|]. intros l d H. rewrite Hs. now apply lookup_app_l_Some.
  - injection Hrun as _ <-. simpl. destruct Hg as ((new & Hs) & Hca & _).
    split; [exact Hca|]. intros l d H. rewrite Hs. now apply lookup_app_l_Some.
Qed.

(** C2 does not hold of the code.  The cache holds the document for
    [/media], in which folder [Movie] is marked failed; the storage service
    answers the upload with 500.  The request is answered 500, and the
    cached document nevertheless carries the new entry for [Movie]. *)
Theorem C2_failed_upload_changes_cached_document :
  let w := Fixture.warm in
  let run := POST Fixture.env_upload_fails Fixture.request w in
  fst run = Ok (correction_failure (Error "OpenList 上传失败: 500 - "))
  /\ res_status (correction_failure (Error "OpenList 上传失败: 500 - ")) = 500%Z
  /\ cache (snd run) = cache w
  /\ cached_entry w "/media" "Movie" = Some Fixture.old_entry
  /\ cached_entry (snd run) "/media" "Movie" = Some (newEntry Fixture.body 1)
  /\ newEntry Fixture.body 1 <> Fixture.old_entry.
Proof.
  vm_compute. repeat split. discriminate.
Qed.

(** ** Counterexamples and instances *)

(** C1, as stated, fails.  The client has a username and a password and the
    service answers 401 to everything, the login included.  The call sends
    its request once and the login request once, and returns the first 401:
    no request is reissued. *)
Lemma C1_counterexample :
  let c := clientOf Fixture.cfg in
  let url := "http://ol/api/fs/get" in
  let options :=
    mkRequestInit (Some "POST") (OpenListClient.getHeaders c)
                  (Some (GetBody "/media/metainfo.json" "")) in
  let run := OpenListClient.fetchWithRetry Fixture.env_denied url options false
               (c, Fixture.cold) in
  configured c = true
  /\ net Fixture.env_denied [] url options = Ok (mkResponse 401 "")
  /\ fst run = Ok (mkResponse 401 "")
  /\ requests_to "http://ol/api/auth/login" (trace (snd (snd run))) = 1%nat
  /\ requests_to url (trace (snd (snd run))) = 1%nat
  /\ requests_to url (trace (snd (snd run))) <> 2%nat.
Proof. vm_compute. repeat split. discriminate. Qed.

(** C9, as stated, fails.  With a clock that does not advance between the
    two requests, two successive successful corrections of the same folder
    write the same [last_updated]. *)
Lemma C9_counterexample :
  let first := POST Fixture.env_frozen Fixture.request Fixture.cold in
  let second := POST Fixture.env_frozen Fixture.request (snd first) in
  fst first = Ok success
  /\ fst second = Ok success
  /\ exists e1 e2,
       cached_entry (snd first) "/media" "Movie" = Some e1
       /\ cached_entry (snd second) "/media" "Movie" = Some e2
       /\ ~ (last_updated e1 < last_updated e2)%Z.
Proof.
  split; [vm_compute; reflexivity|]. split; [vm_compute; reflexivity|].
  exists (newEntry Fixture.body 1700000000000),
         (newEntry Fixture.body 1700000000000).
  split; [vm_compute; reflexivity|]. split; [vm_compute; reflexivity|].
  simpl. lia.
Qed.

Lemma ticking_monotone : clock_monotone Fixture.env_ok.
Proof.
  intros h ext. simpl. unfold Fixture.ticking. rewrite length_app. lia.
Qed.

(** C1 at a service that rejects the stale token and accepts the one handed
    out at login: one login, one reissued request, whose answer is returned. *)
Lemma C1_witness :
  fst (OpenListClient.fetchWithRetry Fixture.env_ok "http://ol/api/fs/get"
         (mkRequestInit (Some "POST")
            (OpenListClient.getHeaders (clientOf Fixture.cfg))
            (Some (GetBody "/media/metainfo.json" "")))
         false (clientOf Fixture.cfg, Fixture.cold))
  = Ok (mkResponse 200 "FILE").
Proof.
  destruct (C1_retry_once Fixture.env_ok "http://ol/api/fs/get"
              (mkRequestInit (Some "POST")
                 (OpenListClient.getHeaders (clientOf Fixture.cfg))
                 (Some (GetBody "/media/metainfo.json" "")))
              (clientOf Fixture.cfg) Fixture.cold (mkResponse 401 "")
              ltac:(vm_compute; reflexivity) ltac:(reflexivity)) as [H _].
  destruct (H "admin" "secret" ltac:(reflexivity) ltac:(reflexivity)
              ltac:(reflexivity) ltac:(reflexivity)) as [_ H2].
  rewrite (H2 "fresh" ltac:(vm_compute; reflexivity)).
  vm_compute. reflexivity.
Defined.

(** X19 on a fresh process: the document is fetched, corrected and cached. *)
Lemma success_replaces_entry_witness :
  exists e,
    cached_entry (snd (POST Fixture.env_ok Fixture.request Fixture.cold))
      "/media" "Movie" = Some e
    /\ tmdb_id e = JNum 603 /\ failed e = false.
Proof.
  destruct (success_replaces_entry Fixture.env_ok Fixture.request Fixture.cold
              (snd (POST Fixture.env_ok Fixture.request Fixture.cold))
              Fixture.body Fixture.cfg success
              ltac:(vm_compute; reflexivity)
              ltac:(vm_compute; intros H; discriminate H)
              ltac:(vm_compute; reflexivity)
              ltac:(reflexivity))
    as (e & l & d1 & c & h & pre & rest
        & _ & _ & _ & He & Hid & _ & _ & _ & _ & _ & _ & Hf & _).
  exists e. split; [exact He|]. split; [exact Hid | exact Hf].
Defined.

(** C4 on a fresh process: the document is downloaded, and folder [Other]
    of the document cached afterwards is the one of the download. *)
Lemma C4_witness :
  let w' := snd (POST Fixture.env_ok Fixture.request Fixture.cold) in
  others_kept "Movie" Fixture.cold w'
  /\ exists l d1,
       cache w' !! "/media" = Some l
       /\ store w' !! l = Some d1
       /\ folders d1 !! "Other" = Some Fixture.other_entry.
Proof.
  intros w'.
  destruct (C4_other_folders_unchanged Fixture.env_ok Fixture.request
              Fixture.cold w'
              (fst (POST Fixture.env_ok Fixture.request Fixture.cold))
              Fixture.body ltac:(reflexivity)
              ltac:(vm_compute; reflexivity)) as [Hk H].
  split; [exact Hk|].
  destruct (H Fixture.cfg ltac:(vm_compute; reflexivity)) as [_ Hs].
  destruct (Hs success ltac:(vm_compute; reflexivity) ltac:(reflexivity))
    as (l & s & d0 & d1 & pre & rest & _ & _ & Hsrc & Hc & Hl & _ & Ho).
  exists l, d1. split; [exact Hc|]. split; [exact Hl|].
  rewrite (Ho "Other" ltac:(vm_compute; intros E; discriminate E)).
  destruct Hsrc as [[Hhit _] | [_ Hd]]; [vm_compute in Hhit; discriminate Hhit|].
  destruct Hd as (f & s1 & u & r & Hget & _ & Hraw & Hnet & _ & Hp).
  vm_compute in Hget. injection Hget as <- <-.
  vm_compute in Hraw. injection Hraw as <-.
  vm_compute in Hnet. injection Hnet as <-.
  vm_compute in Hp. injection Hp as <-.
  vm_compute. reflexivity.
Defined.

(** C5 with a directory refresh that throws: the correction succeeds. *)
Lemma C5_witness :
  fst (POST Fixture.env_refresh_fails Fixture.request Fixture.warm) = Ok success.
Proof.
  eapply (proj2 (C5_refresh_outcome_is_swallowed Fixture.env_refresh_fails)
            Fixture.request Fixture.warm Fixture.body Fixture.cfg 0%nat
            (entered Fixture.cfg Fixture.warm) _ Fixture.doc (mkResponse 200 "")).
  - vm_compute; reflexivity.
  - left. split; reflexivity.
  - reflexivity.
  - vm_compute; reflexivity.
  - reflexivity.
Defined.

(** C6 at a service that rejects every request: reading fails with 500. *)
Lemma C6_witness :
  fst (POST Fixture.env_denied Fixture.request Fixture.cold) = Ok read_failure.
Proof.
  destruct (C6_read_failure_and_not_found Fixture.env_denied Fixture.request
              Fixture.cold Fixture.body Fixture.cfg
              ltac:(vm_compute; reflexivity) ltac:(reflexivity)) as [H _].
  rewrite (H (Error "OpenList API 错误: 401")
             (snd (OpenListClient.getFile Fixture.env_denied
                     (metainfoPath (rootPathOf Fixture.cfg))
                     (entered Fixture.cfg Fixture.cold)))
             ltac:(vm_compute; reflexivity)).
  reflexivity.
Defined.

(** C7 at the root [/media/]. *)
Lemma C7_witness : one_separator (metainfoPath "/media/").
Proof.
  destruct (C7_metainfoPath_join "/media/") as (_ & _ & _ & _ & _ & H & _).
  exact (H ltac:(reflexivity)).
Defined.

(** C8 for a body without [folder]. *)
Lemma C8_witness :
  POST Fixture.env_ok
    (mkNextRequest (Some (mkAuthInfo (Some "alice")))
       (Ok (<["tmdbId" := JNum 603]> ∅)))
    Fixture.cold
  = (Ok missing_parameters, Fixture.cold).
Proof.
  exact (proj1 (C8_missing_field_rejected_before_any_call Fixture.env_ok
                  (mkNextRequest (Some (mkAuthInfo (Some "alice")))
                     (Ok (<["tmdbId" := JNum 603]> ∅)))
                  (mkAuthInfo (Some "alice")) (<["tmdbId" := JNum 603]> ∅)
                  Fixture.cold ltac:(reflexivity) ltac:(reflexivity)
                  ltac:(reflexivity) ltac:(left; reflexivity))).
Defined.

(** C9 with a clock that advances: the later stamp is not smaller. *)
Lemma C9_witness :
  exists e1 e2,
    cached_entry (snd (POST Fixture.env_ok Fixture.request Fixture.cold))
      "/media" "Movie" = Some e1
    /\ cached_entry
         (snd (POST Fixture.env_ok Fixture.request
                 (snd (POST Fixture.env_ok Fixture.request Fixture.cold))))
         "/media" "Movie" = Some e2
    /\ (last_updated e1 <= last_updated e2)%Z.
Proof.
  destruct (C9_last_updated_follows_clock Fixture.env_ok
              Fixture.request Fixture.request Fixture.cold
              (snd (POST Fixture.env_ok Fixture.request Fixture.cold))
              (snd (POST Fixture.env_ok Fixture.request
                      (snd (POST Fixture.env_ok Fixture.request Fixture.cold))))
              Fixture.body Fixture.body Fixture.cfg Fixture.cfg success success
              ltac:(vm_compute; reflexivity)
              ltac:(vm_compute; intros H; discriminate H)
              ltac:(vm_compute; reflexivity)
              ltac:(reflexivity)
              ltac:(vm_compute; reflexivity)
              ltac:(vm_compute; intros H; discriminate H)
              ltac:(vm_compute; reflexivity)
              ltac:(reflexivity))
    as (e1 & e2 & h1 & between & H1 & H2 & _ & _ & Hle).
  exists e1, e2. split; [exact H1|]. split; [exact H2|].
  exact (Hle ticking_monotone).
Defined.

(** C10 for the catalog identifier 0. *)
Lemma C10_witness :
  POST Fixture.env_ok
    (mkNextRequest (Some (mkAuthInfo (Some "alice")))
       (Ok (<["folder" := JStr "Movie"]> (<["tmdbId" := JNum 0]> ∅))))
    Fixture.cold
  = (Ok missing_parameters, Fixture.cold).
Proof.
  exact (proj1 (C10_falsy_field_rejected Fixture.env_ok
                  (mkNextRequest (Some (mkAuthInfo (Some "alice")))
                     (Ok (<["folder" := JStr "Movie"]>
                            (<["tmdbId" := JNum 0]> ∅))))
                  (mkAuthInfo (Some "alice"))
                  (<["folder" := JStr "Movie"]> (<["tmdbId" := JNum 0]> ∅))
                  (JNum 0) Fixture.cold ltac:(reflexivity) ltac:(reflexivity)
                  ltac:(reflexivity) ltac:(right; reflexivity)
                  ltac:(reflexivity))).
Defined.

(** * Further properties *)

(** ** [login] and [refreshToken] (lines 43-92) *)

Lemma log_event_events (e : Event) (es : list Event) (w : World) :
  log_event e (log_events es w) = log_events (es ++ [e]) w.
Proof. unfold log_event, log_events. simpl. now rewrite <- app_assoc. Qed.

Lemma log_event_one (e : Event) (w : World) :
  log_event e w = log_events [e] w.
Proof. reflexivity. Qed.

(** Both sides are the same world once the logged events are lined up. *)
Ltac same_world :=
  unfold log_events, log_event, with_token; simpl;
  rewrite <- ?app_assoc; simpl; reflexivity.

Lemma truthy_str_nonempty (t : string) : truthy_str t = true <-> t <> "".
Proof.
  unfold truthy_str. rewrite negb_true_iff. apply String.eqb_neq.
Qed.

Lemma configured_inv (c : Client) :
  configured c = true ->
  exists u p, username c = Some u /\ password c = Some p
              /\ truthy_str u = true /\ truthy_str p = true.
Proof.
  unfold configured. intros H. apply andb_true_iff in H as [Hu Hp].
  destruct (username c) as [u|]; [|discriminate].
  destruct (password c) as [p|]; [|discriminate].
  exists u, p. auto.
Qed.

Lemma login_spec (env : Env) (b u p : string) (w : World)
    (t : string) :
  (fst (OpenListClient.login env b u p w) = Ok t
   <-> exists r d,
         net env (trace w) (loginURL b) (loginOptions u p) = Ok r
         /\ ok r = true
         /\ json_login env (text r) = Ok d
         /\ login_code d = 200%Z
         /\ login_token d = Some t
         /\ t <> "")
  /\ snd (OpenListClient.login env b u p w)
     = log_events [EvFetch (loginURL b) (loginOptions u p)] w.
Proof.
  split; [|apply login_world].
  unfold OpenListClient.login, bind, fetch, throw, await, ret, loginURL,
    loginOptions. simpl.
  destruct (net env (trace w) _ _) as [r|e] eqn:Hn; simpl.
  2: { split; [discriminate|]. intros (r' & d' & H1 & _). discriminate. }
  destruct (ok r) eqn:Hok; simpl.
  2: { split; [discriminate|].
       intros (r' & d' & H1 & H2 & _). injection H1 as <-. congruence. }
  destruct (json_login env (text r)) as [d|e] eqn:Hj; simpl.
  2: { split; [discriminate|].
       intros (r' & d' & H1 & _ & H3 & _). injection H1 as <-. congruence. }
  destruct (login_code d =? 200)%Z eqn:Hc; simpl.
  2: { apply Z.eqb_neq in Hc. split; [discriminate|].
       intros (r' & d' & H1 & _ & H3 & H4 & _).
       injection H1 as <-. assert (d' = d) by congruence. subst d'.
       contradiction. }
  apply Z.eqb_eq in Hc.
  destruct (login_token d) as [t'|] eqn:Ht; simpl.
  2: { split; [discriminate|].
       intros (r' & d' & H1 & _ & H3 & _ & H5 & _).
       injection H1 as <-. assert (d' = d) by congruence. subst d'.
       congruence. }
  destruct (truthy_str t') eqn:Tt; simpl.
  - split.
    + intros H. injection H as ->. exists r, d.
      apply truthy_str_nonempty in Tt. auto 10.
    + intros (r' & d' & H1 & _ & H3 & _ & H5 & _).
      injection H1 as <-. assert (d' = d) by congruence. subst d'. congruence.
  - split; [discriminate|].
    intros (r' & d' & H1 & _ & H3 & _ & H5 & H6).
    injection H1 as <-. assert (d' = d) by congruence. subst d'.
    rewrite Ht in H5. injection H5 as <-.
    apply truthy_str_nonempty in H6. congruence.
Qed.

(** X1.  [login] sends one request, whatever comes back, and returns a token
    exactly when the answer is 2xx, decodes, carries code 200 and a token
    that is not empty: that token. *)
Theorem login_returns_token_iff (env : Env) (b u p : string) (w : World)
    (t : string) :
  (fst (OpenListClient.login env b u p w) = Ok t
   <-> exists r d,
         net env (trace w) (loginURL b) (loginOptions u p) = Ok r
         /\ ok r = true
         /\ json_login env (text r) = Ok d
         /\ login_code d = 200%Z
         /\ login_token d = Some t
         /\ t <> "")
  /\ snd (OpenListClient.login env b u p w)
     = log_events [EvFetch (loginURL b) (loginOptions u p)] w.
Proof. exact (login_spec env b u p w t). Qed.

(** The whole of [refreshToken] on a client with credentials. *)
Lemma refreshToken_run (env : Env) (c : Client) (w : World) (u p : string) :
  username c = Some u -> password c = Some p ->
  truthy_str u = true -> truthy_str p = true ->
  OpenListClient.refreshToken env (c, w)
  = match fst (OpenListClient.login env (baseURL c) u p
                 (log_event announce_refresh w)) with
    | Ok t =>
        (Ok true,
         (with_token c t,
          log_events [announce_refresh; loginRequest c u p; refresh_done] w))
    | Throw e =>
        (Ok false,
         (c, log_events [announce_refresh; loginRequest c u p; refresh_failed e] w))
    end.
Proof.
  intros Hu Hp Tu Tp.
  pose proof (login_world env (baseURL c) u p (log_event announce_refresh w)) as Hw.
  unfold OpenListClient.refreshToken, bind, this, try_catch, liftW, console,
    set_token, ret.
  simpl. rewrite Hu, Hp. simpl. rewrite Tu, Tp. simpl.
  fold announce_refresh.
  destruct (OpenListClient.login env (baseURL c) u p _) as [[t|e] w'];
    simpl in *; subst w'; same_world.
Qed.

Lemma refreshToken_unconfigured (env : Env) (c : Client) (w : World) :
  configured c = false ->
  OpenListClient.refreshToken env (c, w) = (Ok false, (c, w)).
Proof.
  intros H. unfold configured in H.
  unfold OpenListClient.refreshToken, bind, this, ret. simpl.
  rewrite <- negb_andb, H. reflexivity.
Qed.

(** X2.  [refreshToken] never throws.  When it answers [false] the client is as
    it was; when it answers [true] the client had credentials and now holds
    a token that is not empty, its other fields unchanged.  Without
    credentials nothing happens at all: no log line, no request.  With
    credentials the answer follows the one login it attempts: a failing
    login is caught and answered [false], the client unchanged and the
    failure logged; a login that returns a token is answered [true], the
    client now holding that token. *)
Theorem refreshToken_never_throws (env : Env) (c : Client) (w : World) :
  exists (b : bool) (c' : Client) (new : list Event),
    OpenListClient.refreshToken env (c, w) = (Ok b, (c', log_events new w))
    /\ same_identity c c'
    /\ (b = false -> c' = c)
    /\ (b = true -> configured c = true /\ token c' <> "")
    /\ (configured c = false -> b = false /\ new = [])
    /\ (forall u p,
          username c = Some u -> password c = Some p ->
          truthy_str u = true -> truthy_str p = true ->
          let attempt := fst (OpenListClient.login env (baseURL c) u p
                                (log_event announce_refresh w)) in
          (forall e, attempt = Throw e ->
                     b = false /\ c' = c
                     /\ new = [announce_refresh; loginRequest c u p;
                               refresh_failed e])
          /\ (forall t, attempt = Ok t ->
                        b = true /\ c' = with_token c t
                        /\ new = [announce_refresh; loginRequest c u p;
                                  refresh_done])).
Proof.
  destruct (configured c) eqn:Hc.
  - destruct (configured_inv c Hc) as (u & p & Hu & Hp & Tu & Tp).
    rewrite (refreshToken_run env c w u p Hu Hp Tu Tp).
    destruct (fst (OpenListClient.login env (baseURL c) u p _)) as [t|e] eqn:Hl.
    + exists true, (with_token c t),
             [announce_refresh; loginRequest c u p; refresh_done].
      split; [reflexivity|]. split; [repeat split|].
      split; [discriminate|]. split; [|split; [discriminate|]].
      * intros _. split; [reflexivity|]. simpl.
        apply (login_spec env (baseURL c) u p _ t) in Hl.
        destruct Hl as (_ & _ & _ & _ & _ & _ & _ & H). exact H.
      * intros u' p' Hu' Hp' _ _ attempt.
        assert (u' = u) by congruence. assert (p' = p) by congruence.
        subst u' p' attempt. rewrite Hl.
        split; [discriminate|]. intros t' Ht. injection Ht as <-. auto.
    + exists false, c, [announce_refresh; loginRequest c u p; refresh_failed e].
      split; [reflexivity|]. split; [repeat split|].
      split; [reflexivity|]. split; [discriminate|]. split; [discriminate|].
      intros u' p' Hu' Hp' _ _ attempt.
      assert (u' = u) by congruence. assert (p' = p) by congruence.
      subst u' p' attempt. rewrite Hl.
      split; [|discriminate]. intros e' He. injection He as <-. auto.
  - rewrite (refreshToken_unconfigured env c w Hc).
    exists false, c, []. unfold log_events. rewrite app_nil_r.
    destruct w. simpl. split; [reflexivity|]. split; [repeat split|].
    split; [reflexivity|]. split; [discriminate|]. split; [auto|].
    intros u p Hu Hp Tu Tp. unfold configured in Hc.
    rewrite Hu, Hp in Hc. simpl in Hc. rewrite Tu, Tp in Hc. discriminate.
Qed.

(** ** Every run of [fetchWithRetry] (lines 97-121) *)

(** A call that does not retry: one request, its outcome handed back. *)
Lemma fetchWithRetry_single (env : Env) (url : string) (options : RequestInit)
    (retried : bool) (c : Client) (w : World) :
  retried = true \/ configured c = false
  \/ (forall r, net env (trace w) url options = Ok r -> status r <> 401%Z) ->
  OpenListClient.fetchWithRetry env url options retried (c, w)
  = (net env (trace w) url options, (c, log_events [EvFetch url options] w)).
Proof.
  intros H. destruct retried; [apply fetchWithRetry_retried|].
  rewrite fetchWithRetry_unfold.
  unfold bind, liftW, fetch, this, ret. simpl.
  destruct (net env (trace w) url options) as [r|e] eqn:Hn; [|reflexivity].
  simpl. destruct H as [H | [H | H]]; [discriminate | |].
  - unfold configured in H. rewrite andb_true_r, <- andb_assoc, H, andb_false_r.
    reflexivity.
  - specialize (H r eq_refl). apply Z.eqb_neq in H. rewrite H. reflexivity.
Qed.

Lemma fetchWithRetry_runs (env : Env) (url : string)
    (options : RequestInit) (retried : bool) (c : Client) (w : World) :
  let req := EvFetch url options in
  let first := net env (trace w) url options in
  let run := OpenListClient.fetchWithRetry env url options retried (c, w) in
  (run = (first, (c, log_events [req] w))
   \/ (exists r1 u p e,
         retried = false /\ first = Ok r1 /\ status r1 = 401%Z
         /\ username c = Some u /\ password c = Some p
         /\ run = (Ok r1,
                   (c, log_events [req; announce_refresh; loginRequest c u p;
                                   refresh_failed e] w)))
   \/ (exists r1 u p t,
         retried = false /\ first = Ok r1 /\ status r1 = 401%Z
         /\ username c = Some u /\ password c = Some p /\ t <> ""
         /\ let options' := OpenListClient.with_authorization options t in
            let before := [req; announce_refresh; loginRequest c u p;
                           refresh_done] in
            method options' = method options
            /\ body options' = body options
            /\ headers options' !! "Authorization" = Some t
            /\ (forall k, k <> "Authorization" ->
                          headers options' !! k = headers options !! k)
            /\ run = (net env (trace w ++ before) url options',
                      (with_token c t,
                       log_events (before ++ [EvFetch url options']) w))))
  /\ (retried = true \/ configured c = false
      \/ (forall r, first = Ok r -> status r <> 401%Z) ->
      run = (first, (c, log_events [req] w))).
Proof.
  intros req first run. split; [|apply fetchWithRetry_single].
  destruct retried.
  { left. apply fetchWithRetry_single. auto. }
  destruct (configured c) eqn:Hc.
  2: { left. apply fetchWithRetry_single. auto. }
  destruct first as [r1|e] eqn:Hn.
  2: { left. unfold run. rewrite <- Hn. apply fetchWithRetry_single.
       right. right. intros r Hr. fold first in Hr. congruence. }
  destruct (status r1 =? 401)%Z eqn:H401.
  2: { left. unfold run. rewrite <- Hn. apply fetchWithRetry_single.
       right. right. intros r Hr. fold first in Hr.
       apply Z.eqb_neq in H401. congruence. }
  apply Z.eqb_eq in H401.
  destruct (configured_inv c Hc) as (u & p & Hu & Hp & Tu & Tp).
  assert (Hrun : run
    = (let* refreshed := OpenListClient.refreshToken env in
       if refreshed : bool then
         let* c' := this in
         OpenListClient.fetchWithRetry env url
           (OpenListClient.with_authorization options (token c')) true
       else ret r1)
        (c, log_event req w)).
  { unfold run. rewrite fetchWithRetry_unfold.
    unfold bind at 1. unfold liftW, fetch. simpl. fold first. rewrite Hn.
    unfold bind at 1. unfold this at 1. simpl.
    rewrite H401, Hu, Hp. simpl. rewrite Tu, Tp. simpl.
    reflexivity. }
  unfold bind at 1 in Hrun.
  rewrite (refreshToken_run env c (log_event req w) u p Hu Hp Tu Tp) in Hrun.
  destruct (fst (OpenListClient.login env (baseURL c) u p _)) as [t|e] eqn:Hl.
  - right. right. exists r1, u, p, t.
    apply (login_spec env (baseURL c) u p _ t) in Hl.
    destruct Hl as (_ & _ & _ & _ & _ & _ & _ & Ht).
    repeat (split; [first [reflexivity | assumption]|]).
    split; [apply lookup_insert_eq|].
    split; [intros k Hk; apply lookup_insert_ne; congruence|].
    rewrite Hrun. unfold bind, this. simpl.
    rewrite fetchWithRetry_retried. simpl.
    f_equal; [f_equal; simpl; now rewrite <- app_assoc|].
    f_equal. same_world.
  - right. left. exists r1, u, p, e.
    repeat (split; [first [reflexivity | assumption]|]).
    rewrite Hrun. unfold ret. f_equal. f_equal. same_world.
Qed.


(** ** What the client methods contact (lines 131-236) *)

Lemma only_urls_app (A : list string) (x y : list Event) :
  only_urls A x -> only_urls A y -> only_urls A (x ++ y).
Proof. unfold only_urls. intros Hx Hy. apply Forall_app. auto. Qed.

Lemma only_urls_incl (A B : list string) (new : list Event) :
  incl A B -> only_urls A new -> only_urls B new.
Proof.
  unfold only_urls. intros HAB H. eapply Forall_impl; [exact H|].
  intros [u o| | |]; simpl; auto.
Qed.

Lemma only_urls_requests_to (A : list string) (u : string) (new : list Event) :
  only_urls A new -> ~ In u A -> requests_to u new = 0%nat.
Proof.
  unfold only_urls, requests_to. intros H Hu.
  induction H as [|ev new Hev _ IH]; [reflexivity|].
  simpl. destruct ev as [u' o| | |]; try exact IH.
  destruct (String.eqb_spec u' u) as [->|_]; [contradiction | exact IH].
Qed.

Lemma append_cancel_l (b x y : string) : b +:+ x = b +:+ y -> x = y.
Proof.
  induction b as [|a b IH]; simpl; intros H; [exact H|].
  injection H as H. auto.
Qed.

(** Every request of an explicit list of events is to an allowed URL. *)
Ltac urls_ok :=
  unfold only_urls, loginURL;
  repeat (constructor; [simpl; auto|]); constructor.

Lemma same_identity_refl (c : Client) : same_identity c c.
Proof. repeat split. Qed.

Lemma contacts_refl (A : string -> list string) (s : Client * World) :
  contacts A s s.
Proof.
  split; [apply same_identity_refl|]. split; [reflexivity|].
  split; [reflexivity|]. exists []. split; [now rewrite app_nil_r|].
  constructor.
Qed.

Lemma contacts_trans (A : string -> list string) (s1 s2 s3 : Client * World) :
  contacts A s1 s2 -> contacts A s2 s3 -> contacts A s1 s3.
Proof.
  intros ((B1 & U1 & P1) & S1 & C1 & n1 & T1 & O1)
         ((B2 & U2 & P2) & S2 & C2 & n2 & T2 & O2).
  split; [repeat split; congruence|].
  split; [congruence|]. split; [congruence|].
  exists (n1 ++ n2). split; [rewrite T2, T1; now rewrite app_assoc|].
  apply only_urls_app; [exact O1|]. now rewrite <- B1.
Qed.

Lemma contacts_incl (A B : string -> list string) (s s' : Client * World) :
  incl (A (baseURL (fst s))) (B (baseURL (fst s))) ->
  contacts A s s' -> contacts B s s'.
Proof.
  intros HAB (I & S1 & C1 & new & T & O).
  split; [exact I|]. split; [exact S1|]. split; [exact C1|].
  exists new. split; [exact T|]. eapply only_urls_incl; eauto.
Qed.

Lemma contacts_logged (A : string -> list string) (c : Client) (w : World)
    (level : ConsoleLevel) (line : string) (err : option Exn) :
  contacts A (c, w) (c, log_event (EvConsole level line err) w).
Proof.
  split; [apply same_identity_refl|]. split; [reflexivity|].
  split; [reflexivity|]. exists [EvConsole level line err].
  split; [reflexivity|]. urls_ok.
Qed.

Section Contacts.
Context (env : Env).

Lemma contacts_fetchWithRetry (url : string) (options : RequestInit)
    (retried : bool) (s : Client * World) :
  contacts (fun b => [url; loginURL b]) s
    (snd (OpenListClient.fetchWithRetry env url options retried s)).
Proof.
  destruct s as [c w].
  destruct (fetchWithRetry_runs env url options retried c w)
    as [[H | [H | H]] _].
  - rewrite H. simpl.
    split; [apply same_identity_refl|]. split; [reflexivity|].
    split; [reflexivity|]. exists [EvFetch url options].
    split; [reflexivity|]. urls_ok.
  - destruct H as (r1 & u & p & e & _ & _ & _ & _ & _ & ->). simpl.
    split; [apply same_identity_refl|]. split; [reflexivity|].
    split; [reflexivity|]. eexists. split; [reflexivity|]. urls_ok.
  - destruct H as (r1 & u & p & t & _ & _ & _ & _ & _ & _ & H).
    cbv zeta in H. destruct H as (_ & _ & _ & _ & ->). simpl.
    split; [repeat split|]. split; [reflexivity|].
    split; [reflexivity|]. eexists. split; [reflexivity|]. urls_ok.
Qed.

Lemma contacts_refreshDirectory (path : string) (s : Client * World) :
  contacts (fun b => [listURL b; loginURL b]) s
    (snd (OpenListClient.refreshDirectory env path s)).
Proof.
  rewrite refreshDirectory_run. simpl.
  pose proof (contacts_fetchWithRetry (baseURL (fst s) +:+ "/api/fs/list")
                (refreshOptions (fst s) path) false s) as H.
  destruct (OpenListClient.fetchWithRetry env _ _ false s) as [[r|e] [c1 w1]].
  - simpl in *. destruct (ok r); simpl.
    + exact H.
    + eapply contacts_trans; [exact H | apply contacts_logged].
  - simpl in *. eapply contacts_trans; [exact H | apply contacts_logged].
Qed.

Ltac after_fetchWithRetry c w H s1 :=
  match goal with
  | |- context [ OpenListClient.fetchWithRetry env ?u ?o false (c, w) ] =>
      pose proof (contacts_fetchWithRetry u o false (c, w)) as H;
      destruct (OpenListClient.fetchWithRetry env u o false (c, w))
        as [[?r|?e] s1]
  end; simpl in *.

Lemma contacts_listDirectory (path : string) (page perPage : Z) (c : Client)
    (w : World) :
  contacts (fun b => [listURL b; loginURL b]) (c, w)
    (snd (OpenListClient.listDirectory env path page perPage (c, w))).
Proof.
  unfold OpenListClient.listDirectory, bind, this. simpl.
  after_fetchWithRetry c w H s1; [destruct (negb (ok r)); simpl|]; exact H.
Qed.

Lemma contacts_getFile (path : string) (c : Client) (w : World) :
  contacts (fun b => [getURL b; loginURL b]) (c, w)
    (snd (OpenListClient.getFile env path (c, w))).
Proof.
  unfold OpenListClient.getFile, bind, this. simpl.
  after_fetchWithRetry c w H s1; [destruct (negb (ok r)); simpl|]; exact H.
Qed.

Lemma contacts_deleteFile (path : string) (c : Client) (w : World) :
  contacts (fun b => [removeURL b; loginURL b]) (c, w)
    (snd (OpenListClient.deleteFile env path (c, w))).
Proof.
  unfold OpenListClient.deleteFile, bind, this. simpl.
  after_fetchWithRetry c w H s1; [destruct (negb (ok r)); simpl|]; exact H.
Qed.

Lemma contacts_uploadFile (path content : string) (c : Client) (w : World) :
  contacts (fun b => [putURL b; listURL b; loginURL b]) (c, w)
    (snd (OpenListClient.uploadFile env path content (c, w))).
Proof.
  unfold OpenListClient.uploadFile, bind, this. simpl.
  after_fetchWithRetry c w H s1.
  - assert (H' : contacts (fun b => [putURL b; listURL b; loginURL b]) (c, w) s1).
    { eapply contacts_incl; [|exact H]. simpl. unfold putURL.
      intros x [<-|[<-|[]]]; simpl; auto. }
    destruct (negb (ok r)); simpl; [exact H'|].
    eapply contacts_trans; [exact H'|].
    eapply contacts_incl; [|apply contacts_refreshDirectory].
    intros x [<-|[<-|[]]]; simpl; auto.
  - eapply contacts_incl; [|exact H]. simpl. unfold putURL.
    intros x [<-|[<-|[]]]; simpl; auto.
Qed.

(** X4.  A client method only ever talks to its own endpoint and to the login
    endpoint ([uploadFile] also to the list endpoint, for the refresh), on
    the client's own base URL; it leaves the base URL, the username and the
    password of the client as they are, and does not touch the documents
    or the cache. *)
Theorem client_methods_contact_own_endpoints (c : Client) (w : World)
    (path content : string) (page perPage : Z) :
  contacts (fun b => [listURL b; loginURL b]) (c, w)
    (snd (OpenListClient.listDirectory env path page perPage (c, w)))
  /\ contacts (fun b => [getURL b; loginURL b]) (c, w)
       (snd (OpenListClient.getFile env path (c, w)))
  /\ contacts (fun b => [listURL b; loginURL b]) (c, w)
       (snd (OpenListClient.refreshDirectory env path (c, w)))
  /\ contacts (fun b => [putURL b; listURL b; loginURL b]) (c, w)
       (snd (OpenListClient.uploadFile env path content (c, w)))
  /\ contacts (fun b => [removeURL b; loginURL b]) (c, w)
       (snd (OpenListClient.deleteFile env path (c, w))).
Proof.
  split; [apply contacts_listDirectory|].
  split; [apply contacts_getFile|].
  split; [apply contacts_refreshDirectory|].
  split; [apply contacts_uploadFile | apply contacts_deleteFile].
Qed.

(** X5.  An upload that fails sends nothing to the list endpoint: the
    directory refresh is only attempted after a 2xx answer to the PUT. *)
Theorem failed_upload_sends_no_refresh (c : Client) (w : World)
    (path content : string) (e : Exn) :
  fst (OpenListClient.uploadFile env path content (c, w)) = Throw e ->
  exists new,
    trace (snd (snd (OpenListClient.uploadFile env path content (c, w))))
    = trace w ++ new
    /\ only_urls [putURL (baseURL c); loginURL (baseURL c)] new
    /\ requests_to (listURL (baseURL c)) new = 0%nat.
Proof.
  intros He.
  assert (H : contacts (fun b => [putURL b; loginURL b]) (c, w)
                (snd (OpenListClient.uploadFile env path content (c, w)))).
  { revert He. unfold OpenListClient.uploadFile, bind, this. simpl.
    match goal with
    | |- context [ OpenListClient.fetchWithRetry env ?u ?o false (c, w) ] =>
        pose proof (contacts_fetchWithRetry u o false (c, w)) as H;
        destruct (OpenListClient.fetchWithRetry env u o false (c, w))
          as [[r|e'] s1]
    end; simpl in *.
    - destruct (negb (ok r)); simpl; [intros _; exact H|].
      rewrite refreshDirectory_run. discriminate.
    - intros _. exact H. }
  destruct H as (_ & _ & _ & new & Ht & Ho). simpl in Ht, Ho.
  exists new. split; [exact Ht|]. split; [exact Ho|].
  eapply only_urls_requests_to; [exact Ho|].
  unfold listURL, putURL, loginURL.
  intros [H|[H|[]]]; apply append_cancel_l in H; discriminate.
Qed.
End Contacts.

Lemma failed_upload_witness :
  exists new,
    trace (snd (snd (OpenListClient.uploadFile Fixture.env_upload_fails
                       "/media/metainfo.json" "DOC"
                       (Sample.client_fresh, Fixture.cold))))
    = new
    /\ requests_to "http://ol/api/fs/list" new = 0%nat.
Proof.
  destruct (failed_upload_sends_no_refresh Fixture.env_upload_fails
              Sample.client_fresh Fixture.cold "/media/metainfo.json" "DOC"
              (Error "OpenList 上传失败: 500 - ")
              ltac:(vm_compute; reflexivity)) as (new & Ht & _ & Hn).
  exists new. split; [exact Ht | exact Hn].
Defined.

(** ** Directory and file name of a path (lines 192 and 221-222) *)

Lemma prefix_slash (c : ascii) (n : string) :
  String.prefix "/" (String c n) = Ascii.eqb c "/".
Proof.
  cbn [String.prefix].
  destruct (ascii_dec "/" c) as [<-|H].
  - rewrite Ascii.eqb_refl. now destruct n.
  - symmetry. apply Ascii.eqb_neq. congruence.
Qed.

Lemma lastIndexOf_from_slashless (n : string) (i : Z) :
  slashless n = true -> lastIndexOf_from i n "/" = (-1)%Z.
Proof.
  revert i. induction n as [|c n IH]; intros i H; [reflexivity|].
  cbn [slashless] in H. apply andb_true_iff in H as [Hc Hn].
  apply negb_true_iff in Hc.
  cbn [lastIndexOf_from]. rewrite (IH (i + 1)%Z Hn), prefix_slash, Hc.
  reflexivity.
Qed.

Lemma lastIndexOf_from_last_slash (d n : string) (i : Z) :
  slashless n = true -> (0 <= i)%Z ->
  lastIndexOf_from i (d +:+ String "/" n) "/"
  = (i + Z.of_nat (String.length d))%Z.
Proof.
  intros Hn. revert i. induction d as [|c d IH]; intros i Hi.
  - change ("" +:+ String "/" n) with (String "/" n).
    cbn [lastIndexOf_from].
    rewrite (lastIndexOf_from_slashless n (i + 1)%Z Hn), prefix_slash.
    cbn [String.length]. change (0 <=? -1)%Z with false.
    rewrite Ascii.eqb_refl. lia.
  - change (String c d +:+ String "/" n) with (String c (d +:+ String "/" n)).
    cbn [lastIndexOf_from]. rewrite (IH (i + 1)%Z) by lia.
    destruct (0 <=? i + 1 + Z.of_nat (String.length d))%Z eqn:E.
    + cbn [String.length]. lia.
    + apply Z.leb_gt in E. lia.
Qed.

Lemma substring_prefix (d r : string) :
  String.substring 0 (String.length d) (d +:+ r) = d.
Proof.
  induction d as [|c d IH]; simpl; [now destruct r | now rewrite IH].
Qed.

Lemma substring_skip (d r : string) (m : nat) :
  String.substring (String.length d) m (d +:+ r) = String.substring 0 m r.
Proof. induction d as [|c d IH]; simpl; [reflexivity | exact IH]. Qed.

Lemma substring_whole (n : string) :
  String.substring 0 (String.length n) n = n.
Proof. induction n as [|c n IH]; simpl; [reflexivity | now rewrite IH]. Qed.

Lemma js_substring_range (s : string) (a b : Z) :
  (0 <= a <= b)%Z -> (b <= Z.of_nat (String.length s))%Z ->
  js_substring s a b = String.substring (Z.to_nat a) (Z.to_nat (b - a)) s.
Proof. intros Ha Hb. unfold js_substring. f_equal; f_equal; lia. Qed.

Lemma js_substring_to_negative (s : string) (b : Z) :
  (b <= 0)%Z -> js_substring s 0 b = "".
Proof.
  intros Hb. unfold js_substring.
  replace (Z.to_nat _) with 0%nat by lia.
  replace (Z.to_nat _) with 0%nat by lia.
  now destruct s.
Qed.

Lemma path_split_spec (d n : string) :
  slashless n = true ->
  OpenListClient.dirname (d +:+ "/" +:+ n) = str_or d "/"
  /\ js_substring_from (d +:+ "/" +:+ n)
       (lastIndexOf (d +:+ "/" +:+ n) "/" + 1) = n
  /\ OpenListClient.dirname n = "/"
  /\ js_substring_from n (lastIndexOf n "/" + 1) = n.
Proof.
  intros Hn.
  change ("/" +:+ n) with (String "/" n).
  assert (Hi : lastIndexOf (d +:+ String "/" n) "/" = Z.of_nat (String.length d)).
  { unfold lastIndexOf. rewrite lastIndexOf_from_last_slash by (auto; lia). lia. }
  assert (Hlen : String.length (d +:+ String "/" n)
                 = (String.length d + S (String.length n))%nat).
  { rewrite length_append'. reflexivity. }
  assert (Hj : lastIndexOf n "/" = (-1)%Z).
  { unfold lastIndexOf. now apply lastIndexOf_from_slashless. }
  split; [|split; [|split]].
  - unfold OpenListClient.dirname. rewrite Hi.
    rewrite js_substring_range by lia.
    replace (Z.to_nat 0) with 0%nat by lia.
    replace (Z.to_nat (Z.of_nat (String.length d) - 0)) with (String.length d)
      by lia.
    now rewrite substring_prefix.
  - unfold js_substring_from. rewrite Hi.
    rewrite js_substring_range by lia. rewrite Hlen.
    replace (Z.to_nat (Z.of_nat (String.length d) + 1))
      with (String.length d + 1)%nat by lia.
    replace (Z.to_nat _) with (String.length n) by lia.
    replace (String.length d + 1)%nat with (String.length (d +:+ "/")).
    2: { rewrite length_append'. reflexivity. }
    replace (d +:+ String "/" n) with ((d +:+ "/") +:+ n).
    2: { rewrite append_assoc'. reflexivity. }
    rewrite substring_skip. apply substring_whole.
  - unfold OpenListClient.dirname. rewrite Hj.
    rewrite js_substring_to_negative by lia. reflexivity.
  - unfold js_substring_from. rewrite Hj.
    rewrite js_substring_range by lia.
    replace (Z.to_nat (-1 + 1)) with 0%nat by lia.
    replace (Z.to_nat _) with (String.length n) by lia.
    apply substring_whole.
Qed.

(** X6.  How a path is split.  For a path [d/n] whose last component [n]
    contains no separator, the directory is [d] (the root [/] when [d] is
    empty) and the file name is [n].  A path without any separator has
    directory [/] and is its own file name. *)
Theorem path_split (d n : string) :
  slashless n = true ->
  OpenListClient.dirname (d +:+ "/" +:+ n) = str_or d "/"
  /\ js_substring_from (d +:+ "/" +:+ n)
       (lastIndexOf (d +:+ "/" +:+ n) "/" + 1) = n
  /\ OpenListClient.dirname n = "/"
  /\ js_substring_from n (lastIndexOf n "/" + 1) = n.
Proof. exact (path_split_spec d n). Qed.

Lemma path_split_witness :
  OpenListClient.dirname ("/media/show" +:+ "/" +:+ "a.mkv") = "/media/show"
  /\ OpenListClient.dirname ("" +:+ "/" +:+ "a.mkv") = "/".
Proof.
  split.
  - exact (proj1 (path_split "/media/show" "a.mkv" ltac:(reflexivity))).
  - exact (proj1 (path_split "" "a.mkv" ltac:(reflexivity))).
Defined.

(** X7.  The directory of the document path is the storage root without its
    trailing separator ([/] for the root [/] and for an empty root); this
    is the directory whose listing the upload asks to refresh.  And a root
    with and without its trailing separator name the same document. *)
Theorem metainfoPath_directory (rootPath : string) :
  (endsWith rootPath "/" = false ->
   OpenListClient.dirname (metainfoPath rootPath) = str_or rootPath "/"
   /\ metainfoPath (rootPath +:+ "/") = metainfoPath rootPath)
  /\ (forall d, rootPath = d +:+ "/" ->
                OpenListClient.dirname (metainfoPath rootPath) = str_or d "/").
Proof.
  split.
  - intros H. split.
    + rewrite (metainfoPath_no_slash _ H).
      exact (proj1 (path_split_spec rootPath "metainfo.json" eq_refl)).
    + rewrite (metainfoPath_no_slash _ H).
      rewrite (metainfoPath_slash (rootPath +:+ "/")) by apply endsWith_append.
      now rewrite append_assoc'.
  - intros d ->.
    rewrite (metainfoPath_slash (d +:+ "/")) by apply endsWith_append.
    rewrite append_assoc'.
    exact (proj1 (path_split_spec d "metainfo.json" eq_refl)).
Qed.

Lemma metainfoPath_directory_witness :
  OpenListClient.dirname (metainfoPath "/media") = "/media"
  /\ OpenListClient.dirname (metainfoPath "/media/") = "/media".
Proof.
  split.
  - exact (proj1 (proj1 (metainfoPath_directory "/media") ltac:(reflexivity))).
  - exact (proj2 (metainfoPath_directory "/media/") "/media" ltac:(reflexivity)).
Defined.

Section Paths.
Context (env : Env).

Lemma deleteFile_first (path : string) (c : Client) (w : World) :
  exists rest,
    trace (snd (snd (OpenListClient.deleteFile env path (c, w))))
    = trace w
      ++ removeRequest c
           [js_substring_from path (lastIndexOf path "/" + 1)]
           (OpenListClient.dirname path)
      :: rest.
Proof.
  unfold OpenListClient.deleteFile, removeRequest, removeURL.
  unfold bind at 1. unfold this at 1. simpl. unfold bind at 1.
  match goal with
  | |- context [ OpenListClient.fetchWithRetry env ?u ?o false (c, w) ] =>
      destruct (fetchWithRetry_first env u o false c w) as [rest Hrest];
      destruct (OpenListClient.fetchWithRetry env u o false (c, w))
        as [[r|e] s1]
  end; simpl in Hrest; [|now exists rest].
  destruct (negb (ok r)); simpl; now exists rest.
Qed.

(** X8.  [deleteFile] on the path [d/n] asks the service, first of all, to
    remove the one name [n] from the directory [d] ([/] when [d] is
    empty). *)
Theorem deleteFile_names_file_and_directory (d n : string) (c : Client)
    (w : World) :
  slashless n = true ->
  exists rest,
    trace (snd (snd (OpenListClient.deleteFile env (d +:+ "/" +:+ n) (c, w))))
    = trace w ++ removeRequest c [n] (str_or d "/") :: rest.
Proof.
  intros Hn.
  destruct (deleteFile_first (d +:+ "/" +:+ n) c w) as [rest H].
  destruct (path_split_spec d n Hn) as (Hd & Hb & _).
  rewrite Hd, Hb in H. now exists rest.
Qed.

(** X9.  After a PUT answered 2xx, the next request of [uploadFile] asks the
    list endpoint to refresh the directory of the uploaded path, one entry
    of page 1, with the headers of the client as the PUT left it. *)
Theorem uploadFile_refreshes_its_directory (d n content : string) (c : Client)
    (w : World) (r : Response) (s1 : Client * World) :
  slashless n = true ->
  OpenListClient.fetchWithRetry env (baseURL c +:+ "/api/fs/put")
    (mkRequestInit (Some "PUT")
       (OpenListClient.uploadHeaders env c (d +:+ "/" +:+ n))
       (Some (TextBody content))) false (c, w) = (Ok r, s1) ->
  ok r = true ->
  exists rest,
    trace (snd (snd (OpenListClient.uploadFile env (d +:+ "/" +:+ n) content
                       (c, w))))
    = trace (snd s1)
      ++ EvFetch (listURL (baseURL (fst s1)))
           (mkRequestInit (Some "POST") (OpenListClient.getHeaders (fst s1))
              (Some (ListBody (str_or d "/") "" true 1 1)))
      :: rest.
Proof.
  intros Hn Hput Hok.
  rewrite (uploadFile_run env _ content c w r s1 Hput Hok).
  rewrite (proj1 (path_split_spec d n Hn)). simpl.
  destruct s1 as [c1 w1]. simpl.
  destruct (fetchWithRetry_first env (baseURL c1 +:+ "/api/fs/list")
              (refreshOptions c1 (str_or d "/")) false c1 w1) as [rest Hrest].
  unfold listURL. fold (refreshOptions c1 (str_or d "/")).
  destruct (OpenListClient.fetchWithRetry env _ _ false (c1, w1))
    as [[r'|e] [c2 w2]]; simpl in *.
  - destruct (ok r'); simpl.
    + now exists rest.
    + rewrite Hrest. eexists. rewrite <- app_assoc. reflexivity.
  - rewrite Hrest. eexists. rewrite <- app_assoc. reflexivity.
Qed.
End Paths.

Lemma deleteFile_witness :
  exists rest,
    trace (snd (snd (OpenListClient.deleteFile Fixture.env_ok
                       ("/media/show" +:+ "/" +:+ "a.mkv")
                       (clientOf Fixture.cfg, Fixture.cold))))
    = removeRequest (clientOf Fixture.cfg) ["a.mkv"] "/media/show" :: rest.
Proof.
  exact (deleteFile_names_file_and_directory Fixture.env_ok "/media/show"
           "a.mkv" (clientOf Fixture.cfg) Fixture.cold ltac:(reflexivity)).
Defined.

Lemma uploadFile_refresh_witness :
  exists rest,
    trace (snd (snd (OpenListClient.uploadFile Fixture.env_ok
                       ("/media" +:+ "/" +:+ "metainfo.json") "DOC"
                       (Sample.client_fresh,
                        Fixture.cold))))
    = [putRequest Fixture.env_ok Sample.client_fresh
         "/media/metainfo.json" "DOC"]
      ++ EvFetch "http://ol/api/fs/list"
           (mkRequestInit (Some "POST")
              (OpenListClient.getHeaders
                 Sample.client_fresh)
              (Some (ListBody "/media" "" true 1 1)))
      :: rest.
Proof.
  exact (uploadFile_refreshes_its_directory Fixture.env_ok "/media"
           "metainfo.json" "DOC" Sample.client_fresh
           Fixture.cold (mkResponse 200 "")
           (Sample.client_fresh,
            log_events [putRequest Fixture.env_ok
                          Sample.client_fresh
                          "/media/metainfo.json" "DOC"] Fixture.cold)
           ltac:(reflexivity) ltac:(vm_compute; reflexivity)
           ltac:(reflexivity)).
Defined.

(** ** The answers of the handler (lines 21-131) *)

Section Answers.
Context (env : Env).

(** X10.  Authentication comes first.  A request without a session, or whose
    session has no username, is answered 401 "未授权" and nothing else
    happens: the body is not read, the configuration is not loaded. *)
Theorem POST_unauthenticated (request : NextRequest) (w : World) :
  req_auth request = None
  \/ (exists a, req_auth request = Some a
                /\ truthy_opt (auth_username a) = false) ->
  POST env request w = (Ok unauthorized, w)
  /\ res_status unauthorized = 401%Z.
Proof.
  intros H. split; [|reflexivity].
  unfold POST, try_catch, POST_try, ret.
  destruct H as [-> | (a & -> & ->)]; reflexivity.
Qed.

(** A request that got past authentication and validation. *)
Lemma POST_validated (request : NextRequest) (w : World) (a : AuthInfo)
    (body : gmap string JsVal) :
  req_auth request = Some a -> truthy_opt (auth_username a) = true ->
  req_json request = Ok body ->
  truthy (field body "folder") = true -> truthy (field body "tmdbId") = true ->
  POST_try env request w
  = match config_store env (trace w) with
    | Throw e => (Throw e, log_event EvGetConfig w)
    | Ok config =>
        match OpenListConfig config with
        | None => (Ok not_configured, log_event EvGetConfig w)
        | Some cfg =>
            if truthy_opt (URL cfg) && truthy_opt (Token cfg) then
              with_client (clientOf cfg) (POST_correct env (rootPathOf cfg) body)
                (log_event EvGetConfig w)
            else (Ok not_configured, log_event EvGetConfig w)
        end
    end.
Proof.
  intros Ha Hu Hb Tf Tt.
  unfold POST_try, bind, await, getConfig, ret.
  rewrite Ha, Hu, Hb. simpl. rewrite Tf, Tt. simpl.
  destruct (config_store env (trace w)) as [config|e]; [|reflexivity].
  destruct (OpenListConfig config) as [cfg|]; [|reflexivity].
  destruct (truthy_opt (URL cfg)); [|reflexivity].
  destruct (truthy_opt (Token cfg)); reflexivity.
Qed.

(** X11.  The failures before the storage service is involved.  For an
    authenticated request: a body that cannot be read gives 500 "纠错失败"
    with the message of the error; so does a configuration that cannot be
    loaded; a configuration without a storage section, without URL or
    without token gives 400 "OpenList 未配置".  In each case the only
    things that happened are the configuration lookup (when it was reached)
    and the log line of the failure. *)
Theorem POST_body_and_config_errors (request : NextRequest) (w : World)
    (a : AuthInfo) :
  req_auth request = Some a -> truthy_opt (auth_username a) = true ->
  (forall e,
      req_json request = Throw e ->
      POST env request w
      = (Ok (correction_failure e), log_events [log_failure e] w))
  /\ (forall body,
      req_json request = Ok body ->
      truthy (field body "folder") = true ->
      truthy (field body "tmdbId") = true ->
      (forall e,
          config_store env (trace w) = Throw e ->
          POST env request w
          = (Ok (correction_failure e),
             log_events [EvGetConfig; log_failure e] w))
      /\ (forall config,
          config_store env (trace w) = Ok config ->
          OpenListConfig config = None
          \/ (exists cfg, OpenListConfig config = Some cfg
                          /\ (truthy_opt (URL cfg) = false
                              \/ truthy_opt (Token cfg) = false)) ->
          POST env request w = (Ok not_configured, log_events [EvGetConfig] w))).
Proof.
  intros Ha Hu. split.
  - intros e He. unfold POST, try_catch, POST_try, bind, await, console, ret.
    rewrite Ha, Hu, He. reflexivity.
  - intros body Hb Tf Tt.
    pose proof (POST_validated request w a body Ha Hu Hb Tf Tt) as Hv.
    split.
    + intros e He. unfold POST, try_catch. rewrite Hv, He.
      unfold bind, console, ret. simpl. f_equal. same_world.
    + intros config Hc Hno. unfold POST, try_catch. rewrite Hv, Hc.
      destruct Hno as [-> | (cfg & -> & [-> | ->])];
        rewrite ?andb_false_r; reflexivity.
Qed.

Lemma POST_update_answer (rootPath : string) (body : gmap string JsVal)
    (l : nat) (s : Client * World) (r : NextResponse) :
  fst (POST_update env rootPath body l s) = Ok r -> r = success.
Proof.
  destruct s as [c w]. destruct (store w !! l) as [d0|] eqn:Hl.
  - rewrite (POST_update_run env rootPath body l c w d0 Hl).
    destruct (OpenListClient.uploadFile env _ _ _) as [[u|e] s3]; simpl;
      congruence.
  - destruct (POST_update_dangling env rootPath body l c w Hl) as (e & s & ->).
    discriminate.
Qed.

Lemma POST_correct_answer (rootPath : string) (body : gmap string JsVal)
    (s : Client * World) (r : NextResponse) :
  fst (POST_correct env rootPath body s) = Ok r ->
  r = read_failure \/ r = not_found \/ r = success.
Proof.
  destruct s as [c w]. destruct (cache w !! rootPath) as [l|] eqn:Hc.
  - rewrite (POST_correct_hit env rootPath body c w l Hc).
    intros H. right. right. eapply POST_update_answer, H.
  - rewrite (POST_correct_miss env rootPath body c w Hc).
    destruct (POST_read env rootPath (c, w)) as [[[l|]|e] s1]; simpl.
    + intros H. right. right. eapply POST_update_answer, H.
    + intros H. injection H as <-. auto.
    + intros H. injection H as <-. auto.
Qed.

Lemma POST_try_answer (request : NextRequest) (w : World) (r : NextResponse) :
  fst (POST_try env request w) = Ok r ->
  r = unauthorized \/ r = missing_parameters \/ r = not_configured
  \/ r = read_failure \/ r = not_found \/ r = success.
Proof.
  destruct (req_auth request) as [a|] eqn:Ha.
  2: { unfold POST_try. rewrite Ha. simpl. intros H. injection H as <-. auto. }
  destruct (truthy_opt (auth_username a)) eqn:Hu.
  2: { unfold POST_try. rewrite Ha, Hu. simpl. intros H. injection H as <-.
       auto. }
  destruct (req_json request) as [body|e] eqn:Hb.
  2: { unfold POST_try, bind, await. rewrite Ha, Hu, Hb. discriminate. }
  destruct (truthy (field body "folder")) eqn:Tf.
  2: { unfold POST_try, bind, await, ret. rewrite Ha, Hu, Hb. simpl.
       rewrite Tf. simpl. intros H. injection H as <-. auto. }
  destruct (truthy (field body "tmdbId")) eqn:Tt.
  2: { unfold POST_try, bind, await, ret. rewrite Ha, Hu, Hb. simpl.
       rewrite Tf, Tt. simpl. intros H. injection H as <-. auto. }
  rewrite (POST_validated request w a body Ha Hu Hb Tf Tt).
  destruct (config_store env (trace w)) as [config|e]; [|discriminate].
  destruct (OpenListConfig config) as [cfg|].
  2: { intros H. injection H as <-. auto. }
  destruct (_ && _).
  2: { intros H. injection H as <-. auto. }
  unfold with_client.
  pose proof (POST_correct_answer (rootPathOf cfg) body
                (clientOf cfg, log_event EvGetConfig w) r) as Hc.
  destruct (POST_correct env _ _ _) as [o s]. simpl in *.
  intros H. destruct (Hc H) as [-> | [-> | ->]]; auto 10.
Qed.

(** X12.  The handler always answers.  Whatever the request, the world and
    the environment, [POST] returns a response (it never throws), and the
    response is one of seven: 401 "未授权", 400 "缺少必要参数",
    400 "OpenList 未配置", 500 "metainfo.json 读取失败",
    404 "metainfo.json 不存在", 200 "纠错成功", or 500 "纠错失败" with the
    message of the error that was caught. *)
Theorem POST_always_answers (request : NextRequest) (w : World) :
  exists resp w',
    POST env request w = (Ok resp, w')
    /\ (resp = unauthorized \/ resp = missing_parameters
        \/ resp = not_configured \/ resp = read_failure \/ resp = not_found
        \/ resp = success \/ exists e, resp = correction_failure e)
    /\ (res_status resp = 200%Z -> resp = success).
Proof.
  unfold POST, try_catch.
  pose proof (POST_try_answer request w) as H.
  destruct (POST_try env request w) as [[r|e] w1]; simpl in *.
  - exists r, w1. split; [reflexivity|].
    destruct (H r eq_refl) as [-> | [-> | [-> | [-> | [-> | ->]]]]];
      (split; [auto 10 | try discriminate; reflexivity]).
  - eexists _, _. split; [reflexivity|]. split; [eauto 10 | discriminate].
Qed.
End Answers.

Lemma POST_body_and_config_errors_witness :
  POST Fixture.env_ok Sample.request_broken Fixture.cold
  = (Ok (correction_failure Sample.broken),
     log_events [log_failure Sample.broken] Fixture.cold).
Proof.
  exact (proj1 (POST_body_and_config_errors Fixture.env_ok
                  Sample.request_broken Fixture.cold
                  (mkAuthInfo (Some "alice"))
                  ltac:(reflexivity) ltac:(reflexivity))
           Sample.broken ltac:(reflexivity)).
Defined.

Lemma POST_unauthenticated_witness :
  POST Fixture.env_ok Sample.request_anonymous Fixture.warm
  = (Ok unauthorized, Fixture.warm).
Proof.
  exact (proj1 (POST_unauthenticated Fixture.env_ok Sample.request_anonymous
                  Fixture.warm ltac:(left; reflexivity))).
Defined.

(** ** The cache across corrections (lines 56-59 and 116-118) *)

Lemma log_events_nil (w : World) : log_events [] w = w.
Proof. destruct w. unfold log_events. simpl. now rewrite app_nil_r. Qed.

Section CacheUse.
Context (env : Env).

Lemma POST_rejected (request : NextRequest)
    (w : World) :
  accepted env request w = None ->
  exists resp new,
    POST env request w = (Ok resp, log_events new w)
    /\ only_urls [] new
    /\ res_status resp <> 200%Z.
Proof.
  unfold accepted. intros Hacc.
  destruct (req_auth request) as [a|] eqn:Ha.
  2: { exists unauthorized, []. rewrite log_events_nil.
       split; [|split; [constructor | discriminate]].
       unfold POST, try_catch, POST_try, ret. now rewrite Ha. }
  destruct (truthy_opt (auth_username a)) eqn:Hu.
  2: { exists unauthorized, []. rewrite log_events_nil.
       split; [|split; [constructor | discriminate]].
       unfold POST, try_catch, POST_try, ret. now rewrite Ha, Hu. }
  destruct (req_json request) as [body|e] eqn:Hb.
  2: { exists (correction_failure e), [log_failure e].
       split; [|split; [urls_ok | discriminate]].
       unfold POST, try_catch, POST_try, bind, await, console, ret.
       now rewrite Ha, Hu, Hb. }
  destruct (truthy (field body "folder")) eqn:Tf.
  2: { exists missing_parameters, []. rewrite log_events_nil.
       split; [|split; [constructor | discriminate]].
       apply (POST_falsy env request a body w Ha Hu Hb). auto. }
  destruct (truthy (field body "tmdbId")) eqn:Tt.
  2: { exists missing_parameters, []. rewrite log_events_nil.
       split; [|split; [constructor | discriminate]].
       apply (POST_falsy env request a body w Ha Hu Hb). auto. }
  pose proof (POST_validated env request w a body Ha Hu Hb Tf Tt) as Hv.
  unfold POST, try_catch. rewrite Hv.
  destruct (config_store env (trace w)) as [config|e].
  2: { exists (correction_failure e), [EvGetConfig; log_failure e].
       split; [|split; [urls_ok | discriminate]].
       unfold bind, console, ret. simpl. f_equal. same_world. }
  destruct (OpenListConfig config) as [cfg|].
  2: { exists not_configured, [EvGetConfig].
       split; [reflexivity|]. split; [urls_ok | discriminate]. }
  simpl in Hacc.
  destruct (truthy_opt (URL cfg) && truthy_opt (Token cfg)) eqn:Hut.
  { discriminate Hacc. }
  exists not_configured, [EvGetConfig].
  split; [reflexivity|]. split; [urls_ok | discriminate].
Qed.

(** X13.  A request that does not pass the checks of lines 23-46 never
    reaches the storage service: it sends no request at all, leaves the
    documents and the cache as they were, and is not answered 200. *)
Theorem POST_rejected_request_touches_nothing (request : NextRequest)
    (w : World) :
  accepted env request w = None ->
  exists resp new,
    POST env request w = (Ok resp, log_events new w)
    /\ only_urls [] new
    /\ res_status resp <> 200%Z.
Proof. exact (POST_rejected request w). Qed.

(** The whole of an accepted request on a cache hit. *)
Lemma POST_hit_run (request : NextRequest) (w : World)
    (body : gmap string JsVal) (cfg : OpenListConfigT) (l : nat)
    (d0 : MetaInfo) :
  accepted env request w = Some (body, cfg) ->
  cache w !! rootPathOf cfg = Some l ->
  store w !! l = Some d0 ->
  POST env request w
  = match OpenListClient.uploadFile env (metainfoPath (rootPathOf cfg))
            (JSON_stringify env (corrected env body (entered cfg w) d0))
            (upload_state env body l (entered cfg w) d0) with
    | (Ok _, s3) => (Ok success, recache (rootPathOf cfg) l (snd s3))
    | (Throw e, s3) =>
        (Ok (correction_failure e), log_event (log_failure e) (snd s3))
    end.
Proof.
  intros Hacc Hc Hl.
  rewrite (POST_accepted env request w body cfg Hacc). unfold entered.
  rewrite (POST_correct_hit env _ body (clientOf cfg)
             (log_event EvGetConfig w) l Hc).
  rewrite (POST_update_run env _ body l (clientOf cfg)
             (log_event EvGetConfig w) d0 Hl).
  unfold upload_state, corrected. simpl.
  destruct (OpenListClient.uploadFile env _ _ _) as [[u|e] s3]; reflexivity.
Qed.

Lemma POST_hit_dangling (request : NextRequest) (w : World)
    (body : gmap string JsVal) (cfg : OpenListConfigT) (l : nat) :
  accepted env request w = Some (body, cfg) ->
  cache w !! rootPathOf cfg = Some l ->
  store w !! l = None ->
  exists e, POST env request w
            = (Ok (correction_failure e),
               log_events [EvGetConfig; EvNow; log_failure e] w).
Proof.
  intros Hacc Hc Hl.
  rewrite (POST_accepted env request w body cfg Hacc). unfold entered.
  rewrite (POST_correct_hit env _ body (clientOf cfg)
             (log_event EvGetConfig w) l Hc).
  unfold POST_update, bind, liftW, Date_now, assign_folder. simpl.
  rewrite Hl. simpl. eexists. f_equal. same_world.
Qed.

Lemma failed_correction_keeps_cache (request : NextRequest) (w w' : World)
    (resp : NextResponse) :
  POST env request w = (Ok resp, w') ->
  res_status resp <> 200%Z ->
  cache w' = cache w.
Proof.
  intros Hrun Hst.
  destruct (accepted env request w) as [[body cfg]|] eqn:Hacc.
  - destruct (cache w !! rootPathOf cfg) as [l|] eqn:Hc.
    + destruct (store w !! l) as [d0|] eqn:Hl.
      * rewrite (POST_hit_run request w body cfg l d0 Hacc Hc Hl) in Hrun.
        match type of Hrun with
        | context [ OpenListClient.uploadFile env ?p ?t ?s ] =>
            pose proof (io_uploadFile env p t s) as (_ & Hio & _);
            destruct (OpenListClient.uploadFile env p t s) as [[u|e] s3]
        end.
        -- injection Hrun as <- _. now contradiction Hst.
        -- injection Hrun as _ <-. simpl in *. exact Hio.
      * destruct (POST_hit_dangling request w body cfg l Hacc Hc Hl) as [e He].
        rewrite He in Hrun. injection Hrun as _ <-. reflexivity.
    + exact (proj1 (failed_correction_on_miss env request w w' body cfg resp
                      Hacc Hc Hrun Hst)).
  - destruct (POST_rejected request w Hacc)
      as (resp' & new & H & _).
    rewrite H in Hrun. injection Hrun as _ <-. reflexivity.
Qed.

(** X14.  The cache is written on success only.  A request that is not
    answered 200 leaves the whole cache as it was.  A request answered 200
    was an accepted one, and the cache afterwards differs from the cache
    before in the entry of its own storage root only, which now refers to a
    document. *)
Theorem cache_written_only_on_success (request : NextRequest) (w w' : World)
    (resp : NextResponse) :
  POST env request w = (Ok resp, w') ->
  (res_status resp <> 200%Z -> cache w' = cache w)
  /\ (res_status resp = 200%Z ->
      exists body cfg l d,
        accepted env request w = Some (body, cfg)
        /\ cache w' = <[rootPathOf cfg := l]> (cache w)
        /\ store w' !! l = Some d
        /\ forall r, r <> rootPathOf cfg -> cache w' !! r = cache w !! r).
Proof.
  intros Hrun. split; [apply (failed_correction_keeps_cache request w w' resp Hrun)|].
  intros Hst.
  destruct (accepted env request w) as [[body cfg]|] eqn:Hacc.
  - destruct (POST_success_digest env request w w' body cfg resp Hacc Hrun Hst)
      as (l & d0 & base & h & c & rest & _ & Hl & _ & Hs & Hc & _).
    exists body, cfg, l,
      (set_folder (folderOf env body) (newEntry body (clock env h)) d0).
    split; [reflexivity|].
    assert (Hc' : cache w' = <[rootPathOf cfg := l]> (cache w)).
    { rewrite Hc. apply insert_delete_eq. }
    split; [exact Hc'|].
    split.
    + rewrite Hs. apply list_lookup_insert_eq. eapply lookup_lt_Some, Hl.
    + intros r Hr. rewrite Hc'. apply lookup_insert_ne. congruence.
  - destruct (POST_rejected request w Hacc) as (resp' & new & H & _ & Hno).
    rewrite H in Hrun. injection Hrun as <- _. contradiction.
Qed.

Lemma cache_hit_trace (request : NextRequest) (w : World)
    (body : gmap string JsVal) (cfg : OpenListConfigT) (l : nat)
    (d0 : MetaInfo) :
  accepted env request w = Some (body, cfg) ->
  cache w !! rootPathOf cfg = Some l ->
  store w !! l = Some d0 ->
  let b := baseURL (clientOf cfg) in
  exists new rest,
    trace (snd (POST env request w)) = trace w ++ EvGetConfig :: EvNow :: new
    /\ only_urls [putURL b; listURL b; loginURL b] new
    /\ new = putRequest env (clientOf cfg) (metainfoPath (rootPathOf cfg))
               (JSON_stringify env (corrected env body (entered cfg w) d0))
             :: rest.
Proof.
  intros Hacc Hc Hl b.
  rewrite (POST_hit_run request w body cfg l d0 Hacc Hc Hl).
  match goal with
  | |- context [ OpenListClient.uploadFile env ?p ?t (upload_state ?a ?b' ?c ?d ?e) ] =>
      pose proof (contacts_uploadFile env p t (fst (upload_state a b' c d e))
                    (snd (upload_state a b' c d e)))
        as (_ & _ & _ & new & Ht & Ho);
      destruct (uploadFile_first env p t (fst (upload_state a b' c d e))
                  (snd (upload_state a b' c d e))) as [rest Hrest];
      change (fst (upload_state a b' c d e), snd (upload_state a b' c d e))
        with (upload_state a b' c d e) in Ht, Hrest;
      destruct (OpenListClient.uploadFile env p t (upload_state a b' c d e))
        as [[u|e'] s3]
  end; simpl in Ht, Ho, Hrest; simpl;
    rewrite Ht in Hrest; apply app_inv_head in Hrest.
  - exists new, rest. split; [|split; [exact Ho | exact Hrest]].
    rewrite Ht, <- !app_assoc. reflexivity.
  - exists (new ++ [log_failure e']), (rest ++ [log_failure e']).
    split; [|split].
    + rewrite Ht, <- !app_assoc. reflexivity.
    + apply only_urls_app; [exact Ho | urls_ok].
    + rewrite Hrest. reflexivity.
Qed.

(** X15.  On a cache hit the document is not read from the storage service.
    After the configuration lookup the handler reads the clock and goes
    straight to the upload, sent by a client that holds the configured
    token, of the serialization of the cached document as the assignment of
    line 98 left it.
    Every request it sends is to the upload, list or login endpoint of the
    configured base URL, none to the endpoint that resolves files and none
    to a download URL. *)
Theorem cache_hit_reads_nothing (request : NextRequest) (w : World)
    (body : gmap string JsVal) (cfg : OpenListConfigT) (l : nat)
    (d0 : MetaInfo) :
  accepted env request w = Some (body, cfg) ->
  cache w !! rootPathOf cfg = Some l ->
  store w !! l = Some d0 ->
  let b := baseURL (clientOf cfg) in
  exists new rest,
    trace (snd (POST env request w)) = trace w ++ EvGetConfig :: EvNow :: new
    /\ new = putRequest env (clientOf cfg) (metainfoPath (rootPathOf cfg))
               (JSON_stringify env (corrected env body (entered cfg w) d0))
             :: rest
    /\ only_urls [putURL b; listURL b; loginURL b] new
    /\ requests_to (getURL b) new = 0%nat.
Proof.
  intros Hacc Hc Hl b.
  destruct (cache_hit_trace request w body cfg l d0 Hacc Hc Hl)
    as (new & rest & Ht & Ho & Hn).
  exists new, rest. split; [exact Ht|]. split; [exact Hn|]. split; [exact Ho|].
  eapply only_urls_requests_to; [exact Ho|].
  unfold getURL, putURL, listURL, loginURL.
  intros [H|[H|[H|[]]]]; apply append_cancel_l in H; discriminate.
Qed.

(** X16.  Corrections accumulate in the cached document.  When a successful
    correction is followed by another successful one for the same storage
    root, the second reads nothing from the storage service (it starts with
    the configuration lookup, the clock and the upload); it works on the
    object that the first one cached, which stays the cached one and now
    holds the document after the assignment of line 98; it leaves every
    folder but its own as the first left it; and, for a folder other than
    [__proto__], it stores its own entry. *)
Theorem second_correction_works_on_cached_document
    (request1 request2 : NextRequest) (w w1 w2 : World)
    (body1 body2 : gmap string JsVal) (cfg1 cfg2 : OpenListConfigT)
    (resp1 resp2 : NextResponse) :
  accepted env request1 w = Some (body1, cfg1) ->
  POST env request1 w = (Ok resp1, w1) ->
  res_status resp1 = 200%Z ->
  accepted env request2 w1 = Some (body2, cfg2) ->
  rootPathOf cfg2 = rootPathOf cfg1 ->
  POST env request2 w1 = (Ok resp2, w2) ->
  res_status resp2 = 200%Z ->
  let root := rootPathOf cfg1 in
  let b := baseURL (clientOf cfg2) in
  (exists new,
      trace w2 = trace w1 ++ EvGetConfig :: EvNow :: new
      /\ only_urls [putURL b; listURL b; loginURL b] new)
  /\ (exists l d1,
        cache w1 !! root = Some l /\ store w1 !! l = Some d1
        /\ cache w2 !! root = Some l
        /\ store w2 !! l = Some (corrected env body2 (entered cfg2 w1) d1))
  /\ (forall G, G <> folderOf env body2 ->
                cached_entry w2 root G = cached_entry w1 root G)
  /\ (folderOf env body2 <> "__proto__" ->
      cached_entry w2 root (folderOf env body2)
      = Some (newEntry body2 (clock env (trace w1 ++ [EvGetConfig])))).
Proof.
  intros Ha1 Hr1 Hs1 Ha2 Hroot Hr2 Hs2 root b.
  destruct (POST_success_digest env request1 w w1 body1 cfg1 resp1 Ha1 Hr1 Hs1)
    as (l & d0 & base & h & c & rest1 & _ & Hl0 & _ & Hst1 & Hca1 & _).
  set (d1 := set_folder (folderOf env body1) (newEntry body1 (clock env h)) d0)
    in *.
  assert (Hc1 : cache w1 !! rootPathOf cfg2 = Some l).
  { rewrite Hroot, Hca1. apply lookup_insert_eq. }
  assert (Hl1 : store w1 !! l = Some d1).
  { rewrite Hst1. apply list_lookup_insert_eq. eapply lookup_lt_Some, Hl0. }
  split.
  { destruct (cache_hit_trace request2 w1 body2 cfg2 l d1 Ha2 Hc1 Hl1)
      as (new & rest & Ht & Ho & _).
    rewrite Hr2 in Ht. exists new. auto. }
  pose proof (POST_hit_run request2 w1 body2 cfg2 l d1 Ha2 Hc1 Hl1) as Hrun.
  rewrite Hr2 in Hrun.
  match type of Hrun with
  | context [ OpenListClient.uploadFile env ?p ?t ?s ] =>
      pose proof (io_uploadFile env p t s) as (Hs3 & Hc3 & _);
      destruct (OpenListClient.uploadFile env p t s) as [[u|e] s3]
  end.
  2: { injection Hrun as -> _. discriminate Hs2. }
  injection Hrun as _ ->. simpl in Hs3, Hc3.
  assert (Hlive : <[l := corrected env body2 (entered cfg2 w1) d1]> (store w1) !! l
                  = Some (corrected env body2 (entered cfg2 w1) d1)).
  { apply list_lookup_insert_eq. eapply lookup_lt_Some, Hl1. }
  assert (Hce : forall G,
             cached_entry (recache (rootPathOf cfg2) l (snd s3)) root G
             = folders (corrected env body2 (entered cfg2 w1) d1) !! G).
  { intros G. unfold cached_entry, recache. simpl.
    unfold root. rewrite <- Hroot, lookup_insert_eq, Hs3, Hlive. reflexivity. }
  split.
  { exists l, d1. unfold root. rewrite <- Hroot.
    split; [exact Hc1|]. split; [exact Hl1|].
    split; [simpl; apply lookup_insert_eq|].
    simpl. rewrite Hs3. exact Hlive. }
  split.
  - intros G HG. rewrite Hce.
    unfold cached_entry. unfold root. rewrite <- Hroot, Hc1, Hl1.
    unfold corrected. apply set_folder_other, HG.
  - intros Hkey. rewrite Hce. unfold corrected. apply set_folder_own, Hkey.
Qed.

(** X17.  Submitting the same body twice gives the same entry, up to the time
    stamp: two successful corrections with equal bodies, for a folder other
    than [__proto__], store entries that agree on every field but
    [last_updated]. *)
Theorem same_body_same_entry (request1 request2 : NextRequest)
    (w1 w1' w2 w2' : World) (body : gmap string JsVal)
    (cfg1 cfg2 : OpenListConfigT) (resp1 resp2 : NextResponse) :
  folderOf env body <> "__proto__" ->
  accepted env request1 w1 = Some (body, cfg1) ->
  POST env request1 w1 = (Ok resp1, w1') ->
  res_status resp1 = 200%Z ->
  accepted env request2 w2 = Some (body, cfg2) ->
  POST env request2 w2 = (Ok resp2, w2') ->
  res_status resp2 = 200%Z ->
  exists e1 e2,
    cached_entry w1' (rootPathOf cfg1) (folderOf env body) = Some e1
    /\ cached_entry w2' (rootPathOf cfg2) (folderOf env body) = Some e2
    /\ e2 = mkFolderEntry (tmdb_id e1) (title e1) (poster_path e1)
              (release_date e1) (overview e1) (vote_average e1)
              (media_type e1) (last_updated e2) (failed e1).
Proof.
  intros Hkey Ha1 Hr1 Hs1 Ha2 Hr2 Hs2.
  destruct (POST_success_entry env request1 w1 w1' body cfg1 resp1 Ha1 Hkey Hr1 Hs1)
    as (l1 & d1 & c1 & h1 & pre1 & rest1 & _ & _ & Hc1 & Hl1 & He1).
  destruct (POST_success_entry env request2 w2 w2' body cfg2 resp2 Ha2 Hkey Hr2 Hs2)
    as (l2 & d2 & c2 & h2 & pre2 & rest2 & _ & _ & Hc2 & Hl2 & He2).
  exists (newEntry body (clock env h1)), (newEntry body (clock env h2)).
  rewrite (cached_entry_lookup w1' _ _ l1 d1 Hc1 Hl1).
  rewrite (cached_entry_lookup w2' _ _ l2 d2 Hc2 Hl2).
  auto.
Qed.
End CacheUse.

Lemma cache_written_only_on_success_witness :
  cache (snd (POST Fixture.env_denied Fixture.request Fixture.warm))
  = cache Fixture.warm.
Proof.
  exact (proj1 (cache_written_only_on_success Fixture.env_denied
                  Fixture.request Fixture.warm
                  (snd (POST Fixture.env_denied Fixture.request Fixture.warm))
                  (correction_failure (Error "OpenList 上传失败: 401 - "))
                  ltac:(vm_compute; reflexivity))
           ltac:(discriminate)).
Defined.

Lemma POST_rejected_witness :
  exists resp new,
    POST Fixture.env_ok Sample.request_without_id Fixture.warm
    = (Ok resp, log_events new Fixture.warm)
    /\ only_urls [] new /\ res_status resp <> 200%Z.
Proof.
  exact (POST_rejected_request_touches_nothing Fixture.env_ok
           Sample.request_without_id Fixture.warm
           ltac:(vm_compute; reflexivity)).
Defined.

Lemma cache_hit_witness :
  exists new,
    trace (snd (POST Fixture.env_ok Fixture.request Fixture.warm))
    = EvGetConfig :: EvNow :: new
    /\ requests_to "http://ol/api/fs/get" new = 0%nat.
Proof.
  destruct (cache_hit_reads_nothing Fixture.env_ok Fixture.request Fixture.warm
              Fixture.body Fixture.cfg 0%nat Fixture.doc
              ltac:(vm_compute; reflexivity) ltac:(reflexivity)
              ltac:(reflexivity)) as (new & rest & Ht & _ & _ & Hn).
  exists new. split; [exact Ht | exact Hn].
Defined.

Lemma second_correction_witness :
  cached_entry
    (snd (POST Fixture.env_ok Sample.request_other
            (snd (POST Fixture.env_ok Fixture.request Fixture.cold))))
    "/media" "Movie"
  = cached_entry (snd (POST Fixture.env_ok Fixture.request Fixture.cold))
      "/media" "Movie".
Proof.
  destruct (second_correction_works_on_cached_document Fixture.env_ok
              Fixture.request Sample.request_other
              Fixture.cold
              (snd (POST Fixture.env_ok Fixture.request Fixture.cold))
              (snd (POST Fixture.env_ok Sample.request_other
                      (snd (POST Fixture.env_ok Fixture.request Fixture.cold))))
              Fixture.body Sample.body_other
              Fixture.cfg Fixture.cfg success success
              ltac:(vm_compute; reflexivity) ltac:(vm_compute; reflexivity)
              ltac:(reflexivity) ltac:(vm_compute; reflexivity)
              ltac:(reflexivity) ltac:(vm_compute; reflexivity)
              ltac:(reflexivity)) as (_ & _ & H & _).
  exact (H "Movie" ltac:(discriminate)).
Defined.

Lemma same_body_witness :
  exists e1 e2,
    cached_entry (snd (POST Fixture.env_ok Fixture.request Fixture.cold))
      "/media" "Movie" = Some e1
    /\ cached_entry (snd (POST Fixture.env_ok Fixture.request Fixture.warm))
         "/media" "Movie" = Some e2
    /\ title e2 = title e1 /\ tmdb_id e2 = tmdb_id e1.
Proof.
  destruct (same_body_same_entry Fixture.env_ok Fixture.request Fixture.request
              Fixture.cold
              (snd (POST Fixture.env_ok Fixture.request Fixture.cold))
              Fixture.warm
              (snd (POST Fixture.env_ok Fixture.request Fixture.warm))
              Fixture.body Fixture.cfg Fixture.cfg success success
              ltac:(vm_compute; intros H; discriminate H)
              ltac:(vm_compute; reflexivity) ltac:(vm_compute; reflexivity)
              ltac:(reflexivity) ltac:(vm_compute; reflexivity)
              ltac:(vm_compute; reflexivity) ltac:(reflexivity))
    as (e1 & e2 & H1 & H2 & He).
  exists e1, e2. split; [exact H1|]. split; [exact H2|].
  rewrite He. split; reflexivity.
Defined.

(** ** The download of the read phase (lines 61-80) *)

Section Download.
Context (env : Env).

(** X18.  The read phase keeps the token inside the storage API.  Through
    [getFile] it talks to the endpoint that resolves files and to the login
    endpoint only.  When [getFile] returns a file with code 200 and a
    non-empty [raw_url], it then sends exactly one more request, the last
    one: the download of that [raw_url], with exactly the three
    browser-like headers of line 67 and therefore without an
    [Authorization] header.  When [getFile] throws, or returns without
    such a file, nothing is downloaded. *)
Theorem read_phase_downloads_without_token (rootPath : string) (c : Client)
    (w : World) :
  let b := baseURL c in
  let resolved := OpenListClient.getFile env (metainfoPath rootPath) (c, w) in
  let after := trace (snd (snd (POST_read env rootPath (c, w)))) in
  (exists api,
      trace (snd (snd resolved)) = trace w ++ api
      /\ only_urls [getURL b; loginURL b] api)
  /\ (forall f u,
        fst resolved = Ok f ->
        code f = 200%Z -> raw_url (data f) = Some u -> truthy_str u = true ->
        after = trace (snd (snd resolved)) ++ [EvFetch u downloadOptions])
  /\ (forall f,
        fst resolved = Ok f ->
        code f <> 200%Z \/ truthy_opt (raw_url (data f)) = false ->
        after = trace (snd (snd resolved)))
  /\ (forall e, fst resolved = Throw e -> after = trace (snd (snd resolved)))
  /\ dom (headers downloadOptions)
     = ({["User-Agent"; "Accept"; "Accept-Language"]} : gset string)
  /\ headers downloadOptions !! "Authorization" = None
  /\ method downloadOptions = None /\ body downloadOptions = None.
Proof.
  intros b resolved after.
  split.
  { pose proof (contacts_getFile env (metainfoPath rootPath) c w)
      as (_ & _ & _ & api & Ht & Ho).
    exists api. split; [exact Ht | exact Ho]. }
  assert (Hafter : after
            = trace (snd (snd (POST_read env rootPath (c, w))))) by reflexivity.
  unfold POST_read, bind in Hafter. fold resolved in Hafter.
  destruct resolved as [[f|e] [c1 w1]] eqn:Hget; simpl.
  - split; [|split; [|split]].
    + intros f' u Hf Hcode Hraw Hu. injection Hf as <-.
      apply Z.eqb_eq in Hcode. rewrite Hcode, Hraw in Hafter. simpl in Hafter.
      rewrite Hu in Hafter. unfold liftW at 1 in Hafter. unfold fetch in Hafter.
      simpl in Hafter. fold downloadOptions in Hafter.
      destruct (net env _ _ _) as [r|e]; simpl in Hafter; [|exact Hafter].
      destruct (negb (ok r)); simpl in Hafter; [exact Hafter|].
      unfold liftW, parse_document in Hafter. simpl in Hafter.
      destruct (JSON_parse env (text r)) as [[d|]|e]; exact Hafter.
    + intros f' Hf Hno. injection Hf as <-.
      destruct Hno as [Hcode | Hraw].
      * apply Z.eqb_neq in Hcode. rewrite Hcode in Hafter. exact Hafter.
      * rewrite Hraw, andb_false_r in Hafter. exact Hafter.
    + intros e He. discriminate He.
    + split; [|repeat split].
      unfold downloadOptions, download_headers. simpl.
      rewrite !dom_insert_L, dom_empty_L. set_solver.
  - split; [|split; [|split]].
    + intros f u Hf. discriminate Hf.
    + intros f Hf. discriminate Hf.
    + intros e' _. exact Hafter.
    + split; [|repeat split].
      unfold downloadOptions, download_headers. simpl.
      rewrite !dom_insert_L, dom_empty_L. set_solver.
Qed.
End Download.

(** X18 at a service that resolves the document to a download address. *)
Lemma read_phase_witness :
  trace (snd (snd (POST_read Fixture.env_ok "/media"
                     (Sample.client_fresh, Fixture.cold))))
  = trace (snd (snd (OpenListClient.getFile Fixture.env_ok "/media/metainfo.json"
                       (Sample.client_fresh, Fixture.cold))))
    ++ [EvFetch "http://dl/metainfo.json" downloadOptions].
Proof.
  destruct (read_phase_downloads_without_token Fixture.env_ok "/media"
              Sample.client_fresh Fixture.cold) as (_ & H & _).
  exact (H (mkOpenListGetResponse 200 "success" Fixture.file)
           "http://dl/metainfo.json"
           ltac:(vm_compute; reflexivity) ltac:(reflexivity)
           ltac:(reflexivity) ltac:(reflexivity)).
Defined.

(** ** Instances of the runs of the retry wrapper *)


Lemma refreshToken_never_throws_witness :
  OpenListClient.refreshToken Fixture.env_denied
    (clientOf Fixture.cfg, Fixture.cold)
  = (Ok false,
     (clientOf Fixture.cfg,
      log_events
        [announce_refresh;
         loginRequest (clientOf Fixture.cfg) "admin" "secret";
         refresh_failed (Error "OpenList 登录失败: 401")]
        Fixture.cold)).
Proof.
  destruct (refreshToken_never_throws Fixture.env_denied
              (clientOf Fixture.cfg) Fixture.cold)
    as (b & c' & new & Hrun & _ & _ & _ & _ & Hlogin).
  destruct (Hlogin "admin" "secret" ltac:(reflexivity) ltac:(reflexivity)
              ltac:(reflexivity) ltac:(reflexivity)) as [Hfail _].
  destruct (Hfail (Error "OpenList 登录失败: 401") ltac:(vm_compute; reflexivity))
    as (-> & -> & ->).
  exact Hrun.
Defined.
